(** * ia2xl: assembling a coding workbook from an interview

    A shallow embedding of [ia2xl.py].  The program drives the openpyxl
    spreadsheet library; the fragment of that library it exercises is
    modelled first (cells kept in a dictionary keyed by (row, column),
    appended rows and the check of cell strings, sheet titles and their
    checks, coordinate strings, data-validation rules), then the
    functions of the module are transcribed over it.

    Python exceptions are values of [exn]; a computation that may raise
    has type [result A]. *)

From Stdlib Require Import ZArith QArith Ascii String DecimalString DecimalNat.
From Stdlib Require Import Floats.SpecFloat.
From stdpp Require Import gmap strings list fin_maps list_numbers.

Local Open Scope string_scope.
Local Open Scope nat_scope.
Local Open Scope list_scope.

(** ** Exceptions *)

Inductive exn : Type :=
  | ValueError (msg : string)
  | AttributeError (msg : string)
  | TypeError (msg : string)
  | IndexError (msg : string)
  | IllegalCharacterError (msg : string).

Inductive result (A : Type) : Type :=
  | Ok (a : A)
  | Raise (e : exn).
Arguments Ok {A} a.
Arguments Raise {A} e.

(** The exception monad, with stdpp's [x ← m; k] notation. *)
Global Instance result_ret : MRet result := @Ok.
Global Instance result_bind : MBind result := λ A B k m,
  match m with
  | Ok a => k a
  | Raise e => Raise e
  end.

(** [for x in xs: body] where the body may raise: the state is threaded
    from left to right and the first exception ends the loop. *)
Fixpoint for_each {S X} (body : S → X → result S) (s : S) (xs : list X)
  : result S :=
  match xs with
  | [] => Ok s
  | x :: xs' => s' ← body s x; for_each body s' xs'
  end.

(** [enumerate(xs, start)] *)
Definition enumerate {X} (xs : list X) (start : nat) : list (nat * X) :=
  zip (seq start (length xs)) xs.

(** ** Python text primitives *)

(** [str(n)] for a non-negative integer: its decimal numeral. *)
Definition py_str (n : nat) : string :=
  NilEmpty.string_of_uint (Nat.to_uint n).

Definition byte (n : N) : ascii := ascii_of_N n.

(** [chr(n)].  A Python string is represented by its UTF-8 bytes, so
    [chr] yields the encoding of code point [n]; code points from
    0x110000 on raise. *)
Definition chr (n : nat) : result string :=
  let c := N.of_nat n in
  if (c <? 128)%N then Ok (String (byte c) "")
  else if (c <? 2048)%N then
    Ok (String (byte (192 + c / 64)) (String (byte (128 + c mod 64)) ""))
  else if (c <? 65536)%N then
    Ok (String (byte (224 + c / 4096))
       (String (byte (128 + (c / 64) mod 64))
       (String (byte (128 + c mod 64)) "")))
  else if (c <? 1114112)%N then
    Ok (String (byte (240 + c / 262144))
       (String (byte (128 + (c / 4096) mod 64))
       (String (byte (128 + (c / 64) mod 64))
       (String (byte (128 + c mod 64)) ""))))
  else Raise (ValueError "chr() arg not in range(0x110000)").

Definition is_letter (a : ascii) : bool :=
  let n := nat_of_ascii a in
  ((65 <=? n) && (n <=? 90)) || ((97 <=? n) && (n <=? 122)).

Definition is_digit (a : ascii) : bool :=
  let n := nat_of_ascii a in (48 <=? n) && (n <=? 57).

(** Longest prefix of [s] whose characters satisfy [p], and the rest. *)
Fixpoint span (p : ascii → bool) (s : string) : string * string :=
  match s with
  | String a s' =>
      if p a then let '(x, y) := span p s' in (String a x, y)
      else ("", s)
  | EmptyString => ("", "")
  end.

Fixpoint string_forall (p : ascii → bool) (s : string) : bool :=
  match s with
  | String a s' => p a && string_forall p s'
  | EmptyString => true
  end.

(** The first character of a class in a text. *)
Fixpoint string_find (p : ascii → bool) (s : string) : option ascii :=
  match s with
  | String a s' => if p a then Some a else string_find p s'
  | EmptyString => None
  end.

(** A byte that continues a UTF-8 sequence (10xxxxxx): every other
    byte starts a character. *)
Definition is_continuation (a : ascii) : bool :=
  let n := N_of_ascii a in (128 <=? n)%N && (n <? 192)%N.

(** [s[:n]]: the first [n] characters of [s]. *)
Fixpoint str_take (n : N) (s : string) : string :=
  match s with
  | String a s' =>
      if is_continuation a then String a (str_take n s')
      else if (n =? 0)%N then "" else String a (str_take (n - 1) s')
  | EmptyString => ""
  end.

(** [len(s)]: the number of characters of [s]. *)
Fixpoint py_len (s : string) : N :=
  match s with
  | String a s' => if is_continuation a then py_len s' else (1 + py_len s')%N
  | EmptyString => 0%N
  end.

(** [s.lower()] and the test for ASCII text: on ASCII text [lower] maps
    A..Z to a..z and nothing else. *)
Definition is_ascii (a : ascii) : bool := (N_of_ascii a <? 128)%N.

Definition lower_ascii (a : ascii) : ascii :=
  let n := N_of_ascii a in
  if (65 <=? n)%N && (n <=? 90)%N then ascii_of_N (n + 32) else a.

Fixpoint ascii_lower (s : string) : string :=
  match s with
  | String a s' => String (lower_ascii a) (ascii_lower s')
  | EmptyString => ""
  end.

(** [sep.join(xs)] *)
Fixpoint join (sep : string) (xs : list string) : string :=
  match xs with
  | [] => ""
  | [x] => x
  | x :: xs' => x +:+ sep +:+ join sep xs'
  end.

(** [str(z)] for an integer. *)
Definition py_str_int (z : Z) : string :=
  if (z <? 0)%Z then "-" +:+ py_str (Z.to_nat (- z)) else py_str (Z.to_nat z).

(** [max(zs)] on a list with an element. *)
Definition py_max (zs : list Z) : Z :=
  match zs with
  | [] => 0%Z
  | z :: zs' => foldl Z.max z zs'
  end.

(** ** openpyxl coordinates

    [openpyxl.utils.cell]: a reference is matched against
    [[$]?([A-Za-z]{1,3})?[$]?(\d+)?(:[$]?([A-Za-z]{1,3})?[$]?(\d+)?)?]
    anchored at both ends.  The classes of the pattern are disjoint, so
    the match is found by reading greedily from the left. *)

Definition drop_dollar (s : string) : string :=
  match s with
  | String a s' => if Ascii.eqb a "$" then s' else s
  | EmptyString => s
  end.

(** [column_index_from_string]: letters read as a bijective base-26
    numeral, case folded. *)
Definition letter_value (a : ascii) : nat :=
  let n := nat_of_ascii a in if 97 <=? n then n - 96 else n - 64.

Fixpoint column_index_acc (acc : nat) (s : string) : nat :=
  match s with
  | String a s' => column_index_acc (acc * 26 + letter_value a) s'
  | EmptyString => acc
  end.

Definition column_index_from_string (s : string) : nat :=
  column_index_acc 0 s.

Definition int_of_digits (s : string) : option nat :=
  Nat.of_uint <$> NilEmpty.uint_of_string s.

(** One side of a reference: optional column letters, optional row
    digits, and what follows them.  [None] when more than three letters
    are present (the pattern cannot match). *)
Definition parse_ref (s : string)
  : option (option nat * option nat * string) :=
  let '(letters, s1) := span is_letter (drop_dollar s) in
  let '(digits, s2) := span is_digit (drop_dollar s1) in
  if 3 <? String.length letters then None
  else
    Some (match letters with
          | "" => None
          | _ => Some (column_index_from_string letters)
          end,
          match digits with
          | "" => None
          | _ => int_of_digits digits
          end,
          s2).

Definition not_a_coordinate (s : string) : exn :=
  ValueError (s +:+ " is not a valid coordinate or range").

Definition is_some {A} (o : option A) : bool :=
  match o with Some _ => true | None => false end.

(** [range_boundaries(range_string)] -> (min_col, min_row, max_col, max_row) *)
Definition range_boundaries (range_string : string)
  : result (option nat * option nat * option nat * option nat) :=
  match parse_ref range_string with
  | None => Raise (not_a_coordinate range_string)
  | Some (min_col, min_row, rest) =>
      match rest with
      | "" => Ok (min_col, min_row, min_col, min_row)
      | String sep rest' =>
          if negb (Ascii.eqb sep ":") then Raise (not_a_coordinate range_string)
          else
          match parse_ref rest' with
          | Some (max_col, max_row, "") =>
              let cols := is_some min_col && is_some max_col in
              let rows := is_some min_row && is_some max_row in
              let any_col := is_some min_col || is_some max_col in
              let any_row := is_some min_row || is_some max_row in
              if (cols && rows) || (cols && negb any_row)
                 || (rows && negb any_col)
              then Ok (min_col, min_row,
                       match max_col with Some c => Some c | None => min_col end,
                       match max_row with Some r => Some r | None => min_row end)
              else Raise (not_a_coordinate range_string)
          | _ => Raise (not_a_coordinate range_string)
          end
      end
  end.

Definition truthy (o : option nat) : bool :=
  match o with Some (S _) => true | _ => false end.

Fixpoint has_colon (s : string) : bool :=
  match s with
  | String a s' => Ascii.eqb a ":" || has_colon s'
  | EmptyString => false
  end.

(** What [ws[key]] denotes: one cell, or a tuple of cells when the key
    names a row, a column or a range. *)
Inductive item : Type :=
  | ItemCell (row column : nat)
  | ItemTuple.

(** [Worksheet.__getitem__(key)], up to the choice of the cell(s). *)
Definition getitem_target (key : string) : result item :=
  '(min_col, min_row, max_col, max_row) ← range_boundaries key;
  if negb (truthy min_col || truthy min_row || truthy max_col || truthy max_row)
  then Raise (IndexError (key +:+ " is not a valid coordinate or range"))
  else
    match min_row, min_col with
    | None, _ => Ok ItemTuple
    | _, None => Ok ItemTuple
    | Some r, Some c => if has_colon key then Ok ItemTuple else Ok (ItemCell r c)
    end.

(** [openpyxl.worksheet.cell_range.CellRange]: a rectangle of cells.
    Each bound is an integer between 1 and the sheet limit (18278
    columns, 1048576 rows), checked when it is stored. *)
Record CellRange : Type := mkCellRange {
  min_col : nat;
  min_row : nat;
  max_col : nat;
  max_row : nat
}.

Definition MAX_COLUMN : N := 18278.
Definition MAX_ROW : N := 1048576.

Definition MinMax (limit : N) (v : option nat) : result nat :=
  match v with
  | None => Raise (TypeError "expected <class 'int'>")
  | Some n =>
      if n <? 1 then Raise (ValueError "Min value is 1")
      else if (limit <? N.of_nat n)%N then
        Raise (ValueError ("Max value is "
                             +:+ NilEmpty.string_of_uint (N.to_uint limit)))
      else Ok n
  end.

(** [CellRange(range_string)] *)
Definition CellRange_of_string (range_string : string) : result CellRange :=
  '(c1, r1, c2, r2) ← range_boundaries range_string;
  c1 ← MinMax MAX_COLUMN c1;
  r1 ← MinMax MAX_ROW r1;
  c2 ← MinMax MAX_COLUMN c2;
  r2 ← MinMax MAX_ROW r2;
  if c2 <? c1 then
    Raise (ValueError (py_str c2 +:+ " must be greater than " +:+ py_str c1))
  else if r2 <? r1 then
    Raise (ValueError (py_str r2 +:+ " must be greater than " +:+ py_str r1))
  else Ok (mkCellRange c1 r1 c2 r2).

(** [get_column_letter(col_idx)] *)
Definition get_column_letter (col_idx : nat) : result string :=
  if (col_idx <? 1) || (MAX_COLUMN <? N.of_nat col_idx)%N then
    Raise (ValueError ("Invalid column index " +:+ py_str col_idx))
  else
    let digit (n : nat) : nat * nat :=        (* divmod with borrow *)
      let q := n / 26 in let r := n mod 26 in
      if r =? 0 then (q - 1, 26) else (q, r) in
    let letter (r : nat) : string := String (byte (N.of_nat (r + 64))) "" in
    let '(n1, r0) := digit col_idx in
    if n1 =? 0 then Ok (letter r0)
    else
      let '(n2, r1) := digit n1 in
      if n2 =? 0 then Ok (letter r1 +:+ letter r0)
      else
        let '(_, r2) := digit n2 in
        Ok (letter r2 +:+ letter r1 +:+ letter r0).

(** ** Cells and worksheets *)

Inductive pyvalue : Type :=
  | VNone
  | VStr (s : string)
  | VInt (z : Z)
  | VFloat (f : spec_float).

(** [openpyxl.styles.Protection] *)
Record Protection : Type := mkProtection {
  locked : bool;
  hidden : bool
}.

(** A cell: its value, its lock override, and whether the module's
    [BORDER] and [ALIGN] styles were assigned to it. *)
Record Cell : Type := mkCell {
  cell_value : pyvalue;
  protection : Protection;
  border : bool;
  alignment : bool
}.

(** [Cell(ws, row, column, value)]: locked and unstyled. *)
Definition new_cell (v : pyvalue) : Cell :=
  mkCell v (mkProtection true false) false false.

Definition set_protection (p : Protection) (c : Cell) : Cell :=
  mkCell (cell_value c) p (border c) (alignment c).
Definition set_border (c : Cell) : Cell :=
  mkCell (cell_value c) (protection c) true (alignment c).
Definition set_alignment (c : Cell) : Cell :=
  mkCell (cell_value c) (protection c) (border c) true.

(** [ILLEGAL_CHARACTERS_RE]: the control characters other than tab,
    line feed and carriage return. *)
Definition is_illegal (a : ascii) : bool :=
  let n := N_of_ascii a in
  (n <=? 8)%N || ((11 <=? n)%N && (n <=? 12)%N) || ((14 <=? n)%N && (n <=? 31)%N).

(** [Cell.check_string(value)]: the text is cut at 32767 characters,
    and what is left may hold no illegal character. *)
Definition check_string (value : string) : result string :=
  let value := str_take 32767 value in
  match string_find is_illegal value with
  | Some _ =>
      Raise (IllegalCharacterError (value +:+ " cannot be used in worksheets."))
  | None => Ok value
  end.

(** Assignment to [cell.value]: texts are checked, other values are
    kept as they are. *)
Definition bind_value (v : pyvalue) : result pyvalue :=
  match v with
  | VStr s => s ← check_string s; Ok (VStr s)
  | _ => Ok v
  end.

(** [openpyxl.worksheet.datavalidation.DataValidation] *)
Record DataValidation : Type := mkDataValidation {
  dv_type : string;
  formula1 : string;
  allow_blank : bool;
  sqref : list CellRange
}.

(** [dv.add(cell)]: the coordinate is turned into a [CellRange] and
    joined to the rule's targets unless one of them already covers it. *)
Definition covers (outer inner : CellRange) : bool :=
  (min_row outer <=? min_row inner) && (max_row inner <=? max_row outer)
  && (min_col outer <=? min_col inner) && (max_col inner <=? max_col outer).

Definition dv_add (cell : string) (dv : DataValidation) : result DataValidation :=
  cr ← CellRange_of_string cell;
  if existsb (λ r, covers r cr) (sqref dv) then Ok dv
  else Ok (mkDataValidation (dv_type dv) (formula1 dv) (allow_blank dv)
                            (sqref dv ++ [cr])).

(** Page setup touched by the module. *)
Record PageSetup : Type := mkPageSetup {
  orientation : option string;
  fitToHeight : option nat;
  fitToWidth : option nat
}.

Record Worksheet : Type := mkWorksheet {
  title : string;
  _cells : gmap (nat * nat) Cell;        (* keyed by (row, column) *)
  _current_row : nat;
  protection_sheet : bool;               (* sheet.protection.sheet *)
  protection_password : option string;   (* as given, before hashing *)
  sheet_state : string;
  data_validations : list DataValidation;
  column_widths : gmap string Q;         (* column_dimensions[..].width *)
  page_setup : PageSetup
}.

Definition Worksheet_new (t : string) : Worksheet :=
  mkWorksheet t ∅ 0 false None "visible" [] ∅ (mkPageSetup None None None).

Definition with_title (t : string) (ws : Worksheet) : Worksheet :=
  mkWorksheet t (_cells ws) (_current_row ws) (protection_sheet ws)
    (protection_password ws) (sheet_state ws) (data_validations ws)
    (column_widths ws) (page_setup ws).

Definition with_cells (m : gmap (nat * nat) Cell) (cur : nat) (ws : Worksheet)
  : Worksheet :=
  mkWorksheet (title ws) m cur (protection_sheet ws)
    (protection_password ws) (sheet_state ws) (data_validations ws)
    (column_widths ws) (page_setup ws).

(** [ws.protection.enable()] *)
Definition protection_enable (ws : Worksheet) : Worksheet :=
  mkWorksheet (title ws) (_cells ws) (_current_row ws) true
    (protection_password ws) (sheet_state ws) (data_validations ws)
    (column_widths ws) (page_setup ws).

(** [ws.protection.password = pwd] *)
Definition with_password (pwd : string) (ws : Worksheet) : Worksheet :=
  mkWorksheet (title ws) (_cells ws) (_current_row ws) (protection_sheet ws)
    (Some pwd) (sheet_state ws) (data_validations ws)
    (column_widths ws) (page_setup ws).

Definition with_sheet_state (st : string) (ws : Worksheet) : Worksheet :=
  mkWorksheet (title ws) (_cells ws) (_current_row ws) (protection_sheet ws)
    (protection_password ws) st (data_validations ws)
    (column_widths ws) (page_setup ws).

(** [ws.add_data_validation(dv)] *)
Definition add_data_validation (dv : DataValidation) (ws : Worksheet)
  : Worksheet :=
  mkWorksheet (title ws) (_cells ws) (_current_row ws) (protection_sheet ws)
    (protection_password ws) (sheet_state ws) (data_validations ws ++ [dv])
    (column_widths ws) (page_setup ws).

Definition with_column_widths (w : gmap string Q) (ws : Worksheet) : Worksheet :=
  mkWorksheet (title ws) (_cells ws) (_current_row ws) (protection_sheet ws)
    (protection_password ws) (sheet_state ws) (data_validations ws)
    w (page_setup ws).

Definition with_page_setup (ps : PageSetup) (ws : Worksheet) : Worksheet :=
  mkWorksheet (title ws) (_cells ws) (_current_row ws) (protection_sheet ws)
    (protection_password ws) (sheet_state ws) (data_validations ws)
    (column_widths ws) ps.

(** [ws.max_row] and [ws.max_column]: the largest row (column) index that
    holds a cell, 1 on a sheet without cells. *)
Definition ws_max_row (ws : Worksheet) : nat :=
  match (map_to_list (_cells ws)).*1.*1 with
  | [] => 1
  | rows => max_list rows
  end.

Definition ws_max_column (ws : Worksheet) : nat :=
  match (map_to_list (_cells ws)).*1.*2 with
  | [] => 1
  | cols => max_list cols
  end.

(** [ws.append(iterable)]: a fresh cell per item in the row after
    [_current_row], columns counted from 1; a text that the cell refuses
    ends the call. *)
Definition ws_append (row : list pyvalue) (ws : Worksheet) : result Worksheet :=
  let row_idx := S (_current_row ws) in
  cells ← for_each (λ m '(col_idx, content),
                      v ← bind_value content;
                      Ok (<[(row_idx, col_idx) := new_cell v]> m))
                   (_cells ws) (enumerate row 1);
  Ok (with_cells cells row_idx ws).

(** [ws._get_cell(row, column)]: the cell at that position, created empty
    (and [_current_row] raised to its row) when there is none. *)
Definition ws_get_cell (row column : nat) (ws : Worksheet) : Worksheet :=
  match _cells ws !! (row, column) with
  | Some _ => ws
  | None =>
      with_cells (<[(row, column) := new_cell VNone]> (_cells ws))
                 (row `max` _current_row ws) ws
  end.

(** Assignment to an attribute of the cell object at (row, column). *)
Definition ws_cell_set (f : Cell → Cell) (row column : nat) (ws : Worksheet)
  : Worksheet :=
  let ws := ws_get_cell row column ws in
  with_cells (alter f (row, column) (_cells ws)) (_current_row ws) ws.

(** [ws[key].protection = p] *)
Definition ws_setitem_protection (key : string) (p : Protection)
  (ws : Worksheet) : result Worksheet :=
  it ← getitem_target key;
  match it with
  | ItemCell r c => Ok (ws_cell_set (set_protection p) r c ws)
  | ItemTuple => Raise (AttributeError "'tuple' object has no attribute 'protection'")
  end.

(** [ws.rows]: nothing on a sheet that never received a row; otherwise
    rows 1..max_row, each spanning columns 1..max_column, the bounds being
    read when the iteration starts. *)
Definition ws_rows (ws : Worksheet) : list (nat * list nat) :=
  if _current_row ws =? 0 then []
  else (λ r, (r, seq 1 (ws_max_column ws))) <$> seq 1 (ws_max_row ws).

(** Yielding a row materialises its cells. *)
Definition ws_yield_row (r : nat) (cols : list nat) (ws : Worksheet) : Worksheet :=
  foldl (λ ws c, ws_get_cell r c ws) ws cols.

(** ** Workbooks

    A workbook is the list of its sheets; a sheet object held by the
    program is referred to by its position in that list. *)

Abbreviation Workbook := (list Worksheet).
Abbreviation handle := nat (only parsing).

Definition Workbook_new : Workbook := [Worksheet_new "Sheet"].

Definition sheetnames (wb : Workbook) : list string := title <$> wb.

(** [INVALID_TITLE_REGEX]: the characters that a title may not hold. *)
Definition invalid_title_char (a : ascii) : bool :=
  bool_decide (a ∈ ["092"; "*"; "?"; ":"; "/"; "["; "]"]%char).

(** The sheet behind a handle. *)
Definition sheet_at (wb : Workbook) (h : handle) : Worksheet :=
  default (Worksheet_new "") (wb !! h).

(** ** Observations on sheets *)

(** A column identifier: one to three ASCII letters. *)
Definition column_identifier (idx : string) : bool :=
  (1 <=? String.length idx) && (String.length idx <=? 3)
  && string_forall is_letter idx.

(** [ws.values]: the rows of the sheet as lists of values, blank where
    the sheet holds no cell. *)
Definition ws_values (ws : Worksheet) : list (list pyvalue) :=
  if _current_row ws =? 0 then []
  else
    (λ r, (λ c, from_option cell_value VNone (_cells ws !! (r, c)))
            <$> seq 1 (ws_max_column ws))
    <$> seq 1 (ws_max_row ws).

(** What a cell keeps of a value that it accepts, and the values that
    it accepts: a text is kept up to its character 32767, and is
    accepted when none of these is illegal. *)
Definition stored (v : pyvalue) : pyvalue :=
  match v with
  | VStr s => VStr (str_take 32767 s)
  | _ => v
  end.

Definition legal_text (s : string) : bool :=
  bool_decide (string_find is_illegal (str_take 32767 s) = None).

Definition legal_value (v : pyvalue) : bool :=
  match v with
  | VStr s => legal_text s
  | _ => true
  end.

(** The row that [ws.append] leaves for values that the cells keep as
    they are. *)
Definition store_row (row : list pyvalue) (ws : Worksheet) : Worksheet :=
  let row_idx := S (_current_row ws) in
  with_cells
    (foldl (λ m '(col_idx, content), <[(row_idx, col_idx) := new_cell content]> m)
           (_cells ws) (enumerate row 1))
    row_idx ws.

(** A title that the setter accepts. *)
Definition valid_title (t : string) : bool :=
  negb (String.eqb t "") && bool_decide (string_find invalid_title_char t = None).

(** Whether the cell at (row, column) may be edited under sheet
    protection; a position without a cell is locked. *)
Definition is_unlocked (ws : Worksheet) (r c : nat) : bool :=
  match _cells ws !! (r, c) with
  | Some x => negb (locked (protection x))
  | None => false
  end.

(** The value at (row, column) of a list of rows, both counted from 1. *)
Definition grid_lookup (rows : list (list pyvalue)) (r c : nat) : option pyvalue :=
  match r, c with
  | S r', S c' => rows !! r' ≫= (.!! c')
  | _, _ => None
  end.

(** A sheet that holds exactly the rows [rows], as appended. *)
Definition holds_rows (rows : list (list pyvalue)) (ws : Worksheet) : Prop :=
  _current_row ws = length rows
  ∧ ∀ r c, cell_value <$> (_cells ws !! (r, c)) = grid_lookup rows r c.

(** The ranges targeted by the validation rules of a sheet. *)
Definition validated_ranges (ws : Worksheet) : list CellRange :=
  data_validations ws ≫= sqref.

(** The character that follows a run: none, or one outside the class. *)
Definition stops (p : ascii → bool) (rest : string) : Prop :=
  match rest with
  | String a _ => p a = false
  | EmptyString => True
  end.

(** What may follow a cell reference inside a coordinate: the end of the
    text or the colon of a range. *)
Definition ref_end (rest : string) : Prop :=
  rest = "" ∨ ∃ rest', rest = String ":" rest'.

(** [ws'] differs from [ws] in its cells (and row counter) only. *)
Definition cells_only (ws ws' : Worksheet) : Prop :=
  ∃ m cur, ws' = with_cells m cur ws.

(** ** Inputs

    The configuration and the interview arrive parsed (by caastools);
    the model starts from the parsed objects. *)

Record PropertyValue : Type := mkPropertyValue {
  value : string;
  description : string;
  property_value_id : string;
  pv_property_id : string
}.

(** The class of a property object: what
    [isinstance(cp, _GlobalProperty)] tests. *)
Inductive PropertyClass : Type := CodingProperty | GlobalProperty.

Global Instance PropertyClass_eq_dec : EqDecision PropertyClass.
Proof. solve_decision. Defined.

Record Property : Type := mkProperty {
  property_class : PropertyClass;
  display_name : string;
  property_id : string;
  data_type : string;
  decimal_digits : Z;
  property_values : list PropertyValue     (* iteration order of the property *)
}.

Record Utterance : Type := mkUtterance {
  line_number : Z;
  utterance_number : Z;
  speaker_role : string;
  utterance_text : string
}.

Record IaConfiguration : Type := mkIaConfiguration {
  coding_properties : list Property;
  global_properties : list Property
}.

Record InterviewData : Type := mkInterviewData {
  utterances : list Utterance
}.

(** The constructor chosen for the value column. *)
Inductive constructor : Type := py_int_type | py_float_type | py_str_type.

Definition UNLOCKED : Protection := mkProtection false false.

(** The library functions on plain text.  [int]: a decimal numeral
    with an optional sign, spaces around it dropped. *)
Definition is_space (a : ascii) : bool :=
  let n := nat_of_ascii a in (n =? 32) || ((9 <=? n) && (n <=? 13)).

Fixpoint lstrip (s : string) : string :=
  match s with
  | String a s' => if is_space a then lstrip s' else s
  | EmptyString => ""
  end.

Definition signed (s : string) : bool * string :=
  match s with
  | String "-" s' => (true, s')
  | String "+" s' => (false, s')
  | _ => (false, s)
  end.

Definition decimal_int (s : string) : option Z :=
  let '(negative, s) := signed (lstrip s) in
  let '(digits, rest) := span is_digit s in
  if String.eqb digits "" || negb (String.eqb (lstrip rest) "") then None
  else (λ n, if negative then (- Z.of_nat n)%Z else Z.of_nat n)
         <$> int_of_digits digits.

(** [float]: a decimal literal with an optional sign and an optional
    fraction, of at most 15 digits: the double nearest to it. *)
Definition binary64 (z : Z) (negative : bool) : spec_float :=
  binary_normalize 53 1024 z 0 negative.

Definition decimal_float (s : string) : option spec_float :=
  let '(negative, s) := signed (lstrip s) in
  let '(whole, rest) := span is_digit s in
  let '(fraction, rest) :=
    match rest with
    | String "." rest' => span is_digit rest'
    | _ => ("", rest)
    end in
  if String.eqb (whole +:+ fraction) ""
     || (15 <? String.length (whole +:+ fraction))
     || negb (String.eqb (lstrip rest) "") then None
  else
    (λ n, SFdiv 53 1024
            (binary64 (if negative then - Z.of_nat n else Z.of_nat n) negative)
            (binary64 (10 ^ Z.of_nat (String.length fraction)) false))
      <$> int_of_digits (whole +:+ fraction).

(** [quote_sheetname]: apostrophes doubled, and the whole between
    apostrophes. *)
Fixpoint double_apostrophes (s : string) : string :=
  match s with
  | String "'" s' => String "'" (String "'" (double_apostrophes s'))
  | String a s' => String a (double_apostrophes s')
  | EmptyString => ""
  end.

Definition quote_plain (s : string) : string :=
  "'" +:+ double_apostrophes s +:+ "'".

(** [findall] of the title pattern on ASCII text: at each place where
    the title is read, in any case, the text read, the digits that
    follow it, and past an optional comma. *)
Fixpoint strip_prefix_ci (v s : string) : option (string * string) :=
  match v, s with
  | EmptyString, _ => Some ("", s)
  | String a v', String b s' =>
      if Ascii.eqb (lower_ascii a) (lower_ascii b) then
        match strip_prefix_ci v' s' with
        | Some (m, rest) => Some (String b m, rest)
        | None => None
        end
      else None
  | _, _ => None
  end.

Fixpoint findall_from (v : string) (skip : nat) (s : string)
  : list (string * string) :=
  match s with
  | EmptyString => []
  | String _ s' =>
      match skip with
      | S k => findall_from v k s'
      | 0 =>
          match strip_prefix_ci v s with
          | Some (m, rest) =>
              let '(digits, rest) := span is_digit rest in
              let comma := match rest with String "," _ => 1 | _ => 0 end in
              (m, digits)
              :: findall_from v (String.length m + String.length digits + comma - 1) s'
          | None => findall_from v 0 s'
          end
      end
  end.

Definition plain_findall (value names : string) : list (string * string) :=
  findall_from value 0 names.

Definition scenario_cfg : IaConfiguration :=
  mkIaConfiguration
    [mkProperty CodingProperty "Intensity" "P1" "numeric" 0
       [mkPropertyValue "1" "low" "v1" "P1"; mkPropertyValue "2" "mid" "v2" "P1";
        mkPropertyValue "3" "high" "v3" "P1"]]
    [mkProperty GlobalProperty "Engagement" "G1" "text" 0
       [mkPropertyValue "Low" "" "g1" "G1"; mkPropertyValue "High" "" "g2" "G1"]].
Definition scenario_iv : InterviewData :=
  mkInterviewData [mkUtterance 1 1 "T" "Hello"; mkUtterance 2 2 "C" "Hi"].

(** Two distinct coding properties whose names join to the same sheet
    name, "Tone_1_2". *)
Definition colliding_cfg : IaConfiguration :=
  mkIaConfiguration
    [mkProperty CodingProperty "Tone_1" "2" "text" 0
       [mkPropertyValue "warm" "" "a" "2"];
     mkProperty CodingProperty "Tone" "1_2" "text" 0
       [mkPropertyValue "cold" "" "b" "1_2"]]
    [].


(** A property without values. *)
Definition empty_property : Property :=
  mkProperty GlobalProperty "Rapport" "G2" "text" 0 [].

(** A data sheet of three rows and a reference sheet of two. *)
Definition sample_data_sheet : Worksheet :=
  store_row [VInt 2] (store_row [VInt 1] (store_row [VStr "Line"]
    (Worksheet_new "Interview"))).
Definition sample_reference_sheet : Worksheet :=
  store_row [VStr "Low"] (store_row [VStr "property_value"]
    (Worksheet_new "Engagement_G1")).



(** A numeric coding property one of whose values is not a numeral. *)
Definition mistyped_property : Property :=
  mkProperty CodingProperty "Pace" "P2" "numeric" 0
    [mkPropertyValue "1" "slow" "v1" "P2"; mkPropertyValue "fast" "" "v2" "P2"].
Definition mistyped_cfg : IaConfiguration :=
  mkIaConfiguration [mistyped_property] [].


(** A numeric property with decimal digits. *)
Definition share_property : Property :=
  mkProperty CodingProperty "Share" "P2" "numeric" 1
    [mkPropertyValue "0.5" "half" "v3" "P2"; mkPropertyValue "1.5" "" "v4" "P2"].

(** A property whose name holds a slash. *)
Definition slash_property : Property :=
  mkProperty CodingProperty "A/B" "1" "text" 0 [mkPropertyValue "x" "" "a" "1"].

(** Two properties whose sheet names differ in case only, "Tone_1" and
    "tone_1". *)
Definition upper_property : Property :=
  mkProperty CodingProperty "Tone" "1" "text" 0 [mkPropertyValue "warm" "" "a" "1"].
Definition lower_property : Property :=
  mkProperty CodingProperty "tone" "1" "text" 0 [mkPropertyValue "cold" "" "b" "1"].

(** A property one of whose descriptions is the control character 7. *)
Definition bell_property : Property :=
  mkProperty CodingProperty "Pace" "P3" "text" 0
    [mkPropertyValue "fast" (String "007"%char "") "v1" "P3"].

(** A text of 32768 characters, and an utterance that says it. *)
Definition long_text : string :=
  string_of_list_ascii (repeat "a"%char (N.to_nat 32768)).
Definition long_iv : InterviewData :=
  mkInterviewData [mkUtterance 1 1 "T" long_text].



(** ** The module *)

Section Program.

(** Library functions whose exact definition is not the module's:
    [int(text)], [float(text)] ([None] when the text is not a literal of
    the type) and openpyxl's [quote_sheetname]. *)
Context (py_int : string → option Z).
Context (py_float : string → option spec_float).
Context (quote_sheetname : string → string).

(** Two more, used by openpyxl when it settles the title of a sheet:
    [text.lower()] on a text that is not ASCII, and [findall] of the
    title pattern (the escaped title as group [title], a run of digits
    as group [count], an optional comma, case ignored) on the joined
    names: the (title, count) pairs read. *)
Context (unicode_lower : string → string).
Context (title_findall : string → string → list (string * string)).

(** [text.lower()] *)
Definition py_lower (text : string) : string :=
  if string_forall is_ascii text then ascii_lower text else unicode_lower text.

(** [avoid_duplicate_name(names, value)]: when a name equals [value] up
    to case, [value] followed by the next number after the highest
    count found. *)
Definition avoid_duplicate_name (names : list string) (value : string)
  : string :=
  let match_ := filter (λ n, py_lower n = py_lower value) names in
  if bool_decide (match_ ≠ []) then
    let names := join "," names in
    let matches := title_findall value names in
    if bool_decide (matches ≠ []) then
      (* idx.isdigit(): a count is a run of digits, empty or not *)
      let counts :=
        omap (λ m, if String.eqb m.2 "" then None else py_int m.2) matches in
      let highest := if bool_decide (counts ≠ []) then py_max counts else 0%Z in
      value +:+ py_str_int (highest + 1)
    else value
  else value.

(** Assignment to [sheet.title] on a sheet of a workbook whose sheets
    are named [names], [current] being the title before. *)
Definition title_setter (names : list string) (current value : string)
  : result string :=
  if String.eqb value "" then
    Raise (ValueError "Title must have at least one character")
  else
    match string_find invalid_title_char value with
    | Some c =>
        Raise (ValueError ("Invalid character " +:+ String c ""
                             +:+ " found in sheet title"))
    | None =>
        Ok (if String.eqb current value then value
            else avoid_duplicate_name names value)
    end.

(** [wb.create_sheet(title, index)]: the sheet takes its title through
    the setter, then joins the workbook. *)
Definition create_sheet (wb : Workbook) (t : string) (index : option nat)
  : result (Workbook * handle) :=
  let t := if String.eqb t "" then "Sheet" else t in
  t ← title_setter (sheetnames wb) "" t;
  match index with
  | None => Ok (wb ++ [Worksheet_new t], length wb)
  | Some i => Ok (take i wb ++ Worksheet_new t :: drop i wb, i `min` length wb)
  end.

Definition construct (t : constructor) (text : string) : result pyvalue :=
  match t with
  | py_int_type =>
      match py_int text with
      | Some z => Ok (VInt z)
      | None =>
          Raise (ValueError ("invalid literal for int() with base 10: '"
                               +:+ text +:+ "'"))
      end
  | py_float_type =>
      match py_float text with
      | Some f => Ok (VFloat f)
      | None =>
          Raise (ValueError ("could not convert string to float: '"
                               +:+ text +:+ "'"))
      end
  | py_str_type => Ok (VStr text)
  end.

Definition REFERENCE_HEADER : list pyvalue :=
  [VStr "property_value"; VStr "property_description";
   VStr "property_value_id"; VStr "property_id"].

Definition sheet_name_of (property : Property) : string :=
  display_name property +:+ "_" +:+ property_id property.

Definition data_type_of (property : Property) : constructor :=
  if String.eqb (data_type property) "numeric" && (decimal_digits property =? 0)%Z
  then py_int_type
  else if String.eqb (data_type property) "numeric" then py_float_type
  else py_str_type.

(** The body of the loop over the values of a property: one row of the
    reference sheet. *)
Definition reference_row (data_type : constructor) (new_sheet : Worksheet)
  (pv : PropertyValue) : result Worksheet :=
  v ← construct data_type (value pv);
  ws_append [v; VStr (description pv); VStr (property_value_id pv);
             VStr (pv_property_id pv)] new_sheet.

(** [_append_validation_sheet_(workbook, property, sheetpassword=None)]:
    the new sheet, or [None] when the name is taken. *)
Definition _append_validation_sheet_ (workbook : Workbook) (property : Property)
  (sheetpassword : option string) : result (Workbook * option handle) :=
  let sheet_name := sheet_name_of property in
  let pwd := default sheet_name sheetpassword in
  if bool_decide (sheet_name ∉ sheetnames workbook) then
    '(workbook, h) ← create_sheet workbook sheet_name None;
    let new_sheet := sheet_at workbook h in
    new_sheet ← ws_append REFERENCE_HEADER new_sheet;
    let data_type := data_type_of property in
    new_sheet ← for_each (reference_row data_type) new_sheet
                         (property_values property);
    let new_sheet := protection_enable new_sheet in
    let new_sheet := with_password pwd new_sheet in
    let new_sheet := with_sheet_state "hidden" new_sheet in
    Ok (<[h := new_sheet]> workbook, Some h)
  else
    (* print(f"Sheet {sheet_name} already exists. Aborting") *)
    Ok (workbook, None).

Definition NONE_HAS_NO_TITLE : exn :=
  AttributeError "'NoneType' object has no attribute 'title'".

(** [_set_global_validation_(data_sheet, row_number, vsheet)] *)
Definition _set_global_validation_ (data_sheet : Worksheet) (row_number : nat)
  (vsheet : option Worksheet) : result Worksheet :=
  match vsheet with
  | None => Raise NONE_HAS_NO_TITLE
  | Some vsheet =>
      let validation_title := title vsheet in
      let dv := mkDataValidation "list"
                  (quote_sheetname validation_title +:+ "!$A$2:$A$"
                     +:+ py_str (ws_max_row vsheet))
                  true [] in
      dv ← dv_add ("B" +:+ py_str row_number) dv;
      Ok (add_data_validation dv data_sheet)
  end.

(** [_set_validation_(data_sheet, idx, vsheet, is_global=False)] *)
Definition _set_validation_ (data_sheet : Worksheet) (idx : string)
  (vsheet : option Worksheet) (is_global : bool) : result Worksheet :=
  match vsheet with
  | None => Raise NONE_HAS_NO_TITLE
  | Some vsheet =>
      let validation_title := title vsheet in
      let dv := mkDataValidation "list"
                  (quote_sheetname validation_title +:+ "!$A$2:$A$"
                     +:+ py_str (ws_max_row vsheet))
                  true [] in
      let column := if negb is_global then idx else "B" in
      let cell_address :=
        if is_global then "B" +:+ idx
        else column +:+ "2:" +:+ column +:+ py_str (ws_max_row data_sheet) in
      dv ← dv_add cell_address dv;
      Ok (add_data_validation dv data_sheet)
  end.

(** The body of the loop over the rows of the global sheet: border on
    every cell of the row, then the B cell of line [i] unlocked. *)
Definition global_row_style (sheet : Worksheet) (x : nat * (nat * list nat))
  : result Worksheet :=
  let '(i, (r, cols)) := x in
  let sheet := ws_yield_row r cols sheet in
  let sheet := foldl (λ sheet c, ws_cell_set set_border r c sheet) sheet cols in
  ws_setitem_protection ("B" +:+ py_str i) UNLOCKED sheet.

(** The body of the loop over the global properties: a row with the
    name of the property. *)
Definition global_row (sheet : Worksheet) (gp : Property) : result Worksheet :=
  ws_append [VStr (display_name gp)] sheet.

(** [_build_global_sheet_(wb, ia_config)] *)
Definition _build_global_sheet_ (wb : Workbook) (ia_config : IaConfiguration)
  : result (Workbook * handle) :=
  '(wb, h) ← create_sheet wb "Global Ratings" (Some 1);
  let sheet := sheet_at wb h in
  sheet ← ws_append [VStr "Global"; VStr "Rating"] sheet;
  let min_width : Q := (18 # 1)%Q in
  let sheet := protection_enable sheet in
  let sheet := with_password "Globals" sheet in
  sheet ← for_each global_row sheet (global_properties ia_config);
  col ← get_column_letter 1;
  let width := default (13 # 1)%Q (column_widths sheet !! col) in
  let width := if negb (Qle_bool min_width width) then min_width else width in
  let sheet := with_column_widths (<[col := width]> (column_widths sheet)) sheet in
  sheet ← for_each global_row_style sheet (enumerate (ws_rows sheet) 1);
  Ok (<[h := sheet]> wb, h).

Definition column_headers_of (ia_config : IaConfiguration) : list pyvalue :=
  [VStr "Line"; VStr "Utt"; VStr "Role"]
  ++ ((λ cp, VStr (display_name cp)) <$> coding_properties ia_config)
  ++ [VStr "Text"].

Definition new_line_of (ia_config : IaConfiguration) (utt : Utterance)
  : list pyvalue :=
  [VInt (line_number utt); VInt (utterance_number utt); VStr (speaker_role utt)]
  ++ ((λ cp, VNone) <$> coding_properties ia_config)
  ++ [VStr (utterance_text utt)].

(** The inner loop of the interview sheet: the cell of line [i] in the
    column spelled [chr(col)] is unlocked. *)
Definition unlock_coding_cell (i : nat) (sheet : Worksheet) (x : nat * Property)
  : result Worksheet :=
  let '(col, cp) := x in
  letter ← chr col;
  ws_setitem_protection (letter +:+ py_str i) UNLOCKED sheet.

(** The body of the loop over the utterances. *)
Definition interview_row (ia_config : IaConfiguration) (sheet : Worksheet)
  (x : nat * Utterance) : result Worksheet :=
  let '(i, utt) := x in
  let new_line := new_line_of ia_config utt in
  sheet ← ws_append new_line sheet;
  for_each (unlock_coding_cell i) sheet
           (enumerate (coding_properties ia_config) 68).

(** The styling pass over a row: alignment on every cell whose position
    in the row is a multiple of the text column, border on all. *)
Definition interview_row_style (text_column_number : nat) (sheet : Worksheet)
  (x : nat * list nat) : Worksheet :=
  let '(r, cols) := x in
  let sheet := ws_yield_row r cols sheet in
  foldl (λ sheet '(i, c),
           let sheet :=
             if i mod text_column_number =? 0
             then ws_cell_set set_alignment r c sheet else sheet in
           ws_cell_set set_border r c sheet)
        sheet (enumerate cols 1).

(** [_build_interview_sheet_(wb, ia_config, interview)] *)
Definition _build_interview_sheet_ (wb : Workbook) (ia_config : IaConfiguration)
  (interview : InterviewData) : result (Workbook * handle) :=
  let text_column_number := 3 + length (coding_properties ia_config) + 1 in
  match wb !! 0 with            (* wb.active *)
  | None => Raise NONE_HAS_NO_TITLE
  | Some sheet =>
      t ← title_setter (sheetnames wb) (title sheet) "Interview";
      let sheet := with_title t sheet in
      let column_headers := column_headers_of ia_config in
      sheet ← ws_append column_headers sheet;
      let sheet := protection_enable sheet in
      let sheet := with_password "Interview" sheet in
      sheet ← for_each (interview_row ia_config) sheet
                       (enumerate (utterances interview) 1);
      letter ← get_column_letter text_column_number;
      let sheet :=
        with_column_widths (<[letter := (9071 # 100)%Q]> (column_widths sheet))
                           sheet in
      let sheet := with_page_setup (mkPageSetup (Some "landscape") (Some 1) (Some 1))
                                   sheet in
      let sheet := foldl (interview_row_style text_column_number) sheet
                         (ws_rows sheet) in
      Ok (<[0 := sheet]> wb, 0)
  end.

(** One turn of the loop of [ia2xl] over the properties; the state is
    the workbook with the two counters. *)
Definition ia2xl_step (utterances global_data : handle)
  (st : Workbook * nat * nat) (cp : Property) : result (Workbook * nat * nat) :=
  let '(wb, property_column, global_row) := st in
  '(wb, sheet) ← _append_validation_sheet_ wb cp None;
  let is_global := bool_decide (property_class cp = GlobalProperty) in
  '(property_column, global_row, idx, data_sheet) ←
    (if is_global then
       let global_row := global_row + 1 in
       Ok (property_column, global_row, py_str global_row, global_data)
     else
       let property_column := property_column + 1 in
       idx ← chr property_column;
       Ok (property_column, global_row, idx, utterances));
  data ← _set_validation_ (sheet_at wb data_sheet) idx (sheet ≫= (wb !!.))
                          is_global;
  Ok (<[data_sheet := data]> wb, property_column, global_row).

(** [ia2xl(config_path, interview_files)], from the parsed inputs on. *)
Definition ia2xl (iacfg : IaConfiguration) (interview : InterviewData)
  : result Workbook :=
  let property_column := 67 in
  let global_row := 1 in
  let wb := Workbook_new in
  '(wb, utterances) ← _build_interview_sheet_ wb iacfg interview;
  '(wb, global_data) ← _build_global_sheet_ wb iacfg;
  '(wb, _, _) ←
    for_each (ia2xl_step utterances global_data)
             (wb, property_column, global_row)
             (coding_properties iacfg ++ global_properties iacfg);
  Ok wb.



(** ** Vocabulary of the statements *)

(** The row written for a property value whose first cell is [v]. *)
Definition reference_values (pv : PropertyValue) (v : pyvalue) : list pyvalue :=
  [v; VStr (description pv); VStr (property_value_id pv); VStr (pv_property_id pv)].

(** The row as the cells keep it. *)
Definition kept_values (pv : PropertyValue) (v : pyvalue) : list pyvalue :=
  stored <$> reference_values pv v.

(** The text of a value is a literal of the declared type of its
    property: an integer when the property is numeric without decimal
    digits, a float when it is numeric otherwise, any text otherwise. *)
Definition well_typed_value (p : Property) (pv : PropertyValue) : Prop :=
  (data_type p = "numeric" → decimal_digits p = 0%Z → is_Some (py_int (value pv)))
  ∧ (data_type p = "numeric" → decimal_digits p ≠ 0%Z → is_Some (py_float (value pv))).

(** The texts of a value that go to the cells as texts are accepted
    there: the description and the two identifiers, and the value
    itself unless the property is numeric. *)
Definition legal_texts (p : Property) (pv : PropertyValue) : Prop :=
  (data_type p ≠ "numeric" → legal_text (value pv) = true)
  ∧ legal_text (description pv) = true
  ∧ legal_text (property_value_id pv) = true
  ∧ legal_text (pv_property_id pv) = true.

(** The texts of an utterance are accepted by the cells. *)
Definition legal_utterance (utt : Utterance) : Prop :=
  legal_text (speaker_role utt) = true ∧ legal_text (utterance_text utt) = true.

(** The names of the properties [ps] are accepted by the cells. *)
Definition legal_names (ps : list Property) : Prop :=
  Forall (λ p, legal_text (display_name p) = true) ps.

(** The header and the line of an utterance as the cells keep them. *)
Definition kept_headers (ia_config : IaConfiguration) : list pyvalue :=
  stored <$> column_headers_of ia_config.

Definition kept_line (ia_config : IaConfiguration) (utt : Utterance)
  : list pyvalue :=
  stored <$> new_line_of ia_config utt.

(** A property that the reference builder accepts: its derived name
    is a title that openpyxl accepts, its values are literals of its
    declared type, and its texts are accepted by the cells. *)
Definition accepted (p : Property) : Prop :=
  valid_title (sheet_name_of p) = true
  ∧ Forall (well_typed_value p) (property_values p)
  ∧ Forall (legal_texts p) (property_values p).

(** Names that are equal up to case are equal. *)
Definition case_distinct (names : list string) : Prop :=
  ∀ a b, a ∈ names → b ∈ names → py_lower a = py_lower b → a = b.

(** No name of [names] equals [value] up to case. *)
Definition unclaimed (names : list string) (value : string) : Prop :=
  Forall (λ n, py_lower n ≠ py_lower value) names.

(** [v] is the value of [pv] brought to the declared type of [p]. *)
Definition coerced (p : Property) (pv : PropertyValue) (v : pyvalue) : Prop :=
  (data_type p = "numeric" → decimal_digits p = 0%Z →
     ∃ z, py_int (value pv) = Some z ∧ v = VInt z)
  ∧ (data_type p = "numeric" → decimal_digits p ≠ 0%Z →
     ∃ f, py_float (value pv) = Some f ∧ v = VFloat f)
  ∧ (data_type p ≠ "numeric" → v = VStr (value pv)).

(** The rule installed for a reference sheet, aimed at [target]. *)
Definition list_rule (vsheet : Worksheet) (target : CellRange) : DataValidation :=
  mkDataValidation "list"
    (quote_sheetname (title vsheet) +:+ "!$A$2:$A$" +:+ py_str (ws_max_row vsheet))
    true [target].

(** What [global_row_style] does to the sheet once the coordinate of
    its B cell is read. *)
Definition global_row_effect (sheet : Worksheet) (x : nat * (nat * list nat))
  : Worksheet :=
  let '(i, (r, cols)) := x in
  ws_cell_set (set_protection UNLOCKED) i 2
    (foldl (λ sheet c, ws_cell_set set_border r c sheet)
           (ws_yield_row r cols sheet) cols).

(** The value held at (row, column), if a cell is there. *)
Definition value_at (ws : Worksheet) (r c : nat) : option pyvalue :=
  cell_value <$> (_cells ws !! (r, c)).

(** What [unlock_coding_cell] and [interview_row] do to the sheet once
    the coordinates are read: [chr(col)] is the letter of column
    [col - 64]. *)
Definition unlock_effect (i : nat) (sheet : Worksheet) (x : nat * Property)
  : Worksheet :=
  ws_cell_set (set_protection UNLOCKED) i (x.1 - 64) sheet.

Definition interview_row_effect (ia_config : IaConfiguration) (sheet : Worksheet)
  (x : nat * Utterance) : Worksheet :=
  foldl (unlock_effect x.1) (store_row (kept_line ia_config x.2) sheet)
        (enumerate (coding_properties ia_config) 68).

(** The state of the loop of [ia2xl] after [i] coding properties and
    [j] global properties, [m] being the last populated row of the
    interview sheet: the counters, and the ranges validated so far on the
    two data sheets (sheets 0 and 1 of the workbook). *)
Definition orchestrated (m : nat) (st : Workbook * nat * nat) (i j : nat) : Prop :=
  2 ≤ length st.1.1
  ∧ st.1.2 = 67 + i ∧ st.2 = 1 + j ∧ st.1.2 ≤ 90
  ∧ ws_max_row (sheet_at st.1.1 0) = m
  ∧ title (sheet_at st.1.1 0) = "Interview"
  ∧ title (sheet_at st.1.1 1) = "Global Ratings"
  ∧ validated_ranges (sheet_at st.1.1 0)
    = (λ c, mkCellRange c 2 c m) <$> seq 4 i
  ∧ validated_ranges (sheet_at st.1.1 1)
    = (λ r, mkCellRange 2 r 2 r) <$> seq 2 j.

(** The number of properties of a class in a list. *)
Definition count_class (c : PropertyClass) (ps : list Property) : nat :=
  length (filter (λ p, property_class p = c) ps).

(** ** Further vocabulary *)

(** What a reader of the sheet sees at (row, column): the value of the
    cell, blank where there is none. *)
Definition shown (ws : Worksheet) (r c : nat) : pyvalue :=
  from_option cell_value VNone (_cells ws !! (r, c)).

(** Whether the cell at (row, column) carries the [BORDER] style, the
    [ALIGN] style. *)
Definition is_bordered (ws : Worksheet) (r c : nat) : bool :=
  match _cells ws !! (r, c) with
  | Some x => border x
  | None => false
  end.

Definition is_aligned (ws : Worksheet) (r c : nat) : bool :=
  match _cells ws !! (r, c) with
  | Some x => alignment x
  | None => false
  end.

(** The sheet [ws] with [dvs] as its validation rules. *)
Definition with_validations (dvs : list DataValidation) (ws : Worksheet)
  : Worksheet :=
  mkWorksheet (title ws) (_cells ws) (_current_row ws) (protection_sheet ws)
    (protection_password ws) (sheet_state ws) dvs
    (column_widths ws) (page_setup ws).

(** The rule that refers to the reference sheet of [p]. *)
Definition rule_for (p : Property) (target : CellRange) : DataValidation :=
  mkDataValidation "list"
    (quote_sheetname (sheet_name_of p) +:+ "!$A$2:$A$"
       +:+ py_str (S (length (property_values p))))
    true [target].

(** The rules of the coding properties [ps] on an interview sheet whose
    last row is [m]: columns D, E, ...; the rules of the global
    properties: cells B2, B3, ... *)
Definition coding_rules (m : nat) (ps : list Property) : list DataValidation :=
  imap (λ k p, rule_for p (mkCellRange (4 + k) 2 (4 + k) m)) ps.

Definition global_rules (ps : list Property) : list DataValidation :=
  imap (λ j p, rule_for p (mkCellRange 2 (2 + j) 2 (2 + j))) ps.

(** [new] is the reference sheet that the builder makes for [p]. *)
Definition builds (p : Property) (new : Worksheet) : Prop :=
  _append_validation_sheet_ [] p None = Ok ([new], Some 0).

(** A cell is held at (row, column). *)
Definition present (ws : Worksheet) (r c : nat) : Prop :=
  is_Some (_cells ws !! (r, c)).

(** The rows that the global sheet shows for the global properties
    [gps], and the rows of the interview sheet. *)
Definition global_grid (gps : list Property) : list (list pyvalue) :=
  [VStr "Global"; VStr "Rating"]
  :: ((λ gp, [stored (VStr (display_name gp)); VNone]) <$> gps).

(** The properties of a list that are coding-property objects, and
    those that are global-property objects: what [isinstance] tells
    apart in the loop of [ia2xl]. *)
Definition coding_of (ps : list Property) : list Property :=
  filter (λ p, property_class p = CodingProperty) ps.

Definition global_of (ps : list Property) : list Property :=
  filter (λ p, property_class p = GlobalProperty) ps.

(** The state of the loop of [ia2xl] once the properties [ps] are done,
    [s0] and [gs] being the data sheets as built and [m] the last row of
    [s0]: the data sheets with one rule per property of their kind, then
    the reference sheets in the order of [ps]; the counters; the bounds
    that the wiring has checked; the names in use. *)
Definition assembled (s0 gs : Worksheet) (m : nat) (ps : list Property)
  (st : Workbook * nat * nat) : Prop :=
  ∃ refs,
    st.1.1 = with_validations (coding_rules m (coding_of ps)) s0
             :: with_validations (global_rules (global_of ps)) gs
             :: refs
    ∧ Forall2 builds ps refs
    ∧ st.1.2 = 67 + length (coding_of ps)
    ∧ st.2 = 1 + length (global_of ps)
    ∧ length (coding_of ps) ≤ 23
    ∧ (coding_of ps ≠ [] → 2 ≤ m ∧ (N.of_nat m ≤ MAX_ROW)%N)
    ∧ (N.of_nat (length (global_of ps) + 1) ≤ MAX_ROW)%N
    ∧ NoDup (title s0 :: title gs :: (sheet_name_of <$> ps)).

(** * Properties *)

(** ** Decimal numerals and coordinates *)

Lemma append_nil (b : string) : "" +:+ b = b.
Proof. reflexivity. Qed.

Lemma append_cons (x : ascii) (a b : string) :
  String x a +:+ b = String x (a +:+ b).
Proof. reflexivity. Qed.

Ltac sapp := rewrite ?append_cons, ?append_nil in *.

Lemma uint_digits (d : Decimal.uint) :
  string_forall is_digit (NilEmpty.string_of_uint d) = true.
Proof. induction d; simpl; auto. Qed.

Lemma py_str_digits (n : nat) : string_forall is_digit (py_str n) = true.
Proof. apply uint_digits. Qed.

Lemma int_of_digits_py_str (n : nat) : int_of_digits (py_str n) = Some n.
Proof.
  unfold int_of_digits, py_str. rewrite NilEmpty.usu. simpl.
  by rewrite DecimalNat.Unsigned.of_to.
Qed.

Lemma py_str_nonempty (n : nat) : py_str n ≠ "".
Proof.
  intros E. pose proof (int_of_digits_py_str n) as H. rewrite E in H.
  cbn in H. injection H as <-. discriminate E.
Qed.

Lemma span_app (p : ascii → bool) (s rest : string) :
  string_forall p s = true → stops p rest → span p (s +:+ rest) = (s, rest).
Proof.
  intros Hs Hr. induction s as [|a s IH]; sapp; simpl in *.
  - destruct rest as [|b rest]; simpl in *; [done | by rewrite Hr].
  - apply andb_prop in Hs as [-> Hs]. by rewrite IH.
Qed.

Lemma stops_digits_letter (s rest : string) :
  s ≠ "" → string_forall is_digit s = true → stops is_letter (s +:+ rest).
Proof.
  destruct s as [|a s]; [done |]. sapp. simpl. intros _ [Ha _]%andb_prop.
  revert Ha. unfold is_digit, is_letter.
  generalize (nat_of_ascii a). intros n Hn.
  apply andb_prop in Hn as [H1%Nat.leb_le H2%Nat.leb_le].
  apply orb_false_iff; split; apply andb_false_iff; left; apply Nat.leb_gt; lia.
Qed.

Lemma digit_not_dollar (a : ascii) : is_digit a = true → Ascii.eqb a "$" = false.
Proof.
  intros H. apply Ascii.eqb_neq. intros ->. discriminate H.
Qed.

Lemma letter_not_dollar (a : ascii) : is_letter a = true → Ascii.eqb a "$" = false.
Proof.
  intros H. apply Ascii.eqb_neq. intros ->. discriminate H.
Qed.

Lemma drop_dollar_digits (s rest : string) :
  s ≠ "" → string_forall is_digit s = true →
  drop_dollar (s +:+ rest) = s +:+ rest.
Proof.
  destruct s as [|a s]; [done |]. sapp. simpl. intros _ [Ha _]%andb_prop.
  by rewrite digit_not_dollar.
Qed.

Lemma drop_dollar_letters (s rest : string) :
  s ≠ "" → string_forall is_letter s = true →
  drop_dollar (s +:+ rest) = s +:+ rest.
Proof.
  destruct s as [|a s]; [done |]. sapp. simpl. intros _ [Ha _]%andb_prop.
  by rewrite letter_not_dollar.
Qed.

Lemma ref_end_stops_digit (rest : string) : ref_end rest → stops is_digit rest.
Proof. intros [-> | [rest' ->]]; done. Qed.

Lemma column_identifier_inv (idx : string) :
  column_identifier idx = true →
  idx ≠ "" ∧ String.length idx ≤ 3 ∧ string_forall is_letter idx = true.
Proof.
  unfold column_identifier.
  intros [[H1%Nat.leb_le H2%Nat.leb_le]%andb_prop H3]%andb_prop.
  split_and!; [intros ->; simpl in H1; lia | done | done].
Qed.

Lemma parse_ref_cell (idx : string) (n : nat) (rest : string) :
  column_identifier idx = true → ref_end rest →
  parse_ref (idx +:+ py_str n +:+ rest)
  = Some (Some (column_index_from_string idx), Some n, rest).
Proof.
  intros (Hne & Hlen & Hl)%column_identifier_inv Hrest. unfold parse_ref.
  rewrite drop_dollar_letters by done.
  rewrite span_app; [| done |].
  2:{ apply stops_digits_letter; [apply py_str_nonempty | apply py_str_digits]. }
  rewrite drop_dollar_digits by (apply py_str_nonempty || apply py_str_digits).
  rewrite span_app by (apply py_str_digits || by apply ref_end_stops_digit).
  replace (3 <? String.length idx) with false by (symmetry; apply Nat.ltb_ge; lia).
  rewrite int_of_digits_py_str.
  destruct idx; [done |].
  pose proof (py_str_nonempty n). by destruct (py_str n).
Qed.

Lemma append_empty_r (s : string) : s +:+ "" = s.
Proof. induction s; sapp; [done | by f_equal]. Qed.

Lemma range_boundaries_cell (idx : string) (n : nat) :
  column_identifier idx = true →
  range_boundaries (idx +:+ py_str n)
  = Ok (Some (column_index_from_string idx), Some n,
        Some (column_index_from_string idx), Some n).
Proof.
  intros Hid. unfold range_boundaries.
  rewrite <- (append_empty_r (py_str n)).
  rewrite parse_ref_cell by (done || by left). done.
Qed.

Lemma range_boundaries_range (idx1 idx2 : string) (a b : nat) :
  column_identifier idx1 = true → column_identifier idx2 = true →
  range_boundaries (idx1 +:+ py_str a +:+ ":" +:+ idx2 +:+ py_str b)
  = Ok (Some (column_index_from_string idx1), Some a,
        Some (column_index_from_string idx2), Some b).
Proof.
  intros H1 H2. unfold range_boundaries.
  rewrite parse_ref_cell by (done || right; by eexists).
  sapp. cbn [Ascii.eqb Bool.eqb negb].
  rewrite <- (append_empty_r (py_str b)).
  rewrite parse_ref_cell by (done || by left). done.
Qed.

Lemma has_colon_app (s t : string) :
  has_colon (s +:+ t) = has_colon s || has_colon t.
Proof.
  induction s as [|a s IH]; sapp; simpl; [done |].
  rewrite IH. by rewrite orb_assoc.
Qed.

Lemma has_colon_letters (s : string) :
  string_forall is_letter s = true → has_colon s = false.
Proof.
  induction s as [|a s IH]; simpl; [done |].
  intros [Ha Hs]%andb_prop. rewrite IH by done.
  rewrite orb_false_r. apply Ascii.eqb_neq. intros ->. discriminate Ha.
Qed.

Lemma has_colon_digits (s : string) :
  string_forall is_digit s = true → has_colon s = false.
Proof.
  induction s as [|a s IH]; simpl; [done |].
  intros [Ha Hs]%andb_prop. rewrite IH by done.
  rewrite orb_false_r. apply Ascii.eqb_neq. intros ->. discriminate Ha.
Qed.

Lemma letter_value_bounds (a : ascii) :
  is_letter a = true → 1 ≤ letter_value a ≤ 26.
Proof.
  unfold is_letter, letter_value. generalize (nat_of_ascii a). intros n H.
  apply orb_prop in H as [[H1%Nat.leb_le H2%Nat.leb_le]%andb_prop
                         |[H1%Nat.leb_le H2%Nat.leb_le]%andb_prop].
  - replace (97 <=? n) with false by (symmetry; apply Nat.leb_gt; lia). lia.
  - replace (97 <=? n) with true by (symmetry; apply Nat.leb_le; lia). lia.
Qed.

Lemma column_index_bounds (idx : string) :
  column_identifier idx = true →
  1 ≤ column_index_from_string idx ∧ (N.of_nat (column_index_from_string idx) ≤ MAX_COLUMN)%N.
Proof.
  intros (Hne & Hlen & Hl)%column_identifier_inv.
  unfold column_index_from_string, MAX_COLUMN.
  destruct idx as [|a [|b [|c [|d idx]]]]; simpl in *; try done; try lia.
  - apply andb_prop in Hl as [Ha%letter_value_bounds _]. lia.
  - apply andb_prop in Hl as [Ha%letter_value_bounds Hl].
    apply andb_prop in Hl as [Hb%letter_value_bounds _]. lia.
  - apply andb_prop in Hl as [Ha%letter_value_bounds Hl].
    apply andb_prop in Hl as [Hb%letter_value_bounds Hl].
    apply andb_prop in Hl as [Hc%letter_value_bounds _]. lia.
Qed.

Lemma getitem_target_cell (idx : string) (n : nat) :
  column_identifier idx = true →
  getitem_target (idx +:+ py_str n)
  = Ok (ItemCell n (column_index_from_string idx)).
Proof.
  intros Hid. unfold getitem_target.
  rewrite range_boundaries_cell by done. cbn [mbind result_bind].
  pose proof (column_index_bounds idx Hid) as [Hc _].
  destruct (column_index_from_string idx) as [|c]; [lia |].
  cbn [truthy orb negb].
  rewrite has_colon_app.
  rewrite (has_colon_digits (py_str n)) by apply py_str_digits.
  apply column_identifier_inv in Hid as (_ & _ & Hl).
  by rewrite has_colon_letters.
Qed.

Lemma MinMax_ok (limit : N) (n : nat) :
  1 ≤ n → (N.of_nat n ≤ limit)%N → MinMax limit (Some n) = Ok n.
Proof.
  intros H1 H2. unfold MinMax.
  replace (n <? 1) with false by (symmetry; apply Nat.ltb_ge; lia).
  replace (limit <? N.of_nat n)%N with false by (symmetry; apply N.ltb_ge; lia).
  done.
Qed.

Lemma CellRange_of_cell (idx : string) (n : nat) :
  column_identifier idx = true → 1 ≤ n → (N.of_nat n ≤ MAX_ROW)%N →
  CellRange_of_string (idx +:+ py_str n)
  = Ok (mkCellRange (column_index_from_string idx) n
                    (column_index_from_string idx) n).
Proof.
  intros Hid H1 H2. unfold CellRange_of_string.
  rewrite range_boundaries_cell by done. cbn [mbind result_bind].
  pose proof (column_index_bounds idx Hid) as [Hc1 Hc2].
  rewrite !MinMax_ok by done. cbn [mbind result_bind].
  rewrite !Nat.ltb_irrefl. done.
Qed.

Lemma CellRange_of_column (idx : string) (m : nat) :
  column_identifier idx = true → 1 ≤ m → (N.of_nat m ≤ MAX_ROW)%N →
  CellRange_of_string (idx +:+ "2:" +:+ idx +:+ py_str m)
  = if m <? 2
    then Raise (ValueError (py_str m +:+ " must be greater than " +:+ py_str 2))
    else Ok (mkCellRange (column_index_from_string idx) 2
                         (column_index_from_string idx) m).
Proof.
  intros Hid H1 H2. unfold CellRange_of_string.
  change (idx +:+ "2:" +:+ idx +:+ py_str m)
    with (idx +:+ py_str 2 +:+ ":" +:+ idx +:+ py_str m).
  rewrite range_boundaries_range by done. cbn [mbind result_bind].
  pose proof (column_index_bounds idx Hid) as [Hc1 Hc2].
  rewrite !(MinMax_ok MAX_COLUMN) by done. cbn [mbind result_bind].
  rewrite (MinMax_ok MAX_ROW 2) by (unfold MAX_ROW; lia). cbn [mbind result_bind].
  rewrite (MinMax_ok MAX_ROW m) by done. cbn [mbind result_bind].
  by rewrite Nat.ltb_irrefl.
Qed.

(** A reference that opens with a character outside the grammar. *)
Lemma range_boundaries_reject (a : ascii) (s : string) :
  is_letter a = false → is_digit a = false →
  Ascii.eqb a "$" = false → Ascii.eqb a ":" = false →
  range_boundaries (String a s) = Raise (not_a_coordinate (String a s)).
Proof.
  intros Hl Hd Hdollar Hcolon. unfold range_boundaries, parse_ref.
  cbn [drop_dollar]. rewrite Hdollar. cbn [span]. rewrite Hl.
  cbn [drop_dollar]. rewrite Hdollar. cbn [span]. rewrite Hd.
  cbn. by rewrite Hcolon.
Qed.

Lemma chr_ascii (n : nat) : n < 128 → chr n = Ok (String (ascii_of_nat n) "").
Proof.
  intros H. unfold chr.
  replace (N.of_nat n <? 128)%N with true by (symmetry; apply N.ltb_lt; lia).
  done.
Qed.

Lemma nat_of_ascii_of_nat (n : nat) : n < 128 → nat_of_ascii (ascii_of_nat n) = n.
Proof. intros H. apply nat_ascii_embedding. lia. Qed.

(** The columns of the coding properties: [chr] of 68 and up gives the
    capital letters D..Z, read back as columns 4..26. *)
Lemma chr_capital (c : nat) :
  65 ≤ c ≤ 90 →
  ∃ a, chr c = Ok (String a "") ∧ column_identifier (String a "") = true
       ∧ column_index_from_string (String a "") = c - 64.
Proof.
  intros Hc. exists (ascii_of_nat c). rewrite chr_ascii by lia.
  unfold column_identifier, column_index_from_string.
  cbn [String.length string_forall column_index_acc].
  unfold is_letter, letter_value.
  rewrite nat_of_ascii_of_nat by lia.
  replace (65 <=? c) with true by (symmetry; apply Nat.leb_le; lia).
  replace (c <=? 90) with true by (symmetry; apply Nat.leb_le; lia).
  replace (97 <=? c) with false by (symmetry; apply Nat.leb_gt; lia).
  split_and!; [done | done | simpl; lia].
Qed.

(** ** Loops *)

Lemma for_each_ok {S X} (body : S → X → result S) (g : S → X → S) (xs : list X) :
  ∀ s, (∀ s x, x ∈ xs → body s x = Ok (g s x)) →
       for_each body s xs = Ok (foldl g s xs).
Proof.
  induction xs as [|x xs IH]; intros s H; [done |].
  cbn [for_each foldl]. rewrite H by left. cbn [mbind result_bind].
  apply IH. intros s' x' Hx'. apply H. by right.
Qed.

Lemma for_each_cons {S X} (body : S → X → result S) (x : X) (xs : list X) (s : S) :
  for_each body s (x :: xs) = s' ← body s x; for_each body s' xs.
Proof. done. Qed.

Lemma for_each_app {S X} (body : S → X → result S) (xs ys : list X) (s : S) :
  for_each body s (xs ++ ys) = s' ← for_each body s xs; for_each body s' ys.
Proof.
  revert s. induction xs as [|x xs IH]; intros s; [done |].
  cbn [for_each app]. destruct (body s x); cbn [mbind result_bind]; [apply IH | done].
Qed.

Lemma enumerate_cons {X} (x : X) (xs : list X) (a : nat) :
  enumerate (x :: xs) a = (a, x) :: enumerate xs (S a).
Proof. done. Qed.

Lemma elem_of_enumerate {X} (xs : list X) (a i : nat) (x : X) :
  (i, x) ∈ enumerate xs a → a ≤ i < a + length xs.
Proof.
  revert a. induction xs as [|y xs IH]; intros a.
  - by intros ?%elem_of_nil.
  - rewrite enumerate_cons. intros [[= -> ->] | H%IH]%elem_of_cons; simpl; lia.
Qed.

(** ** Texts in cells *)

Lemma str_take_all (s : string) :
  ∀ n : N, (py_len s ≤ n)%N → str_take n s = s.
Proof.
  induction s as [|a s IH]; intros n Hn; [done |].
  cbn [str_take py_len] in *. destruct (is_continuation a).
  - by rewrite IH.
  - destruct (N.eqb_spec n 0) as [-> | Hne]; [lia |].
    rewrite IH; [done | lia].
Qed.

Lemma py_len_str_take (s : string) :
  ∀ n : N, (py_len (str_take n s) ≤ n)%N.
Proof.
  induction s as [|a s IH]; intros n; cbn [str_take py_len]; [lia |].
  destruct (is_continuation a) eqn:E.
  - cbn [py_len]. rewrite E. apply IH.
  - destruct (N.eqb_spec n 0) as [-> | Hne]; [cbn; lia |].
    cbn [py_len]. rewrite E. specialize (IH (n - 1)%N). lia.
Qed.

Lemma str_take_str_take (s : string) (n : N) :
  str_take n (str_take n s) = str_take n s.
Proof. apply str_take_all, py_len_str_take. Qed.

Lemma check_string_Ok (s s' : string) :
  check_string s = Ok s' ↔ legal_text s = true ∧ s' = str_take 32767 s.
Proof.
  unfold check_string, legal_text. cbv zeta.
  destruct (string_find is_illegal (str_take 32767 s)) as [a|].
  - rewrite bool_decide_eq_false_2 by done. split; [done | by intros [? _]].
  - rewrite bool_decide_eq_true_2 by done. split; [by intros [= <-] | by intros [_ ->]].
Qed.

Lemma check_string_Raise (s : string) :
  legal_text s = false →
  check_string s
  = Raise (IllegalCharacterError
             (str_take 32767 s +:+ " cannot be used in worksheets.")).
Proof.
  unfold check_string, legal_text. cbv zeta.
  destruct (string_find is_illegal (str_take 32767 s)) as [a|]; [done |].
  by rewrite bool_decide_eq_true_2.
Qed.

Lemma bind_value_Ok (v v' : pyvalue) :
  bind_value v = Ok v' ↔ legal_value v = true ∧ v' = stored v.
Proof.
  destruct v as [|s| |]; cbn [bind_value legal_value stored];
    try (split; [by intros [= <-] | by intros [_ ->]]).
  destruct (check_string s) as [s1|e] eqn:E; cbn [mbind result_bind].
  - apply check_string_Ok in E as [Hl ->]. split; [by intros [= <-] | by intros [_ ->]].
  - split; [done |]. intros [Hl _]. pose proof (proj2 (check_string_Ok s _) (conj Hl eq_refl)).
    congruence.
Qed.

Lemma bind_value_legal (v : pyvalue) :
  legal_value v = true → bind_value v = Ok (stored v).
Proof. intros H. by apply bind_value_Ok. Qed.

Lemma bind_value_Raise (v : pyvalue) :
  legal_value v = false → ∃ msg, bind_value v = Raise (IllegalCharacterError msg).
Proof.
  destruct v as [|s| |]; cbn [bind_value legal_value]; try done.
  intros H. rewrite (check_string_Raise s H). by eexists.
Qed.

Lemma stored_stored (v : pyvalue) : stored (stored v) = stored v.
Proof. destruct v; cbn [stored]; [done | | done | done]. by rewrite str_take_str_take. Qed.

(** A row goes to the sheet when every value is accepted, as the
    values that the cells keep. *)
Lemma append_cells_run (ri : nat) (row : list pyvalue) :
  ∀ (a : nat) (m m' : gmap (nat * nat) Cell),
    for_each (λ m '(col_idx, content),
                v ← bind_value content;
                Ok (<[(ri, col_idx) := new_cell v]> m))
             m (enumerate row a) = Ok m'
    ↔ Forall (λ v, legal_value v = true) row
      ∧ m' = foldl (λ m '(col_idx, content), <[(ri, col_idx) := new_cell content]> m)
                   m (enumerate (stored <$> row) a).
Proof.
  induction row as [|x row IH]; intros a m m'.
  - cbn. split; [by intros [= <-] | by intros [_ ->]].
  - cbn [fmap list_fmap]. rewrite !enumerate_cons. cbn [for_each foldl].
    destruct (bind_value x) as [v|e] eqn:E; cbn [mbind result_bind].
    + apply bind_value_Ok in E as [Hl ->]. rewrite IH. split.
      * intros [Hall ->]. split; [by constructor | done].
      * intros [Hall ->]. apply Forall_cons in Hall as [_ Hall]. done.
    + split; [done |]. intros [[Hl _]%Forall_cons _].
      rewrite (bind_value_legal x Hl) in E. done.
Qed.

Lemma ws_append_inv (row : list pyvalue) (ws ws' : Worksheet) :
  ws_append row ws = Ok ws' ↔
  Forall (λ v, legal_value v = true) row ∧ ws' = store_row (stored <$> row) ws.
Proof.
  unfold ws_append, store_row. cbv zeta.
  destruct (for_each _ _ _) as [m|e] eqn:E; cbn [mbind result_bind].
  - apply append_cells_run in E as [Hall ->]. split; [by intros [= <-] | by intros [_ ->]].
  - split; [done |]. intros [Hall _].
    pose proof (proj2 (append_cells_run (S (_current_row ws)) row 1 (_cells ws) _)
                      (conj Hall eq_refl)) as E'.
    congruence.
Qed.

Lemma ws_append_Ok (row : list pyvalue) (ws : Worksheet) :
  Forall (λ v, legal_value v = true) row →
  ws_append row ws = Ok (store_row (stored <$> row) ws).
Proof. intros H. by apply ws_append_inv. Qed.

Lemma append_cells_Raise (ri : nat) (row : list pyvalue) :
  ∀ (a : nat) (m : gmap (nat * nat) Cell),
    ¬ Forall (λ v, legal_value v = true) row →
    ∃ msg,
      for_each (λ m '(col_idx, content),
                  v ← bind_value content;
                  Ok (<[(ri, col_idx) := new_cell v]> m))
               m (enumerate row a) = Raise (IllegalCharacterError msg).
Proof.
  induction row as [|x row IH]; intros a m Hno.
  - by destruct Hno.
  - rewrite enumerate_cons. cbn [for_each].
    destruct (legal_value x) eqn:Hx.
    + rewrite (bind_value_legal x Hx). cbn [mbind result_bind]. apply IH.
      intros Hall. apply Hno. by constructor.
    + destruct (bind_value_Raise x Hx) as [msg ->]. by exists msg.
Qed.

Lemma ws_append_Raise (row : list pyvalue) (ws : Worksheet) :
  ¬ Forall (λ v, legal_value v = true) row →
  ∃ msg, ws_append row ws = Raise (IllegalCharacterError msg).
Proof.
  intros Hno. unfold ws_append. cbv zeta.
  destruct (append_cells_Raise (S (_current_row ws)) row 1 (_cells ws) Hno) as [msg ->].
  by exists msg.
Qed.

(** Short ASCII literals are kept as they are. *)
Lemma stored_legal_literal (s : string) :
  (py_len s ≤ 32767)%N → stored (VStr s) = VStr s.
Proof. intros H. cbn [stored]. by rewrite str_take_all. Qed.

Lemma elem_of_enumerate_snd {X} (xs : list X) (a i : nat) (x : X) :
  (i, x) ∈ enumerate xs a → x ∈ xs.
Proof. unfold enumerate. apply elem_of_zip_r. Qed.

(** ** Cells *)

Lemma with_cells_eta (ws : Worksheet) :
  with_cells (_cells ws) (_current_row ws) ws = ws.
Proof. by destruct ws. Qed.

Lemma cells_only_refl (ws : Worksheet) : cells_only ws ws.
Proof. eexists _, _. symmetry. apply with_cells_eta. Qed.

Lemma cells_only_trans (a b c : Worksheet) :
  cells_only a b → cells_only b c → cells_only a c.
Proof. intros (m & n & ->) (m' & n' & ->). by eexists _, _. Qed.

Lemma cells_only_with_cells (ws : Worksheet) m cur :
  cells_only ws (with_cells m cur ws).
Proof. by eexists _, _. Qed.

Lemma cells_only_title (ws ws' : Worksheet) :
  cells_only ws ws' → title ws' = title ws.
Proof. by intros (m & cur & ->). Qed.

Lemma cells_only_validations (ws ws' : Worksheet) :
  cells_only ws ws' → data_validations ws' = data_validations ws.
Proof. by intros (m & cur & ->). Qed.

Lemma append_cells_lookup (row : list pyvalue) (ri : nat) :
  ∀ (a : nat) (m : gmap (nat * nat) Cell) (r c : nat),
    foldl (λ m '(col_idx, content), <[(ri, col_idx) := new_cell content]> m)
          m (enumerate row a) !! (r, c)
    = if decide (r = ri ∧ a ≤ c < a + length row)
      then new_cell <$> row !! (c - a)
      else m !! (r, c).
Proof.
  induction row as [|x row IH]; intros a m r c.
  - cbn. case_decide; [lia | done].
  - rewrite enumerate_cons. cbn [foldl]. rewrite IH. cbn [length].
    destruct (decide (r = ri ∧ c = a)) as [[-> ->] | Hne].
    + rewrite decide_False by lia. rewrite decide_True by lia.
      rewrite lookup_insert_eq, Nat.sub_diag. done.
    + case_decide as H1; case_decide as H2; try lia.
      * replace (c - a) with (S (c - S a)) by lia. done.
      * rewrite lookup_insert_ne; [done |]. intros [= -> ->]. lia.
Qed.

Lemma store_row_lookup (row : list pyvalue) (ws : Worksheet) (r c : nat) :
  _cells (store_row row ws) !! (r, c)
  = if decide (r = S (_current_row ws) ∧ 1 ≤ c ≤ length row)
    then new_cell <$> row !! (c - 1)
    else _cells ws !! (r, c).
Proof.
  unfold store_row. cbn [_cells with_cells]. rewrite append_cells_lookup.
  case_decide; case_decide; done || lia.
Qed.

Lemma ws_get_cell_lookup (ws : Worksheet) (r c : nat) (k : nat * nat) :
  _cells (ws_get_cell r c ws) !! k
  = if decide (k = (r, c))
    then Some (default (new_cell VNone) (_cells ws !! k))
    else _cells ws !! k.
Proof.
  unfold ws_get_cell. destruct (_cells ws !! (r, c)) as [x|] eqn:E.
  - case_decide as Hk; [subst k; by rewrite E | done].
  - cbn [_cells with_cells]. case_decide as Hk.
    + subst k. by rewrite lookup_insert_eq, E.
    + by rewrite lookup_insert_ne.
Qed.

Lemma ws_cell_set_lookup (f : Cell → Cell) (ws : Worksheet) (r c : nat)
  (k : nat * nat) :
  _cells (ws_cell_set f r c ws) !! k
  = if decide (k = (r, c))
    then Some (f (default (new_cell VNone) (_cells ws !! k)))
    else _cells ws !! k.
Proof.
  unfold ws_cell_set. cbn [_cells with_cells].
  case_decide as Hk.
  - subst k. rewrite lookup_alter_eq, ws_get_cell_lookup, decide_True by done.
    done.
  - rewrite lookup_alter_ne by done. by rewrite ws_get_cell_lookup, decide_False.
Qed.

Lemma ws_get_cell_present (ws : Worksheet) (r c : nat) :
  is_Some (_cells ws !! (r, c)) → ws_get_cell r c ws = ws.
Proof. intros [x E]. unfold ws_get_cell. by rewrite E. Qed.

Lemma cells_only_append (row : list pyvalue) (ws : Worksheet) :
  cells_only ws (store_row row ws).
Proof. apply cells_only_with_cells. Qed.

Lemma cells_only_get_cell (r c : nat) (ws : Worksheet) :
  cells_only ws (ws_get_cell r c ws).
Proof.
  unfold ws_get_cell. destruct (_ !! _);
    [apply cells_only_refl | apply cells_only_with_cells].
Qed.

Lemma cells_only_cell_set (f : Cell → Cell) (r c : nat) (ws : Worksheet) :
  cells_only ws (ws_cell_set f r c ws).
Proof.
  eapply cells_only_trans; [apply (cells_only_get_cell r c) |].
  apply cells_only_with_cells.
Qed.

Lemma cells_only_foldl {X} (g : Worksheet → X → Worksheet) (xs : list X) :
  (∀ ws x, cells_only ws (g ws x)) → ∀ ws, cells_only ws (foldl g ws xs).
Proof.
  intros Hg. induction xs as [|x xs IH]; intros ws; [apply cells_only_refl |].
  cbn [foldl]. eapply cells_only_trans; [apply Hg | apply IH].
Qed.

(** ** Sheets as grids of values *)

Lemma holds_rows_new (t : string) : holds_rows [] (Worksheet_new t).
Proof.
  split; [done |]. intros r c. cbn [_cells Worksheet_new].
  rewrite lookup_empty. by destruct r, c.
Qed.

Lemma grid_lookup_snoc (rows : list (list pyvalue)) (row : list pyvalue)
  (r c : nat) :
  grid_lookup (rows ++ [row]) r c
  = if decide (r = S (length rows) ∧ 1 ≤ c ≤ length row)
    then row !! (c - 1)
    else grid_lookup rows r c.
Proof.
  destruct r as [|r]; [cbn; case_decide; [lia | done] |].
  destruct c as [|c]; [cbn; case_decide; [lia | done] |].
  cbn [grid_lookup]. rewrite Nat.sub_succ, Nat.sub_0_r.
  destruct (lt_eq_lt_dec r (length rows)) as [[Hlt | ->] | Hgt].
  - rewrite lookup_app_l by done. by rewrite decide_False by lia.
  - rewrite list_lookup_middle by done. cbn [mbind option_bind].
    rewrite (lookup_ge_None_2 rows) by done. cbn [mbind option_bind].
    case_decide as H; [done |].
    apply lookup_ge_None_2. lia.
  - rewrite (lookup_ge_None_2 (rows ++ [row])) by (rewrite length_app; simpl; lia).
    rewrite (lookup_ge_None_2 rows) by lia.
    by rewrite decide_False by lia.
Qed.

Lemma holds_rows_append (rows : list (list pyvalue)) (row : list pyvalue)
  (ws : Worksheet) :
  holds_rows rows ws → holds_rows (rows ++ [row]) (store_row row ws).
Proof.
  intros [Hcur Hcells]. split.
  - cbn. rewrite length_app. simpl. lia.
  - intros r c. rewrite store_row_lookup, grid_lookup_snoc, Hcur.
    case_decide as H; [| apply Hcells].
    rewrite <- option_fmap_compose.
    by destruct (row !! (c - 1)).
Qed.

Lemma holds_rows_cell_set (rows : list (list pyvalue)) (f : Cell → Cell)
  (r c : nat) (ws : Worksheet) :
  (∀ x, cell_value (f x) = cell_value x) →
  is_Some (grid_lookup rows r c) →
  holds_rows rows ws → holds_rows rows (ws_cell_set f r c ws).
Proof.
  intros Hf Hin [Hcur Hcells].
  assert (is_Some (_cells ws !! (r, c))) as Hex.
  { rewrite <- Hcells in Hin. by apply fmap_is_Some in Hin. }
  split.
  - unfold ws_cell_set. cbn. by rewrite ws_get_cell_present.
  - intros r' c'. rewrite ws_cell_set_lookup. case_decide as Hk; [| apply Hcells].
    injection Hk as -> ->. rewrite <- Hcells.
    destruct Hex as [x ->]. cbn. by rewrite Hf.
Qed.

Lemma holds_rows_yield_row (rows : list (list pyvalue)) (r : nat)
  (cols : list nat) (ws : Worksheet) :
  (∀ c, c ∈ cols → is_Some (grid_lookup rows r c)) →
  holds_rows rows ws → ws_yield_row r cols ws = ws.
Proof.
  intros Hin [Hcur Hcells]. unfold ws_yield_row.
  induction cols as [|c cols IH]; [done |]. cbn [foldl].
  rewrite ws_get_cell_present; [apply IH; intros; apply Hin; by right |].
  specialize (Hin c (list_elem_of_here _ _)).
  rewrite <- Hcells in Hin. by apply fmap_is_Some in Hin.
Qed.

Lemma holds_rows_frame (rows : list (list pyvalue)) (ws ws' : Worksheet) :
  _cells ws' = _cells ws → _current_row ws' = _current_row ws →
  holds_rows rows ws → holds_rows rows ws'.
Proof. intros E1 E2 [H1 H2]. split; [by rewrite E2 | by rewrite E1]. Qed.

Lemma cell_present_iff (rows : list (list pyvalue)) (ws : Worksheet) (r c : nat) :
  holds_rows rows ws →
  is_Some (_cells ws !! (r, c)) ↔ is_Some (grid_lookup rows r c).
Proof. intros [_ H]. rewrite <- H. by rewrite fmap_is_Some. Qed.

Lemma grid_lookup_is_Some (rows : list (list pyvalue)) (r c : nat) :
  is_Some (grid_lookup rows r c)
  ↔ ∃ row, 1 ≤ r ∧ rows !! (r - 1) = Some row ∧ 1 ≤ c ≤ length row.
Proof.
  destruct r as [|r]; [split; [by intros [? ?] | intros (? & ? & _); lia] |].
  destruct c as [|c]; [split; [by intros [? ?] | intros (? & ? & ? & ?); lia] |].
  cbn [grid_lookup]. rewrite Nat.sub_succ, Nat.sub_0_r. split.
  - intros [v Hv]. destruct (rows !! r) as [row|] eqn:E; [| done].
    exists row. split_and!; [lia | done | lia |].
    cbn in Hv. apply lookup_lt_Some in Hv. lia.
  - intros (row & _ & -> & Hc). cbn. apply lookup_lt_is_Some. lia.
Qed.

(** [max_row] and [max_column] of a sheet, from the positions it holds. *)
Lemma ws_max_row_eq (ws : Worksheet) (n : nat) :
  (∃ c, is_Some (_cells ws !! (n, c))) →
  (∀ r c, is_Some (_cells ws !! (r, c)) → r ≤ n) →
  ws_max_row ws = n.
Proof.
  intros [c [x Hx]] Hle. unfold ws_max_row.
  set (l := (map_to_list (_cells ws)).*1.*1).
  assert (n ∈ l) as Hn.
  { apply elem_of_map_to_list in Hx.
    apply (list_elem_of_fmap_2 fst) in Hx. by apply (list_elem_of_fmap_2 fst) in Hx. }
  assert (l ≠ []) as Hne by (intros E; rewrite E in Hn; by apply elem_of_nil in Hn).
  assert (max_list l ≤ n) as Hub.
  { pose proof (max_list_elem_of l Hne) as Hmax.
    apply list_elem_of_fmap in Hmax as (k & E & Hk).
    apply list_elem_of_fmap in Hk as (kv & E' & Hk).
    destruct kv as [[r' c'] y]. simpl in E'. subst k. simpl in E. rewrite E.
    apply elem_of_map_to_list in Hk. apply (Hle r' c'). by eexists. }
  pose proof (max_list_elem_of_le n l Hn).
  destruct l; [done | lia].
Qed.

Lemma ws_max_column_eq (ws : Worksheet) (n : nat) :
  (∃ r, is_Some (_cells ws !! (r, n))) →
  (∀ r c, is_Some (_cells ws !! (r, c)) → c ≤ n) →
  ws_max_column ws = n.
Proof.
  intros [r [x Hx]] Hle. unfold ws_max_column.
  set (l := (map_to_list (_cells ws)).*1.*2).
  assert (n ∈ l) as Hn.
  { apply elem_of_map_to_list in Hx.
    apply (list_elem_of_fmap_2 fst) in Hx. by apply (list_elem_of_fmap_2 snd) in Hx. }
  assert (l ≠ []) as Hne by (intros E; rewrite E in Hn; by apply elem_of_nil in Hn).
  assert (max_list l ≤ n) as Hub.
  { pose proof (max_list_elem_of l Hne) as Hmax.
    apply list_elem_of_fmap in Hmax as (k & E & Hk).
    apply list_elem_of_fmap in Hk as (kv & E' & Hk).
    destruct kv as [[r' c'] y]. simpl in E'. subst k. simpl in E. rewrite E.
    apply elem_of_map_to_list in Hk. apply (Hle r' c'). by eexists. }
  pose proof (max_list_elem_of_le n l Hn).
  destruct l; [done | lia].
Qed.

Lemma holds_rows_max_row (rows : list (list pyvalue)) (ws : Worksheet) :
  holds_rows rows ws → rows ≠ [] → Forall (λ row, row ≠ []) rows →
  ws_max_row ws = length rows.
Proof.
  intros Hh Hne Hall. apply ws_max_row_eq.
  - exists 1. rewrite (cell_present_iff rows) by done.
    apply grid_lookup_is_Some.
    destruct (lookup_lt_is_Some_2 rows (length rows - 1)) as [row Hrow].
    { destruct rows; [done | simpl; lia]. }
    exists row. split_and!; [destruct rows; [done | simpl; lia] | done | lia |].
    rewrite Forall_forall in Hall.
    specialize (Hall row (list_elem_of_lookup_2 _ _ _ Hrow)).
    destruct row; [done | simpl; lia].
  - intros r c (row & Hr & Hrow & _)%(cell_present_iff rows)%grid_lookup_is_Some;
      [| done].
    apply lookup_lt_Some in Hrow. lia.
Qed.

Lemma holds_rows_max_column (rows : list (list pyvalue)) (ws : Worksheet) (w : nat) :
  holds_rows rows ws → rows ≠ [] → 1 ≤ w →
  Forall (λ row, length row ≤ w) rows → Exists (λ row, length row = w) rows →
  ws_max_column ws = w.
Proof.
  intros Hh Hne Hw Hall Hex. apply ws_max_column_eq.
  - apply Exists_exists in Hex as (row & Hin & Hlen).
    apply list_elem_of_lookup in Hin as [i Hi].
    exists (S i). rewrite (cell_present_iff rows) by done.
    apply grid_lookup_is_Some. exists row. rewrite Nat.sub_succ, Nat.sub_0_r.
    split_and!; [lia | done | lia | lia].
  - intros r c (row & Hr & Hrow & Hc)%(cell_present_iff rows)%grid_lookup_is_Some;
      [| done].
    rewrite Forall_forall in Hall.
    specialize (Hall row (list_elem_of_lookup_2 _ _ _ Hrow)). simpl in Hall. lia.
Qed.

(** A sheet that holds rows of one width shows them back as its values. *)
Lemma holds_rows_values (rows : list (list pyvalue)) (ws : Worksheet) (w : nat) :
  holds_rows rows ws → rows ≠ [] → 1 ≤ w →
  Forall (λ row, length row = w) rows →
  ws_values ws = rows.
Proof.
  intros Hh Hne Hw Hall. unfold ws_values.
  destruct Hh as [Hcur Hcells].
  replace (_current_row ws =? 0) with false
    by (symmetry; apply Nat.eqb_neq; destruct rows; [done | simpl in Hcur; lia]).
  rewrite (holds_rows_max_row rows), (holds_rows_max_column rows ws w);
    [| done | done | done | | | done | done |].
  2:{ eapply Forall_impl; [exact Hall |]. simpl. lia. }
  2:{ destruct rows as [|row rows]; [done |]. apply Exists_cons_hd.
      by apply Forall_cons_1 in Hall as [? _]. }
  2:{ eapply Forall_impl; [exact Hall |]. simpl. intros row E ->. simpl in E. lia. }
  apply list_eq. intros i. rewrite list_lookup_fmap.
  destruct (decide (i < length rows)) as [Hi | Hi].
  - rewrite lookup_seq_lt by done. cbn [fmap option_fmap option_map].
    destruct (lookup_lt_is_Some_2 rows i Hi) as [row Hrow]. rewrite Hrow. f_equal.
    rewrite Forall_forall in Hall.
    pose proof (Hall row (list_elem_of_lookup_2 _ _ _ Hrow)) as Hlen. simpl in Hlen.
    apply list_eq. intros j. rewrite list_lookup_fmap.
    destruct (decide (j < w)) as [Hj | Hj].
    + rewrite lookup_seq_lt by done. cbn [fmap option_fmap option_map].
      specialize (Hcells (1 + i) (1 + j)). cbn [grid_lookup Nat.add] in Hcells.
      rewrite Hrow in Hcells. cbn [mbind option_bind] in Hcells.
      destruct (lookup_lt_is_Some_2 row j) as [v Hv]; [lia |].
      rewrite Hv in Hcells |- *. cbn [Nat.add].
      destruct (_cells ws !! (S i, S j)); cbn in *; congruence.
    + rewrite lookup_seq_ge by lia. symmetry. apply lookup_ge_None_2. lia.
  - rewrite lookup_seq_ge by lia. symmetry. apply lookup_ge_None_2. lia.
Qed.

(** ** Sheet titles *)

Lemma sheet_name_nonempty (p : Property) : String.eqb (sheet_name_of p) "" = false.
Proof. unfold sheet_name_of. by destruct (display_name p). Qed.

Lemma avoid_duplicate_name_unclaimed (names : list string) (value : string) :
  unclaimed names value → avoid_duplicate_name names value = value.
Proof.
  intros H. unfold avoid_duplicate_name. cbv zeta.
  rewrite bool_decide_eq_false_2; [done |].
  intros Hne. apply Hne. clear Hne.
  induction H as [|n names Hn _ IH]; [done |].
  by rewrite filter_cons_False.
Qed.

Lemma unclaimed_fresh (names : list string) (value : string) :
  unclaimed names value → value ∉ names.
Proof.
  intros H Hin. unfold unclaimed in H. rewrite Forall_forall in H.
  by apply (H value Hin).
Qed.

Lemma case_distinct_unclaimed (names : list string) (value : string) :
  case_distinct (names ++ [value]) → value ∉ names → unclaimed names value.
Proof.
  intros Hcd Hfresh. apply Forall_forall. intros n Hn E.
  apply Hfresh. rewrite <- (Hcd n value); [done | | | done].
  - apply elem_of_app. by left.
  - apply elem_of_app. right. apply list_elem_of_here.
Qed.

Lemma NoDup_lower_case_distinct (names : list string) :
  NoDup (py_lower <$> names) → case_distinct names.
Proof.
  intros Hnd a b Ha Hb E.
  apply list_elem_of_lookup in Ha as [i Hi]. apply list_elem_of_lookup in Hb as [j Hj].
  assert (i = j) as ->; [| congruence].
  eapply (NoDup_lookup _ i j (py_lower a)); [exact Hnd | |].
  - by rewrite list_lookup_fmap, Hi.
  - by rewrite list_lookup_fmap, Hj, E.
Qed.

Lemma case_distinct_prefix (names more : list string) :
  case_distinct (names ++ more) → case_distinct names.
Proof.
  intros H a b Ha Hb. apply H; apply elem_of_app; by left.
Qed.

Lemma valid_title_inv (t : string) :
  valid_title t = true
  ↔ String.eqb t "" = false ∧ string_find invalid_title_char t = None.
Proof.
  unfold valid_title. rewrite andb_true_iff, negb_true_iff, bool_decide_eq_true.
  done.
Qed.

Lemma title_setter_Ok (names : list string) (current value t : string) :
  title_setter names current value = Ok t
  ↔ valid_title value = true
    ∧ t = if String.eqb current value then value
          else avoid_duplicate_name names value.
Proof.
  rewrite valid_title_inv. unfold title_setter.
  destruct (String.eqb value ""); [split; [done | by intros [[? _] _]] |].
  destruct (string_find invalid_title_char value) as [c|].
  - split; [done | by intros [[_ ?] _]].
  - split; [by intros [= <-] | by intros [_ ->]].
Qed.

Lemma title_setter_Raise (names : list string) (current value : string) :
  valid_title value = false →
  ∃ msg, title_setter names current value = Raise (ValueError msg).
Proof.
  unfold valid_title, title_setter.
  destruct (String.eqb value ""); [by eexists |].
  destruct (string_find invalid_title_char value) as [c|]; [by eexists |].
  by rewrite bool_decide_eq_true_2.
Qed.

Lemma create_sheet_end (wb wb' : Workbook) (t : string) (h : nat) :
  String.eqb t "" = false →
  create_sheet wb t None = Ok (wb', h)
  ↔ valid_title t = true
    ∧ wb' = wb ++ [Worksheet_new (avoid_duplicate_name (sheetnames wb) t)]
    ∧ h = length wb.
Proof.
  intros Hne. unfold create_sheet. rewrite Hne.
  destruct (title_setter (sheetnames wb) "" t) as [t'|e] eqn:E;
    cbn [mbind result_bind].
  - apply title_setter_Ok in E as [Hv ->].
    replace (String.eqb "" t) with false
      by (symmetry; rewrite String.eqb_sym; exact Hne).
    split; [by intros [= <- <-] | by intros (_ & -> & ->)].
  - split; [done |]. intros (Hv & _).
    pose proof (proj2 (title_setter_Ok (sheetnames wb) "" t _) (conj Hv eq_refl)).
    congruence.
Qed.

Lemma create_sheet_end_Raise (wb : Workbook) (t : string) :
  String.eqb t "" = false → valid_title t = false →
  ∃ msg, create_sheet wb t None = Raise (ValueError msg).
Proof.
  intros Hne Hv. unfold create_sheet. rewrite Hne.
  destruct (title_setter_Raise (sheetnames wb) "" t Hv) as [msg ->].
  by exists msg.
Qed.

(** ** The reference-sheet builder *)

Lemma sheet_at_new (wb : Workbook) (ws : Worksheet) :
  sheet_at (wb ++ [ws]) (length wb) = ws.
Proof. unfold sheet_at. by rewrite list_lookup_middle. Qed.

Lemma insert_new (wb : Workbook) (ws ws' : Worksheet) :
  <[length wb := ws']> (wb ++ [ws]) = wb ++ [ws'].
Proof.
  rewrite insert_app_r_alt by done. by rewrite Nat.sub_diag.
Qed.

Lemma header_legal : Forall (λ v, legal_value v = true) REFERENCE_HEADER.
Proof. by repeat constructor. Qed.

Lemma header_stored : stored <$> REFERENCE_HEADER = REFERENCE_HEADER.
Proof. reflexivity. Qed.

Lemma header_append (ws : Worksheet) :
  ws_append REFERENCE_HEADER ws = Ok (store_row REFERENCE_HEADER ws).
Proof. by rewrite (ws_append_Ok _ _ header_legal), header_stored. Qed.

Lemma reference_row_eq (dt : constructor) (ws : Worksheet) (pv : PropertyValue) :
  reference_row dt ws pv
  = v ← construct dt (value pv); ws_append (reference_values pv v) ws.
Proof. done. Qed.

Lemma reference_row_Ok (dt : constructor) (ws ws' : Worksheet) (pv : PropertyValue) :
  reference_row dt ws pv = Ok ws' ↔
  ∃ v, construct dt (value pv) = Ok v
       ∧ Forall (λ x, legal_value x = true) (reference_values pv v)
       ∧ ws' = store_row (kept_values pv v) ws.
Proof.
  unfold reference_row. destruct (construct dt (value pv)) as [v|e];
    cbn [mbind result_bind].
  - change [v; VStr (description pv); VStr (property_value_id pv);
            VStr (pv_property_id pv)] with (reference_values pv v).
    rewrite ws_append_inv. split.
    + intros [Hl ->]. by exists v.
    + by intros (v' & [= <-] & Hl & ->).
  - split; [done | by intros (v' & [=] & _)].
Qed.

Lemma reference_loop (dt : constructor) (pvs : list PropertyValue) :
  ∀ (ws ws' : Worksheet) (rows : list (list pyvalue)),
    holds_rows rows ws →
    for_each (reference_row dt) ws pvs = Ok ws' →
    ∃ vs, Forall2 (λ pv v, construct dt (value pv) = Ok v) pvs vs
          ∧ holds_rows (rows ++ zip_with kept_values pvs vs) ws'
          ∧ cells_only ws ws'
          ∧ Forall2 (λ pv v, Forall (λ x, legal_value x = true)
                                    (reference_values pv v)) pvs vs.
Proof.
  induction pvs as [|pv pvs IH]; intros ws ws' rows Hrows Hrun.
  - injection Hrun as <-. exists []. rewrite app_nil_r.
    split_and!; [constructor | done | apply cells_only_refl | constructor].
  - cbn [for_each] in Hrun.
    destruct (reference_row dt ws pv) as [ws1|e] eqn:E1; [| done].
    cbn [mbind result_bind] in Hrun.
    apply reference_row_Ok in E1 as (v & Hv & Hl & ->).
    destruct (IH _ _ (rows ++ [kept_values pv v])
                 (holds_rows_append _ _ _ Hrows) Hrun) as (vs & Hvs & Hh & Hf & Hls).
    exists (v :: vs). split_and!.
    + by constructor.
    + cbn [zip_with]. by rewrite <- app_assoc in Hh.
    + eapply cells_only_trans; [apply cells_only_append | done].
    + by constructor.
Qed.

Lemma reference_loop_total (dt : constructor) (pvs : list PropertyValue) :
  Forall (λ pv, ∃ v, construct dt (value pv) = Ok v
                     ∧ Forall (λ x, legal_value x = true) (reference_values pv v))
         pvs →
  ∀ ws, ∃ ws', for_each (reference_row dt) ws pvs = Ok ws'.
Proof.
  induction 1 as [|pv pvs (v & Hv & Hl) _ IH]; intros ws; [by eexists |].
  rewrite for_each_cons.
  assert (reference_row dt ws pv = Ok (store_row (kept_values pv v) ws)) as ->
    by (apply reference_row_Ok; by exists v).
  cbn [mbind result_bind]. apply IH.
Qed.

Lemma construct_coerced (p : Property) (pv : PropertyValue) (v : pyvalue) :
  construct (data_type_of p) (value pv) = Ok v ↔ coerced p pv v.
Proof.
  unfold data_type_of, coerced.
  destruct (String.eqb_spec (data_type p) "numeric") as [Hn | Hn];
    [destruct (Z.eqb_spec (decimal_digits p) 0) as [Hd | Hd] |]; cbn.
  - destruct (py_int (value pv)) as [z|]; split.
    + intros [= <-]. split_and!; [by eexists | done | done].
    + intros (H & _ & _). destruct (H Hn Hd) as (z' & [= <-] & ->). done.
    + done.
    + intros (H & _ & _). by destruct (H Hn Hd) as (z' & [=] & _).
  - destruct (py_float (value pv)) as [f|]; split.
    + intros [= <-]. split_and!; [done | by eexists | done].
    + intros (_ & H & _). destruct (H Hn Hd) as (f' & [= <-] & ->). done.
    + done.
    + intros (_ & H & _). by destruct (H Hn Hd) as (f' & [=] & _).
  - split.
    + intros [= <-]. done.
    + intros (_ & _ & H). by rewrite H.
Qed.

Lemma well_typed_construct (p : Property) (pv : PropertyValue) :
  well_typed_value p pv → ∃ v, construct (data_type_of p) (value pv) = Ok v.
Proof.
  intros [H1 H2]. unfold data_type_of.
  destruct (String.eqb_spec (data_type p) "numeric") as [Hn | Hn];
    [destruct (Z.eqb_spec (decimal_digits p) 0) as [Hd | Hd] |]; cbn.
  - destruct (H1 Hn Hd) as [z ->]. by eexists.
  - destruct (H2 Hn Hd) as [f ->]. by eexists.
  - by eexists.
Qed.

(** The row of a value is accepted by the cells exactly when its texts
    are. *)
Lemma coerced_legal (p : Property) (pv : PropertyValue) (v : pyvalue) :
  coerced p pv v →
  Forall (λ x, legal_value x = true) (reference_values pv v) ↔ legal_texts p pv.
Proof.
  intros (Hi & Hf & Hs). unfold reference_values, legal_texts.
  rewrite !Forall_cons, Forall_nil. cbn [legal_value].
  destruct (decide (data_type p = "numeric")) as [Hn | Hn].
  - assert (legal_value v = true) as ->.
    { destruct (decide (decimal_digits p = 0%Z)) as [Hd | Hd].
      - by destruct (Hi Hn Hd) as (z & _ & ->).
      - by destruct (Hf Hn Hd) as (f & _ & ->). }
    split; [intros (_ & ? & ? & ? & _) | intros (_ & ? & ? & ?)]; done.
  - rewrite (Hs Hn). cbn [legal_value].
    split; [intros (? & ? & ? & ? & _) | intros (H & ? & ? & ?)]; split_and!; auto.
Qed.

Lemma append_validation_sheet_taken (wb : Workbook) (p : Property)
  (pwd : option string) :
  sheet_name_of p ∈ sheetnames wb →
  _append_validation_sheet_ wb p pwd = Ok (wb, None).
Proof.
  intros H. unfold _append_validation_sheet_.
  by rewrite bool_decide_eq_false_2 by (by intros ?).
Qed.

Lemma append_validation_sheet_fresh (wb wb' : Workbook) (p : Property)
  (pwd : option string) (r : option nat) :
  sheet_name_of p ∉ sheetnames wb →
  _append_validation_sheet_ wb p pwd = Ok (wb', r) →
  ∃ new vs,
    wb' = wb ++ [new] ∧ r = Some (length wb)
    ∧ Forall2 (λ pv v, construct (data_type_of p) (value pv) = Ok v)
              (property_values p) vs
    ∧ holds_rows (REFERENCE_HEADER :: zip_with kept_values (property_values p) vs)
                 new
    ∧ title new = avoid_duplicate_name (sheetnames wb) (sheet_name_of p)
    ∧ data_validations new = []
    ∧ protection_sheet new = true
    ∧ protection_password new = Some (default (sheet_name_of p) pwd)
    ∧ sheet_state new = "hidden"
    ∧ valid_title (sheet_name_of p) = true
    ∧ Forall2 (λ pv v, Forall (λ x, legal_value x = true) (reference_values pv v))
              (property_values p) vs.
Proof.
  intros Hfresh. unfold _append_validation_sheet_.
  rewrite bool_decide_eq_true_2 by done.
  destruct (create_sheet wb (sheet_name_of p) None) as [[wb1 h]|e] eqn:Hc; [| done].
  apply create_sheet_end in Hc as (Hv & -> & ->); [| apply sheet_name_nonempty].
  cbn [mbind result_bind]. rewrite sheet_at_new, header_append.
  cbn [mbind result_bind].
  destruct (for_each _ _ _) as [ws|e] eqn:Hloop; [| done].
  cbn [mbind result_bind]. rewrite insert_new. intros [= <- <-].
  apply (reference_loop _ _ _ _ [REFERENCE_HEADER]) in Hloop
    as (vs & Hvs & Hh & (m & cur & ->) & Hl).
  2:{ apply (holds_rows_append []), holds_rows_new. }
  eexists _, vs. split_and!; done.
Qed.

Lemma append_validation_sheet_total (wb : Workbook) (p : Property)
  (pwd : option string) :
  valid_title (sheet_name_of p) = true →
  Forall (well_typed_value p) (property_values p) →
  Forall (legal_texts p) (property_values p) →
  ∃ wb' r, _append_validation_sheet_ wb p pwd = Ok (wb', r).
Proof.
  intros Hv Hty Hl. unfold _append_validation_sheet_.
  case_bool_decide; [| by eexists _, _].
  rewrite (proj2 (create_sheet_end wb _ (sheet_name_of p) _ (sheet_name_nonempty p))
                 (conj Hv (conj eq_refl eq_refl))).
  cbn [mbind result_bind]. rewrite sheet_at_new, header_append.
  cbn [mbind result_bind].
  destruct (reference_loop_total (data_type_of p) (property_values p))
    with (ws := store_row REFERENCE_HEADER
                  (Worksheet_new (avoid_duplicate_name (sheetnames wb)
                                    (sheet_name_of p))))
    as [ws' ->].
  { apply Forall_forall. intros pv Hpv.
    rewrite Forall_forall in Hty, Hl.
    destruct (well_typed_construct p pv (Hty pv Hpv)) as [v Hc].
    exists v. split; [done |].
    apply (coerced_legal p pv v); [by apply construct_coerced | by apply Hl]. }
  by eexists _, _.
Qed.

Lemma kept_rows_width (pvs : list PropertyValue) (vs : list pyvalue) :
  Forall (λ row, length row = 4) (zip_with kept_values pvs vs).
Proof.
  revert vs. induction pvs as [|pv pvs IH]; intros [|v vs]; cbn [zip_with];
    constructor; [done | apply IH].
Qed.

(** C4.  For a property whose derived name is a title that openpyxl
    accepts and equals no sheet name of the workbook up to case, whose
    values are literals of its declared type and whose texts hold no
    illegal character, the builder appends a sheet named
    [{display_name}_{property_id}]; its rows are the header [value,
    description, value-id, property-id] and one row per value of the
    property, in order, whose first cell is the value brought to an
    integer (numeric, no decimal digits), to a float (numeric otherwise)
    or kept as text, every text being cut at 32767 characters. *)
Theorem reference_sheet_contents (wb : Workbook) (p : Property)
  (pwd : option string) :
  valid_title (sheet_name_of p) = true →
  unclaimed (sheetnames wb) (sheet_name_of p) →
  Forall (well_typed_value p) (property_values p) →
  Forall (legal_texts p) (property_values p) →
  ∃ new vs,
    _append_validation_sheet_ wb p pwd = Ok (wb ++ [new], Some (length wb))
    ∧ title new = display_name p +:+ "_" +:+ property_id p
    ∧ Forall2 (coerced p) (property_values p) vs
    ∧ ws_values new
      = [VStr "property_value"; VStr "property_description";
         VStr "property_value_id"; VStr "property_id"]
        :: zip_with (λ pv v, stored <$> [v; VStr (description pv);
                                         VStr (property_value_id pv);
                                         VStr (pv_property_id pv)])
                    (property_values p) vs.
Proof.
  intros Hv Hun Hty Hl.
  destruct (append_validation_sheet_total wb p pwd Hv Hty Hl) as (wb' & r & Hrun).
  destruct (append_validation_sheet_fresh _ _ _ _ _ (unclaimed_fresh _ _ Hun) Hrun)
    as (new & vs & -> & -> & Hvs & Hh & Ht & _).
  exists new, vs. split_and!; [done | | |].
  - by rewrite Ht, avoid_duplicate_name_unclaimed.
  - eapply Forall2_impl; [exact Hvs |]. intros pv v. apply construct_coerced.
  - apply (holds_rows_values _ _ 4 Hh); [done | lia |].
    constructor; [done | apply kept_rows_width].
Qed.

Lemma count_title_absent (wb : Workbook) (name : string) :
  name ∉ sheetnames wb → filter (λ ws, title ws = name) wb = [].
Proof.
  unfold sheetnames. induction wb as [|ws wb IH]; [done |].
  rewrite fmap_cons, not_elem_of_cons. intros [Hne Hnot].
  rewrite filter_cons_False by done. by apply IH.
Qed.

Lemma count_title_unique (wb : Workbook) (name : string) :
  NoDup (sheetnames wb) → name ∈ sheetnames wb →
  length (filter (λ ws, title ws = name) wb) = 1.
Proof.
  unfold sheetnames. induction wb as [|ws wb IH]; [by intros _ ?%elem_of_nil |].
  rewrite fmap_cons, NoDup_cons. intros [Hnot Hnd] [-> | Hin]%elem_of_cons.
  - rewrite filter_cons_True by done. by rewrite count_title_absent.
  - rewrite filter_cons_False by (intros E; by rewrite E in Hnot). by apply IH.
Qed.

(** X23.  Asking twice for the reference sheet of one property, on a workbook
    where no sheet name equals the derived name up to case without
    being it: the second request returns no sheet and leaves the
    workbook as the first one left it, which holds exactly one sheet of
    that name. *)
Theorem reference_sheet_idempotent (wb wb1 : Workbook) (p : Property)
  (pwd pwd' : option string) (r1 : option nat) :
  NoDup (sheetnames wb) →
  (∀ n, n ∈ sheetnames wb → py_lower n = py_lower (sheet_name_of p) →
        n = sheet_name_of p) →
  _append_validation_sheet_ wb p pwd = Ok (wb1, r1) →
  _append_validation_sheet_ wb1 p pwd' = Ok (wb1, None)
  ∧ length (filter (λ ws, title ws = sheet_name_of p) wb1) = 1.
Proof.
  intros Hnd Hcase Hfirst.
  destruct (decide (sheet_name_of p ∈ sheetnames wb)) as [Hin | Hfresh].
  - rewrite append_validation_sheet_taken in Hfirst by done.
    injection Hfirst as <- <-.
    split; [by apply append_validation_sheet_taken | by apply count_title_unique].
  - apply append_validation_sheet_fresh in Hfirst
      as (new & vs & -> & _ & _ & _ & Ht & _); [| done].
    rewrite avoid_duplicate_name_unclaimed in Ht.
    2:{ apply Forall_forall. intros n Hn E. apply Hfresh.
        by rewrite <- (Hcase n Hn E). }
    split.
    + apply append_validation_sheet_taken. unfold sheetnames.
      rewrite fmap_app, elem_of_app. right. rewrite <- Ht. apply list_elem_of_here.
    + rewrite filter_app, count_title_absent by done.
      by rewrite filter_cons_True.
Qed.

(** ** Validation wiring *)

Lemma MinMax_inv (limit : N) (v : option nat) (n : nat) :
  MinMax limit v = Ok n → v = Some n ∧ 1 ≤ n ∧ (N.of_nat n ≤ limit)%N.
Proof.
  unfold MinMax. destruct v as [m|]; [| done].
  destruct (Nat.ltb_spec m 1); [done |].
  destruct (N.ltb_spec limit (N.of_nat m)); [done |].
  intros [= <-]. done.
Qed.

Lemma CellRange_of_string_inv (s : string) (cr : CellRange) :
  CellRange_of_string s = Ok cr →
  range_boundaries s
  = Ok (Some (min_col cr), Some (min_row cr), Some (max_col cr), Some (max_row cr))
  ∧ 1 ≤ min_col cr ≤ max_col cr ∧ 1 ≤ min_row cr ≤ max_row cr
  ∧ (N.of_nat (max_col cr) ≤ MAX_COLUMN)%N ∧ (N.of_nat (max_row cr) ≤ MAX_ROW)%N.
Proof.
  unfold CellRange_of_string.
  destruct (range_boundaries s) as [[[[c1 r1] c2] r2]|e]; [| done].
  cbn [mbind result_bind].
  destruct (MinMax MAX_COLUMN c1) as [a|] eqn:E1; [| done].
  destruct (MinMax MAX_ROW r1) as [b|] eqn:E2; [| done].
  destruct (MinMax MAX_COLUMN c2) as [c|] eqn:E3; [| done].
  destruct (MinMax MAX_ROW r2) as [d|] eqn:E4; [| done].
  cbn [mbind result_bind].
  apply MinMax_inv in E1 as (-> & ? & ?), E2 as (-> & ? & ?),
                      E3 as (-> & ? & ?), E4 as (-> & ? & ?).
  destruct (Nat.ltb_spec c a); [done |].
  destruct (Nat.ltb_spec d b); [done |].
  intros [= <-]. cbn. split_and!; done || lia.
Qed.

Lemma dv_add_fresh (addr t f : string) (b : bool) (cr : CellRange) :
  CellRange_of_string addr = Ok cr →
  dv_add addr (mkDataValidation t f b []) = Ok (mkDataValidation t f b [cr]).
Proof. intros H. unfold dv_add. by rewrite H. Qed.

Lemma set_validation_inv (ds ds' : Worksheet) (idx : string)
  (vsheet : option Worksheet) (is_global : bool) :
  _set_validation_ ds idx vsheet is_global = Ok ds' →
  ∃ vs cr,
    vsheet = Some vs
    ∧ CellRange_of_string
        (if is_global then "B" +:+ idx
         else idx +:+ "2:" +:+ idx +:+ py_str (ws_max_row ds)) = Ok cr
    ∧ ds' = add_data_validation (list_rule vs cr) ds.
Proof.
  unfold _set_validation_. destruct vsheet as [vs|]; [| done].
  destruct is_global; cbn [negb];
    (destruct (dv_add _ _) as [dv|e] eqn:E; [| done]);
    cbn [mbind result_bind]; intros [= <-];
    unfold dv_add in E;
    (destruct (CellRange_of_string _) as [cr|] eqn:Ecr; [| done]);
    cbn in E; injection E as <-; by exists vs, cr.
Qed.

Lemma set_validation_global (ds vs : Worksheet) (row : nat) :
  1 ≤ row → (N.of_nat row ≤ MAX_ROW)%N →
  _set_validation_ ds (py_str row) (Some vs) true
  = Ok (add_data_validation (list_rule vs (mkCellRange 2 row 2 row)) ds).
Proof.
  intros H1 H2. unfold _set_validation_. cbn [negb].
  rewrite (dv_add_fresh _ _ _ _ (mkCellRange 2 row 2 row)); [done |].
  by rewrite (CellRange_of_cell "B").
Qed.

Lemma set_validation_column (ds vs : Worksheet) (idx : string) :
  column_identifier idx = true →
  2 ≤ ws_max_row ds → (N.of_nat (ws_max_row ds) ≤ MAX_ROW)%N →
  _set_validation_ ds idx (Some vs) false
  = Ok (add_data_validation
          (list_rule vs (mkCellRange (column_index_from_string idx) 2
                                     (column_index_from_string idx)
                                     (ws_max_row ds))) ds).
Proof.
  intros Hid H1 H2. unfold _set_validation_. cbn [negb].
  erewrite dv_add_fresh; [done |].
  rewrite CellRange_of_column by (done || lia).
  by replace (ws_max_row ds <? 2) with false by (symmetry; apply Nat.ltb_ge; lia).
Qed.

(** C5.  Every rule that the wiring installs is a list rule that allows
    blanks and draws its values from column A of the reference sheet,
    row 2 to the last populated row; given a row index in global mode it
    targets the one cell B<row>, and given a column identifier in column
    mode it targets that column from row 2 to the last populated row of
    the data sheet. *)
Theorem validation_rule_shape (ds ds' : Worksheet) (idx : string)
  (vsheet : option Worksheet) (is_global : bool) :
  _set_validation_ ds idx vsheet is_global = Ok ds' →
  ∃ vs target,
    vsheet = Some vs
    ∧ data_validations ds'
      = data_validations ds
        ++ [mkDataValidation "list"
              (quote_sheetname (title vs) +:+ "!$A$2:$A$"
                 +:+ py_str (ws_max_row vs))
              true [target]]
    ∧ (is_global = true → ∀ row, idx = py_str row →
         target = mkCellRange 2 row 2 row)
    ∧ (is_global = false → column_identifier idx = true →
         target = mkCellRange (column_index_from_string idx) 2
                              (column_index_from_string idx) (ws_max_row ds)).
Proof.
  intros (vs & cr & -> & Hcr & ->)%set_validation_inv.
  exists vs, cr. split_and!; [done | done | |].
  - intros -> row ->. apply CellRange_of_string_inv in Hcr as (Hb & _).
    rewrite (range_boundaries_cell "B") in Hb by done.
    destruct cr; cbn in Hb. by injection Hb as <- <- <- <-.
  - intros -> Hid. apply CellRange_of_string_inv in Hcr as (Hb & _).
    change (idx +:+ "2:" +:+ idx +:+ py_str (ws_max_row ds))
      with (idx +:+ py_str 2 +:+ ":" +:+ idx +:+ py_str (ws_max_row ds)) in Hb.
    rewrite range_boundaries_range in Hb by done.
    destruct cr; cbn in Hb. by injection Hb as <- <- <- <-.
Qed.



(** ** Locks *)

Lemma is_unlocked_new (t : string) (r c : nat) :
  is_unlocked (Worksheet_new t) r c = false.
Proof. unfold is_unlocked. cbn. by rewrite lookup_empty. Qed.

Lemma is_unlocked_append (row : list pyvalue) (ws : Worksheet) (r c : nat) :
  is_unlocked (store_row row ws) r c
  = if decide (r = S (_current_row ws) ∧ 1 ≤ c ≤ length row)
    then false else is_unlocked ws r c.
Proof.
  unfold is_unlocked. rewrite store_row_lookup. case_decide; [| done].
  by destruct (row !! (c - 1)).
Qed.

Lemma is_unlocked_get_cell (ws : Worksheet) (r c r' c' : nat) :
  is_unlocked (ws_get_cell r c ws) r' c' = is_unlocked ws r' c'.
Proof.
  unfold is_unlocked. rewrite ws_get_cell_lookup. case_decide as Hk; [| done].
  by destruct (_cells ws !! (r', c')).
Qed.

Lemma is_unlocked_yield_row (ws : Worksheet) (r : nat) (cols : list nat)
  (r' c' : nat) :
  is_unlocked (ws_yield_row r cols ws) r' c' = is_unlocked ws r' c'.
Proof.
  unfold ws_yield_row. revert ws.
  induction cols as [|c cols IH]; intros ws; [done |].
  cbn [foldl]. by rewrite IH, is_unlocked_get_cell.
Qed.

Lemma is_unlocked_cell_set (f : Cell → Cell) (ws : Worksheet) (r c r' c' : nat) :
  is_unlocked (ws_cell_set f r c ws) r' c'
  = if decide ((r', c') = (r, c))
    then negb (locked (protection (f (default (new_cell VNone)
                                               (_cells ws !! (r, c))))))
    else is_unlocked ws r' c'.
Proof.
  unfold is_unlocked. rewrite ws_cell_set_lookup.
  case_decide as Hk; [by injection Hk as -> -> | done].
Qed.

Lemma is_unlocked_restyle (f : Cell → Cell) (ws : Worksheet) (r c r' c' : nat) :
  (∀ x, protection (f x) = protection x) →
  is_unlocked (ws_cell_set f r c ws) r' c' = is_unlocked ws r' c'.
Proof.
  intros Hf. rewrite is_unlocked_cell_set. case_decide as Hk; [| done].
  injection Hk as -> ->. rewrite Hf. unfold is_unlocked.
  by destruct (_cells ws !! (r, c)).
Qed.

Lemma is_unlocked_unlock (ws : Worksheet) (r c r' c' : nat) :
  is_unlocked (ws_cell_set (set_protection UNLOCKED) r c ws) r' c'
  = if decide (r' = r ∧ c' = c) then true else is_unlocked ws r' c'.
Proof.
  rewrite is_unlocked_cell_set.
  case_decide as Hk; [injection Hk as -> ->; by rewrite decide_True |].
  rewrite decide_False; [done |]. intros [-> ->]. done.
Qed.

Lemma is_unlocked_frame (ws ws' : Worksheet) (r c : nat) :
  _cells ws' = _cells ws → is_unlocked ws' r c = is_unlocked ws r c.
Proof. unfold is_unlocked. by intros ->. Qed.

(** ** Values under restyling *)

Lemma value_at_get_cell (ws : Worksheet) (r c r' c' : nat) :
  is_Some (value_at ws r' c') →
  value_at (ws_get_cell r c ws) r' c' = value_at ws r' c'.
Proof.
  unfold value_at. rewrite fmap_is_Some. intros [x Hx].
  rewrite ws_get_cell_lookup. case_decide; [by rewrite Hx | done].
Qed.

Lemma value_at_cell_set (f : Cell → Cell) (ws : Worksheet) (r c r' c' : nat) :
  (∀ x, cell_value (f x) = cell_value x) →
  is_Some (value_at ws r' c') →
  value_at (ws_cell_set f r c ws) r' c' = value_at ws r' c'.
Proof.
  unfold value_at. rewrite fmap_is_Some. intros Hf [x Hx].
  rewrite ws_cell_set_lookup. case_decide; [| done].
  rewrite Hx. cbn. by rewrite Hf.
Qed.

Lemma value_at_foldl {X} (g : Worksheet → X → Worksheet) (xs : list X)
  (r c : nat) :
  (∀ ws x, is_Some (value_at ws r c) → value_at (g ws x) r c = value_at ws r c) →
  ∀ ws, is_Some (value_at ws r c) → value_at (foldl g ws xs) r c = value_at ws r c.
Proof.
  intros Hg. induction xs as [|x xs IH]; intros ws Hws; [done |].
  cbn [foldl]. rewrite IH; [by apply Hg |]. by rewrite Hg.
Qed.

(** ** The global sheet *)

Lemma setitem_protection_cell (idx : string) (n : nat) (p : Protection)
  (ws : Worksheet) :
  column_identifier idx = true →
  ws_setitem_protection (idx +:+ py_str n) p ws
  = Ok (ws_cell_set (set_protection p) n (column_index_from_string idx) ws).
Proof.
  intros Hid. unfold ws_setitem_protection. by rewrite getitem_target_cell.
Qed.

Lemma global_row_style_effect (sheet : Worksheet) (x : nat * (nat * list nat)) :
  global_row_style sheet x = Ok (global_row_effect sheet x).
Proof.
  destruct x as [i [r cols]]. unfold global_row_style, global_row_effect.
  by rewrite (setitem_protection_cell "B").
Qed.

Lemma is_unlocked_global_row (sheet : Worksheet) (i r : nat) (cols : list nat)
  (r' c' : nat) :
  is_unlocked (global_row_effect sheet (i, (r, cols))) r' c'
  = if decide (r' = i ∧ c' = 2) then true else is_unlocked sheet r' c'.
Proof.
  unfold global_row_effect. rewrite is_unlocked_unlock. case_decide; [done |].
  transitivity (is_unlocked (ws_yield_row r cols sheet) r' c');
    [| apply is_unlocked_yield_row].
  generalize (ws_yield_row r cols sheet). intros ws. revert ws.
  induction cols as [|c cols IH]; intros ws; [done |].
  cbn [foldl]. by rewrite IH, is_unlocked_restyle.
Qed.

Lemma value_at_global_row (sheet : Worksheet) (x : nat * (nat * list nat))
  (r' c' : nat) :
  is_Some (value_at sheet r' c') →
  value_at (global_row_effect sheet x) r' c' = value_at sheet r' c'.
Proof.
  destruct x as [i [r cols]]. intros Hs. unfold global_row_effect.
  assert (∀ ws, is_Some (value_at ws r' c') →
                value_at (ws_yield_row r cols ws) r' c' = value_at ws r' c') as Hy.
  { apply value_at_foldl. intros. by apply value_at_get_cell. }
  assert (∀ ws, is_Some (value_at ws r' c') →
                value_at (foldl (λ sheet c, ws_cell_set set_border r c sheet) ws cols)
                         r' c' = value_at ws r' c') as Hb.
  { apply value_at_foldl. intros. by apply value_at_cell_set. }
  rewrite value_at_cell_set; [| done |]; rewrite Hb; rewrite ?Hy; done.
Qed.

(** The loop over the rows of the global sheet, lines [a], [a+1], ... *)
Lemma is_unlocked_global_rows (cols : list nat) (n : nat) :
  ∀ (a : nat) (sheet : Worksheet) (r c : nat),
    is_unlocked (foldl global_row_effect sheet
                       (zip (seq a n) ((λ r, (r, cols)) <$> seq a n))) r c
    = if decide (a ≤ r < a + n ∧ c = 2) then true else is_unlocked sheet r c.
Proof.
  induction n as [|n IH]; intros a sheet r c.
  - cbn. by rewrite decide_False by lia.
  - cbn [seq fmap list_fmap zip zip_with foldl]. rewrite IH.
    rewrite is_unlocked_global_row.
    repeat case_decide; done || lia.
Qed.

Lemma holds_rows_appends {X} (f : X → list pyvalue) (xs : list X) :
  ∀ (rows : list (list pyvalue)) (ws : Worksheet),
    holds_rows rows ws →
    holds_rows (rows ++ (f <$> xs)) (foldl (λ sheet x, store_row (f x) sheet) ws xs).
Proof.
  induction xs as [|x xs IH]; intros rows ws H.
  - by rewrite app_nil_r.
  - cbn [foldl fmap list_fmap].
    replace (rows ++ f x :: (f <$> xs)) with ((rows ++ [f x]) ++ (f <$> xs))
      by (by rewrite <- app_assoc).
    apply IH. by apply holds_rows_append.
Qed.

Lemma all_locked_appends {X} (f : X → list pyvalue) (xs : list X) :
  ∀ (ws : Worksheet),
    (∀ r c, is_unlocked ws r c = false) →
    ∀ r c, is_unlocked (foldl (λ sheet x, store_row (f x) sheet) ws xs) r c = false.
Proof.
  induction xs as [|x xs IH]; intros ws H; [done |].
  cbn [foldl]. apply IH. intros r c. rewrite is_unlocked_append.
  by case_decide.
Qed.

Lemma create_sheet_at (wb : Workbook) (ws : Worksheet) (i : nat) :
  (take i wb ++ ws :: drop i wb) !! (i `min` length wb) = Some ws
  ∧ i `min` length wb < length (take i wb ++ ws :: drop i wb).
Proof.
  assert (length (take i wb) = i `min` length wb) as E by apply length_take.
  rewrite <- E. split; [by rewrite list_lookup_middle |].
  rewrite length_app. simpl. lia.
Qed.

(** The title that the global sheet gets on [wb]: "Global Ratings",
    unless a sheet is named so up to case. *)
Lemma create_sheet_global (wb : Workbook) :
  create_sheet wb "Global Ratings" (Some 1)
  = Ok (take 1 wb
          ++ Worksheet_new (avoid_duplicate_name (sheetnames wb) "Global Ratings")
          :: drop 1 wb,
        1 `min` length wb).
Proof. reflexivity. Qed.

Lemma global_header_append (ws : Worksheet) :
  ws_append [VStr "Global"; VStr "Rating"] ws
  = Ok (store_row [VStr "Global"; VStr "Rating"] ws).
Proof. by rewrite ws_append_Ok by (by repeat constructor). Qed.

Lemma global_rows_run (gps : list Property) :
  ∀ sheet sheet',
    for_each global_row sheet gps = Ok sheet'
    ↔ Forall (λ gp, legal_text (display_name gp) = true) gps
      ∧ sheet' = foldl (λ sheet gp, store_row [stored (VStr (display_name gp))] sheet)
                       sheet gps.
Proof.
  induction gps as [|gp gps IH]; intros sheet sheet'.
  - cbn. split; [by intros [= <-] | by intros [_ ->]].
  - cbn [for_each foldl].
    change (global_row sheet gp) with (ws_append [VStr (display_name gp)] sheet).
    destruct (ws_append [VStr (display_name gp)] sheet) as [s1|e] eqn:E;
      cbn [mbind result_bind].
    + apply ws_append_inv in E as [Hl ->]. rewrite IH.
      apply Forall_cons in Hl as [Hl _]. cbn [legal_value] in Hl.
      split; [intros [Hall ->]; split; [by constructor | done] |].
      intros [[_ Hall]%Forall_cons ->]. done.
    + split; [done |]. intros [[Hl _]%Forall_cons _].
      rewrite ws_append_Ok in E by (by repeat constructor). done.
Qed.

Lemma global_rows_Raise (gps : list Property) :
  ∀ sheet,
    ¬ Forall (λ gp, legal_text (display_name gp) = true) gps →
    ∃ msg, for_each global_row sheet gps = Raise (IllegalCharacterError msg).
Proof.
  induction gps as [|gp gps IH]; intros sheet Hno; [by destruct Hno |].
  cbn [for_each].
  change (global_row sheet gp) with (ws_append [VStr (display_name gp)] sheet).
  destruct (legal_text (display_name gp)) eqn:Hgp.
  - rewrite ws_append_Ok by (by repeat constructor). cbn [mbind result_bind].
    apply IH. intros Hall. apply Hno. by constructor.
  - destruct (ws_append_Raise [VStr (display_name gp)] sheet) as [msg ->];
      [| by exists msg].
    intros [Hl _]%Forall_cons. cbn [legal_value] in Hl. congruence.
Qed.

(** A run of the global builder that returns was given names that the
    cells accept. *)
Lemma build_global_sheet_legal (wb wb' : Workbook) (cfg : IaConfiguration)
  (h : nat) :
  _build_global_sheet_ wb cfg = Ok (wb', h) →
  Forall (λ gp, legal_text (display_name gp) = true) (global_properties cfg).
Proof.
  unfold _build_global_sheet_. rewrite create_sheet_global.
  cbn [mbind result_bind]. rewrite global_header_append. cbn [mbind result_bind].
  destruct (for_each global_row _ _) as [s|e] eqn:E; [| done].
  by apply global_rows_run in E as [Hall _].
Qed.

Lemma sheet_at_lookup (wb : Workbook) (h : nat) (ws : Worksheet) :
  wb !! h = Some ws → sheet_at wb h = ws.
Proof. intros H. unfold sheet_at. by rewrite H. Qed.

Lemma sheet_at_insert (wb : Workbook) (h : nat) (ws : Worksheet) :
  h < length wb → sheet_at (<[h := ws]> wb) h = ws.
Proof. intros H. unfold sheet_at. by rewrite list_lookup_insert_eq. Qed.


Lemma cells_only_global_row (sheet : Worksheet) (x : nat * (nat * list nat)) :
  cells_only sheet (global_row_effect sheet x).
Proof.
  destruct x as [i [r cols]]. unfold global_row_effect, ws_yield_row.
  eapply cells_only_trans; [| apply cells_only_cell_set].
  eapply cells_only_trans; [| apply cells_only_foldl; intros; apply cells_only_cell_set].
  apply cells_only_foldl. intros. apply cells_only_get_cell.
Qed.

Lemma get_column_letter_1 : get_column_letter 1 = Ok "A".
Proof. reflexivity. Qed.

Lemma length_ws_rows (ws : Worksheet) :
  _current_row ws ≠ 0 → length (ws_rows ws) = ws_max_row ws.
Proof.
  intros H. unfold ws_rows.
  replace (_current_row ws =? 0) with false by (symmetry; by apply Nat.eqb_neq).
  by rewrite length_fmap, length_seq.
Qed.

(** The global builder returns when the names of the global properties
    are accepted by the cells; what it leaves in the sheet. *)
Lemma build_global_sheet_run (wb : Workbook) (cfg : IaConfiguration) :
  Forall (λ gp, legal_text (display_name gp) = true) (global_properties cfg) →
  ∃ sheet,
    _build_global_sheet_ wb cfg
    = Ok (<[1 `min` length wb := sheet]>
            (take 1 wb
               ++ Worksheet_new (avoid_duplicate_name (sheetnames wb) "Global Ratings")
               :: drop 1 wb),
          1 `min` length wb)
    ∧ (∀ r c, is_unlocked sheet r c = true
              ↔ c = 2 ∧ 1 ≤ r ≤ length (global_properties cfg) + 1)
    ∧ value_at sheet 1 2 = Some (VStr "Rating")
    ∧ title sheet = avoid_duplicate_name (sheetnames wb) "Global Ratings"
    ∧ data_validations sheet = [].
Proof.
  intros Hlegal. unfold _build_global_sheet_. rewrite create_sheet_global.
  cbn [mbind result_bind].
  set (t := avoid_duplicate_name (sheetnames wb) "Global Ratings").
  destruct (create_sheet_at wb (Worksheet_new t) 1) as [Hat Hlt].
  rewrite (sheet_at_lookup _ _ _ Hat).
  rewrite global_header_append. cbn [mbind result_bind].
  rewrite (proj2 (global_rows_run _ _ _) (conj Hlegal eq_refl)).
  cbn [mbind result_bind].
  rewrite get_column_letter_1. cbn [mbind result_bind]. cbv zeta.
  set (rows0 := [VStr "Global"; VStr "Rating"]
                :: ((λ gp, [stored (VStr (display_name gp))])
                      <$> global_properties cfg)).
  set (sheet0 := foldl _ _ (global_properties cfg)).
  set (sheet1 := with_column_widths _ sheet0).
  assert (holds_rows rows0 sheet0) as Hh0.
  { apply (holds_rows_appends (λ gp, [stored (VStr (display_name gp))]) _ [_]).
    apply (holds_rows_frame _ (store_row [VStr "Global"; VStr "Rating"]
                                        (Worksheet_new t)));
      [done | done |].
    apply (holds_rows_append []), holds_rows_new. }
  assert (holds_rows rows0 sheet1) as Hh by (eapply holds_rows_frame; [| | exact Hh0]; done).
  assert (∀ r c, is_unlocked sheet1 r c = false) as Hlocked.
  { intros r c. rewrite (is_unlocked_frame sheet0) by done.
    apply (all_locked_appends (λ gp, [stored (VStr (display_name gp))])).
    intros r' c'. erewrite is_unlocked_frame; [| reflexivity].
    rewrite (is_unlocked_frame (store_row [VStr "Global"; VStr "Rating"]
                                          (Worksheet_new t))) by done.
    rewrite is_unlocked_append. case_decide; [done | apply is_unlocked_new]. }
  assert (ws_max_row sheet1 = S (length (global_properties cfg))) as Hmr.
  { rewrite (holds_rows_max_row rows0) by
      (done || (constructor; [done |]; apply Forall_fmap, Forall_true; done)).
    unfold rows0. cbn. by rewrite length_fmap. }
  assert (ws_max_column sheet1 = 2) as Hmc.
  { apply (holds_rows_max_column rows0); [done | done | lia | |].
    - constructor; [simpl; lia |]. apply Forall_fmap, Forall_true. simpl. lia.
    - by apply Exists_cons_hd. }
  assert (_current_row sheet1 ≠ 0) as Hcur.
  { destruct Hh as [-> _]. done. }
  rewrite (for_each_ok _ global_row_effect)
    by (intros; apply global_row_style_effect).
  cbn [mbind result_bind]. eexists. split; [reflexivity |].
  unfold enumerate. rewrite length_ws_rows by done. unfold ws_rows.
  replace (_current_row sheet1 =? 0) with false by (symmetry; by apply Nat.eqb_neq).
  rewrite Hmr, Hmc.
  split_and!.
  - intros r c. rewrite is_unlocked_global_rows, Hlocked.
    case_decide; split; done || lia.
  - rewrite value_at_foldl.
    + unfold value_at. destruct Hh as [_ ->]. done.
    + intros. by apply value_at_global_row.
    + unfold value_at. destruct Hh as [_ ->]. done.
  - destruct (cells_only_foldl global_row_effect
                (zip (seq 1 (S (length (global_properties cfg))))
                     ((λ r, (r, seq 1 2)) <$> seq 1 (S (length (global_properties cfg)))))
                cells_only_global_row sheet1) as (m & cur & ->).
    cbn. destruct (cells_only_foldl
                     (λ sheet gp, store_row [stored (VStr (display_name gp))] sheet)
                     (global_properties cfg)
                     (λ ws x, cells_only_append _ ws)
                     (with_password "Globals" (protection_enable
                        (store_row [VStr "Global"; VStr "Rating"]
                                   (Worksheet_new t)))))
      as (m' & cur' & E).
    unfold sheet0. rewrite E. done.
  - destruct (cells_only_foldl global_row_effect
                (zip (seq 1 (S (length (global_properties cfg))))
                     ((λ r, (r, seq 1 2)) <$> seq 1 (S (length (global_properties cfg)))))
                cells_only_global_row sheet1) as (m & cur & ->).
    cbn. destruct (cells_only_foldl
                     (λ sheet gp, store_row [stored (VStr (display_name gp))] sheet)
                     (global_properties cfg)
                     (λ ws x, cells_only_append _ ws)
                     (with_password "Globals" (protection_enable
                        (store_row [VStr "Global"; VStr "Rating"]
                                   (Worksheet_new t)))))
      as (m' & cur' & E).
    unfold sheet0. rewrite E. done.
Qed.

(** C10.  On the global sheet that the builder returns, the unlocked
    cells are those of column B in rows 1 to (number of global
    properties) + 1: the header cell B1, which reads "Rating", and one
    cell per global property; nothing in column A (nor anywhere else)
    is unlocked. *)
Theorem global_sheet_unlocked_cells (wb wb' : Workbook) (cfg : IaConfiguration)
  (h : nat) :
  _build_global_sheet_ wb cfg = Ok (wb', h) →
  (∀ r c, is_unlocked (sheet_at wb' h) r c = true
          ↔ c = 2 ∧ 1 ≤ r ≤ length (global_properties cfg) + 1)
  ∧ value_at (sheet_at wb' h) 1 2 = Some (VStr "Rating")
  ∧ (∀ r, is_unlocked (sheet_at wb' h) r 1 = false).
Proof.
  intros Hret.
  destruct (build_global_sheet_run wb cfg (build_global_sheet_legal _ _ _ _ Hret))
    as (sheet & Hrun & Hlock & Hval & _).
  rewrite Hrun in Hret. injection Hret as <- <-.
  rewrite sheet_at_insert.
  2:{ rewrite length_app, length_take. simpl. lia. }
  split_and!; [done | done |].
  intros r. destruct (is_unlocked sheet r 1) eqn:E; [| done].
  apply Hlock in E. lia.
Qed.


(** ** The interview sheet *)

Lemma enumerate_app {X} (xs ys : list X) (a : nat) :
  enumerate (xs ++ ys) a = enumerate xs a ++ enumerate ys (a + length xs).
Proof.
  revert a. induction xs as [|x xs IH]; intros a.
  - cbn [app length]. by rewrite Nat.add_0_r.
  - cbn [app length]. rewrite !enumerate_cons, IH. cbn [app].
    by rewrite Nat.add_succ_r.
Qed.

Lemma unlock_coding_cell_effect (i : nat) (sheet : Worksheet) (x : nat * Property) :
  65 ≤ x.1 ≤ 90 →
  unlock_coding_cell i sheet x = Ok (unlock_effect i sheet x).
Proof.
  destruct x as [col cp]. cbn [fst]. intros Hcol.
  destruct (chr_capital col Hcol) as (a & Hchr & Hid & Hidx).
  unfold unlock_coding_cell, unlock_effect. rewrite Hchr. cbn [mbind result_bind fst].
  by rewrite setitem_protection_cell, Hidx.
Qed.

Lemma unlock_coding_cell_bracket (i : nat) (sheet : Worksheet) (cp : Property) :
  unlock_coding_cell i sheet (91, cp) = Raise (not_a_coordinate ("[" +:+ py_str i)).
Proof.
  unfold unlock_coding_cell. change (chr 91) with (Ok "[" : result string).
  cbn [mbind result_bind]. unfold ws_setitem_protection, getitem_target.
  change ("[" +:+ py_str i) with (String "[" (py_str i)).
  by rewrite range_boundaries_reject.
Qed.

Lemma unlock_loop_effect (i : nat) (sheet : Worksheet) (cps : list Property) :
  length cps ≤ 23 →
  for_each (unlock_coding_cell i) sheet (enumerate cps 68)
  = Ok (foldl (unlock_effect i) sheet (enumerate cps 68)).
Proof.
  intros Hk. apply for_each_ok. intros s [col cp] Hin%elem_of_enumerate.
  apply unlock_coding_cell_effect. cbn [fst]. lia.
Qed.

Lemma unlock_loop_bracket (i : nat) (sheet : Worksheet) (cps : list Property) :
  23 < length cps →
  for_each (unlock_coding_cell i) sheet (enumerate cps 68)
  = Raise (not_a_coordinate ("[" +:+ py_str i)).
Proof.
  intros Hk. rewrite <- (take_drop 23 cps).
  assert (length (take 23 cps) = 23) as Hlen by (rewrite length_take; lia).
  destruct (drop 23 cps) as [|cp rest] eqn:Hdrop.
  { apply (f_equal length) in Hdrop. rewrite length_drop in Hdrop. simpl in Hdrop. lia. }
  rewrite enumerate_app, for_each_app, unlock_loop_effect by lia.
  cbn [mbind result_bind]. rewrite Hlen, enumerate_cons, for_each_cons.
  change (68 + 23) with 91. by rewrite unlock_coding_cell_bracket.
Qed.

Lemma new_line_legal (cfg : IaConfiguration) (utt : Utterance) :
  Forall (λ v, legal_value v = true) (new_line_of cfg utt) ↔ legal_utterance utt.
Proof.
  unfold new_line_of, legal_utterance.
  rewrite !Forall_app, !Forall_cons, Forall_nil, Forall_fmap. cbn [legal_value].
  split.
  - intros ((_ & _ & Hr & _) & _ & (Ht & _)). done.
  - intros [Hr Ht]. split_and!; try done. by apply Forall_true.
Qed.

Lemma column_headers_legal (cfg : IaConfiguration) :
  Forall (λ v, legal_value v = true) (column_headers_of cfg)
  ↔ legal_names (coding_properties cfg).
Proof.
  unfold column_headers_of, legal_names.
  rewrite !Forall_app, !Forall_cons, Forall_nil, Forall_fmap. cbn [legal_value].
  split; [by intros (_ & H & _) | intros H; split_and!; done].
Qed.

Lemma interview_row_append (cfg : IaConfiguration) (sheet : Worksheet)
  (i : nat) (utt : Utterance) :
  legal_utterance utt →
  interview_row cfg sheet (i, utt)
  = for_each (unlock_coding_cell i) (store_row (kept_line cfg utt) sheet)
             (enumerate (coding_properties cfg) 68).
Proof.
  intros Hl. unfold interview_row.
  by rewrite ws_append_Ok by (by apply new_line_legal).
Qed.

Lemma interview_row_legal (cfg : IaConfiguration) (sheet sheet' : Worksheet)
  (i : nat) (utt : Utterance) :
  interview_row cfg sheet (i, utt) = Ok sheet' → legal_utterance utt.
Proof.
  unfold interview_row.
  destruct (ws_append (new_line_of cfg utt) sheet) as [s1|e] eqn:E; [| done].
  intros _. apply ws_append_inv in E as [Hl _].
  by apply (proj1 (new_line_legal cfg utt)).
Qed.

Lemma interview_row_illegal (cfg : IaConfiguration) (sheet : Worksheet)
  (i : nat) (utt : Utterance) :
  ¬ legal_utterance utt →
  ∃ msg, interview_row cfg sheet (i, utt) = Raise (IllegalCharacterError msg).
Proof.
  intros Hno. unfold interview_row.
  destruct (ws_append_Raise (new_line_of cfg utt) sheet) as [msg ->];
    [by rewrite new_line_legal | by exists msg].
Qed.

Lemma interview_row_run (cfg : IaConfiguration) (sheet : Worksheet)
  (x : nat * Utterance) :
  length (coding_properties cfg) ≤ 23 → legal_utterance x.2 →
  interview_row cfg sheet x = Ok (interview_row_effect cfg sheet x).
Proof.
  destruct x as [i utt]. intros Hk Hl. rewrite interview_row_append by done.
  unfold interview_row_effect. by apply unlock_loop_effect.
Qed.

Lemma interview_rows_run (cfg : IaConfiguration) (sheet : Worksheet)
  (utts : list Utterance) (a : nat) :
  length (coding_properties cfg) ≤ 23 ∨ utts = [] →
  Forall legal_utterance utts →
  for_each (interview_row cfg) sheet (enumerate utts a)
  = Ok (foldl (interview_row_effect cfg) sheet (enumerate utts a)).
Proof.
  intros [Hk | ->] Hl; [| done].
  apply for_each_ok. intros s [i utt] Hin%elem_of_enumerate_snd.
  apply interview_row_run; [done |]. rewrite Forall_forall in Hl. by apply Hl.
Qed.

Lemma interview_row_bracket (cfg : IaConfiguration) (sheet : Worksheet)
  (i : nat) (utt : Utterance) :
  23 < length (coding_properties cfg) → legal_utterance utt →
  interview_row cfg sheet (i, utt) = Raise (not_a_coordinate ("[" +:+ py_str i)).
Proof.
  intros Hk Hl. rewrite interview_row_append by done. by apply unlock_loop_bracket.
Qed.

Lemma interview_rows_bracket (cfg : IaConfiguration) (sheet : Worksheet)
  (utt : Utterance) (utts : list Utterance) :
  23 < length (coding_properties cfg) → legal_utterance utt →
  for_each (interview_row cfg) sheet (enumerate (utt :: utts) 1)
  = Raise (not_a_coordinate "[1").
Proof.
  intros Hk Hl. rewrite enumerate_cons, for_each_cons.
  by rewrite interview_row_bracket.
Qed.

Lemma interview_rows_legal (cfg : IaConfiguration) (utts : list Utterance) :
  ∀ (a : nat) (sheet sheet' : Worksheet),
    for_each (interview_row cfg) sheet (enumerate utts a) = Ok sheet' →
    Forall legal_utterance utts.
Proof.
  induction utts as [|utt utts IH]; intros a sheet sheet' Hrun; [constructor |].
  rewrite enumerate_cons, for_each_cons in Hrun.
  destruct (interview_row cfg sheet (a, utt)) as [s1|e] eqn:E; [| done].
  cbn [mbind result_bind] in Hrun.
  constructor; [by eapply interview_row_legal | by eapply IH].
Qed.

Lemma length_column_headers (cfg : IaConfiguration) :
  length (column_headers_of cfg) = length (coding_properties cfg) + 4.
Proof.
  unfold column_headers_of. rewrite !length_app, length_fmap. simpl. lia.
Qed.

Lemma length_new_line (cfg : IaConfiguration) (utt : Utterance) :
  length (new_line_of cfg utt) = length (coding_properties cfg) + 4.
Proof.
  unfold new_line_of. rewrite !length_app, length_fmap. simpl. lia.
Qed.

Lemma length_kept_headers (cfg : IaConfiguration) :
  length (kept_headers cfg) = length (coding_properties cfg) + 4.
Proof. unfold kept_headers. by rewrite length_fmap, length_column_headers. Qed.

Lemma length_kept_line (cfg : IaConfiguration) (utt : Utterance) :
  length (kept_line cfg utt) = length (coding_properties cfg) + 4.
Proof. unfold kept_line. by rewrite length_fmap, length_new_line. Qed.

Lemma grid_lookup_in (rows : list (list pyvalue)) (w r c : nat) :
  Forall (λ row, length row = w) rows →
  1 ≤ r ≤ length rows → 1 ≤ c ≤ w → is_Some (grid_lookup rows r c).
Proof.
  intros Hall Hr Hc. apply grid_lookup_is_Some.
  destruct (lookup_lt_is_Some_2 rows (r - 1)) as [row Hrow]; [lia |].
  exists row. split_and!; [lia | done | lia |].
  rewrite Forall_forall in Hall.
  rewrite (Hall row (list_elem_of_lookup_2 _ _ _ Hrow)). lia.
Qed.

(** Unlocking the cells of line [i] in columns [a - 64], ... *)
Lemma unlock_cells_holds (rows : list (list pyvalue)) (w i : nat)
  (cps : list Property) :
  Forall (λ row, length row = w) rows → 1 ≤ i ≤ length rows →
  ∀ (a : nat) (sheet : Worksheet),
    65 ≤ a → a - 64 + length cps ≤ w + 1 →
    holds_rows rows sheet →
    holds_rows rows (foldl (unlock_effect i) sheet (enumerate cps a)).
Proof.
  intros Hall Hi. induction cps as [|cp cps IH]; intros a sheet Ha Hw Hh; [done |].
  rewrite enumerate_cons. cbn [foldl]. cbn [length] in Hw.
  apply IH; [lia | lia |]. unfold unlock_effect. cbn [fst].
  apply holds_rows_cell_set; [done | | done].
  apply (grid_lookup_in _ w); [done | done | lia].
Qed.

Lemma unlock_cells_unlocked (i : nat) (cps : list Property) :
  ∀ (a : nat) (sheet : Worksheet) (r c : nat),
    64 ≤ a →
    is_unlocked (foldl (unlock_effect i) sheet (enumerate cps a)) r c
    = if decide (r = i ∧ a - 64 ≤ c < a - 64 + length cps) then true
      else is_unlocked sheet r c.
Proof.
  induction cps as [|cp cps IH]; intros a sheet r c Ha.
  - cbn. by rewrite decide_False by lia.
  - rewrite enumerate_cons. cbn [foldl length]. rewrite IH by lia.
    change (unlock_effect i sheet (a, cp))
      with (ws_cell_set (set_protection UNLOCKED) i (a - 64) sheet).
    rewrite is_unlocked_unlock.
    repeat case_decide; done || lia.
Qed.

Lemma cells_only_unlock_cells (i : nat) (cps : list Property) (a : nat)
  (sheet : Worksheet) :
  cells_only sheet (foldl (unlock_effect i) sheet (enumerate cps a)).
Proof. apply cells_only_foldl. intros. apply cells_only_cell_set. Qed.

Lemma cells_only_interview_rows (cfg : IaConfiguration) (utts : list Utterance)
  (a : nat) (sheet : Worksheet) :
  cells_only sheet (foldl (interview_row_effect cfg) sheet (enumerate utts a)).
Proof.
  apply cells_only_foldl. intros ws [i utt]. unfold interview_row_effect.
  eapply cells_only_trans; [apply cells_only_append | apply cells_only_unlock_cells].
Qed.

Lemma is_unlocked_beyond (rows : list (list pyvalue)) (ws : Worksheet) (r c : nat) :
  holds_rows rows ws → length rows < r → is_unlocked ws r c = false.
Proof.
  intros [_ Hcells] Hr. unfold is_unlocked.
  destruct (_cells ws !! (r, c)) as [x|] eqn:E; [| done].
  specialize (Hcells r c). rewrite E in Hcells.
  assert (is_Some (grid_lookup rows r c)) as Hs by (rewrite <- Hcells; by eexists).
  apply grid_lookup_is_Some in Hs as (row & _ & Hrow%lookup_lt_Some & _). lia.
Qed.

(** The loop over the utterances, the first of them being line [a]:
    the rows it leaves and the cells it unlocks. *)
Lemma interview_rows_effect (cfg : IaConfiguration) (utts : list Utterance) :
  ∀ (a : nat) (rows : list (list pyvalue)) (sheet : Worksheet),
    1 ≤ a → length rows = a →
    Forall (λ row, length row = length (coding_properties cfg) + 4) rows →
    holds_rows rows sheet →
    let sheet' := foldl (interview_row_effect cfg) sheet (enumerate utts a) in
    holds_rows (rows ++ (kept_line cfg <$> utts)) sheet'
    ∧ ∀ r c, is_unlocked sheet' r c
             = if decide (a ≤ r < a + length utts
                          ∧ 4 ≤ c < 4 + length (coding_properties cfg))
               then true else is_unlocked sheet r c.
Proof.
  induction utts as [|utt utts IH]; intros a rows sheet Ha Hlen Hall Hh.
  - cbn. rewrite app_nil_r. split; [done |]. intros r c.
    by rewrite decide_False by lia.
  - rewrite enumerate_cons. cbn [foldl fmap list_fmap length].
    set (sheet1 := interview_row_effect cfg sheet (a, utt)).
    assert (Forall (λ row, length row = length (coding_properties cfg) + 4)
                   (rows ++ [kept_line cfg utt])) as Hall1.
    { apply Forall_app. split; [done |].
      constructor; [apply length_kept_line | constructor]. }
    assert (holds_rows (rows ++ [kept_line cfg utt]) sheet1) as Hh1.
    { unfold sheet1, interview_row_effect. cbn [fst snd].
      eapply unlock_cells_holds; [exact Hall1 | | lia | | by apply holds_rows_append].
      - rewrite length_app. simpl. lia.
      - simpl. lia. }
    destruct (IH (S a) (rows ++ [kept_line cfg utt]) sheet1 ltac:(lia)
                 ltac:(rewrite length_app; simpl; lia) Hall1 Hh1) as [IH1 IH2].
    split.
    + replace (rows ++ kept_line cfg utt :: (kept_line cfg <$> utts))
        with ((rows ++ [kept_line cfg utt]) ++ (kept_line cfg <$> utts))
        by (by rewrite <- app_assoc).
      exact IH1.
    + intros r c. rewrite IH2. unfold sheet1, interview_row_effect. cbn [fst snd].
      rewrite unlock_cells_unlocked by lia. rewrite is_unlocked_append.
      pose proof (is_unlocked_beyond rows sheet r c Hh) as Hbeyond.
      destruct Hh as [Hcur _]. rewrite Hcur, Hlen, length_kept_line.
      repeat case_decide; try done; try lia.
      symmetry. apply Hbeyond. lia.
Qed.


Lemma foldl_invariant {S X} (P : S → Prop) (g : S → X → S) (xs : list X) :
  (∀ s x, x ∈ xs → P s → P (g s x)) → ∀ s, P s → P (foldl g s xs).
Proof.
  induction xs as [|x xs IH]; intros Hg s Hs; [done |].
  cbn [foldl]. apply IH; [intros; apply Hg; [by right | done] |].
  apply Hg; [by left | done].
Qed.

Lemma style_row_holds (rows : list (list pyvalue)) (tcn r : nat)
  (cols : list nat) (ws : Worksheet) :
  (∀ c, c ∈ cols → is_Some (grid_lookup rows r c)) →
  holds_rows rows ws → holds_rows rows (interview_row_style tcn ws (r, cols)).
Proof.
  intros Hin Hh. unfold interview_row_style.
  rewrite (holds_rows_yield_row rows) by done.
  apply foldl_invariant; [| done].
  intros s [i c] Hic%elem_of_enumerate_snd Hs.
  apply holds_rows_cell_set; [done | by apply Hin |].
  destruct (_ =? _); [| done].
  apply holds_rows_cell_set; [done | by apply Hin | done].
Qed.

Lemma style_row_unlocked (tcn : nat) (x : nat * list nat) (ws : Worksheet)
  (r' c' : nat) :
  is_unlocked (interview_row_style tcn ws x) r' c' = is_unlocked ws r' c'.
Proof.
  destruct x as [r cols]. unfold interview_row_style.
  rewrite <- (is_unlocked_yield_row ws r cols).
  generalize (ws_yield_row r cols ws). generalize (enumerate cols 1).
  intros l. induction l as [|[i c] l IH]; intros s; [done |].
  cbn [foldl]. rewrite IH, is_unlocked_restyle by done.
  destruct (_ =? _); [by rewrite is_unlocked_restyle | done].
Qed.

Lemma cells_only_style_row (tcn : nat) (ws : Worksheet) (x : nat * list nat) :
  cells_only ws (interview_row_style tcn ws x).
Proof.
  destruct x as [r cols]. unfold interview_row_style, ws_yield_row.
  apply (cells_only_trans _ (foldl (λ ws c, ws_get_cell r c ws) ws cols)).
  { apply cells_only_foldl. intros. apply cells_only_get_cell. }
  apply cells_only_foldl. intros s [i c].
  eapply cells_only_trans; [| apply cells_only_cell_set].
  destruct (_ =? _); [apply cells_only_cell_set | apply cells_only_refl].
Qed.

Lemma elem_of_ws_rows (ws : Worksheet) (r : nat) (cols : list nat) :
  (r, cols) ∈ ws_rows ws →
  1 ≤ r ≤ ws_max_row ws ∧ cols = seq 1 (ws_max_column ws).
Proof.
  unfold ws_rows. destruct (_ =? _); [by intros ?%elem_of_nil |].
  intros (r' & [= -> ->] & Hr%elem_of_seq)%list_elem_of_fmap. split; [lia | done].
Qed.

Lemma style_pass_holds (rows : list (list pyvalue)) (w tcn : nat) (ws : Worksheet) :
  rows ≠ [] → 1 ≤ w → Forall (λ row, length row = w) rows →
  holds_rows rows ws →
  holds_rows rows (foldl (interview_row_style tcn) ws (ws_rows ws)).
Proof.
  intros Hne Hw Hall Hh.
  assert (ws_max_row ws = length rows) as Hmr.
  { apply holds_rows_max_row; [done | done |].
    eapply Forall_impl; [exact Hall |]. simpl. intros row E ->. simpl in E. lia. }
  assert (ws_max_column ws = w) as Hmc.
  { apply (holds_rows_max_column rows); [done | done | done | |].
    - eapply Forall_impl; [exact Hall |]. simpl. lia.
    - destruct rows as [|row rows]; [done |]. apply Exists_cons_hd.
      by apply Forall_cons_1 in Hall as [? _]. }
  apply foldl_invariant; [| done].
  intros s [r cols] [Hr ->]%elem_of_ws_rows Hs.
  apply style_row_holds; [| done].
  intros c Hc%elem_of_seq. apply (grid_lookup_in _ w); [done | lia | lia].
Qed.

Lemma style_pass_unlocked (tcn : nat) (l : list (nat * list nat)) (ws : Worksheet)
  (r c : nat) :
  is_unlocked (foldl (interview_row_style tcn) ws l) r c = is_unlocked ws r c.
Proof.
  revert ws. induction l as [|x l IH]; intros ws; [done |].
  cbn [foldl]. by rewrite IH, style_row_unlocked.
Qed.

Lemma get_column_letter_ok (n : nat) :
  1 ≤ n → (N.of_nat n ≤ MAX_COLUMN)%N → ∃ s, get_column_letter n = Ok s.
Proof.
  intros H1 H2. unfold get_column_letter.
  replace (n <? 1) with false by (symmetry; apply Nat.ltb_ge; lia).
  replace (MAX_COLUMN <? N.of_nat n)%N with false by (symmetry; apply N.ltb_ge; lia).
  cbn [orb]. cbv zeta.
  repeat (destruct (_ =? _)); by eexists.
Qed.

Lemma interview_rows_dichotomy (cfg : IaConfiguration) (sheet sheet' : Worksheet)
  (utts : list Utterance) :
  for_each (interview_row cfg) sheet (enumerate utts 1) = Ok sheet' →
  length (coding_properties cfg) ≤ 23 ∨ utts = [].
Proof.
  intros Hrun. destruct (decide (length (coding_properties cfg) ≤ 23)); [by left |].
  destruct utts as [|utt utts]; [by right |].
  pose proof (interview_rows_legal _ _ _ _ _ Hrun) as [Hl _]%Forall_cons.
  rewrite interview_rows_bracket in Hrun by (done || lia). done.
Qed.

Lemma interview_title :
  title_setter (sheetnames Workbook_new) (title (Worksheet_new "Sheet")) "Interview"
  = Ok "Interview".
Proof. reflexivity. Qed.

Lemma headers_append (cfg : IaConfiguration) (ws : Worksheet) :
  legal_names (coding_properties cfg) →
  ws_append (column_headers_of cfg) ws = Ok (store_row (kept_headers cfg) ws).
Proof. intros H. apply ws_append_Ok. by apply column_headers_legal. Qed.

(** A run of the interview builder that returns was given texts that
    the cells accept. *)
Lemma build_interview_sheet_legal (cfg : IaConfiguration) (iv : InterviewData)
  (wb : Workbook) (h : nat) :
  _build_interview_sheet_ Workbook_new cfg iv = Ok (wb, h) →
  legal_names (coding_properties cfg) ∧ Forall legal_utterance (utterances iv).
Proof.
  unfold _build_interview_sheet_. cbn [Workbook_new lookup list_lookup].
  rewrite interview_title. cbn [mbind result_bind]. cbv zeta.
  destruct (ws_append (column_headers_of cfg) _) as [s0|e] eqn:E0; [| done].
  cbn [mbind result_bind].
  destruct (for_each (interview_row cfg) _ _) as [s1|e] eqn:E1; [| done].
  intros _. split.
  - apply ws_append_inv in E0 as [Hl _]. by apply column_headers_legal.
  - by eapply interview_rows_legal.
Qed.

(** What the interview builder leaves when it returns: the sheet holds
    the header and one line per utterance, and the unlocked cells are
    those of the coding columns in rows 1 to the number of utterances. *)
Lemma build_interview_sheet_inv (cfg : IaConfiguration) (iv : InterviewData)
  (wb : Workbook) (h : nat) :
  _build_interview_sheet_ Workbook_new cfg iv = Ok (wb, h) →
  ∃ sheet,
    wb = [sheet] ∧ h = 0
    ∧ (length (coding_properties cfg) ≤ 23 ∨ utterances iv = [])
    ∧ holds_rows (kept_headers cfg :: (kept_line cfg <$> utterances iv)) sheet
    ∧ (∀ r c, is_unlocked sheet r c = true
              ↔ 1 ≤ r ≤ length (utterances iv)
                ∧ 4 ≤ c ≤ 3 + length (coding_properties cfg))
    ∧ title sheet = "Interview"
    ∧ data_validations sheet = [].
Proof.
  intros Hrun.
  destruct (build_interview_sheet_legal _ _ _ _ Hrun) as [Hln Hlu].
  revert Hrun.
  unfold _build_interview_sheet_. cbn [Workbook_new lookup list_lookup].
  rewrite interview_title. cbn [mbind result_bind]. cbv zeta.
  rewrite headers_append by done. cbn [mbind result_bind].
  set (sheet0 := with_password "Interview" _).
  destruct (for_each _ sheet0 _) as [sheet1|] eqn:Hloop; [| done].
  pose proof (interview_rows_dichotomy _ _ _ _ Hloop) as Hdich.
  rewrite interview_rows_run in Hloop by done. injection Hloop as <-.
  cbn [mbind result_bind].
  destruct (get_column_letter _) as [letter|]; [| done].
  cbn [mbind result_bind]. cbn [insert list_insert]. intros [= <- <-].
  assert (holds_rows [kept_headers cfg] sheet0) as Hh0.
  { apply (holds_rows_frame _ (store_row (kept_headers cfg)
                                         (Worksheet_new "Sheet"))); [done | done |].
    apply (holds_rows_append []), holds_rows_new. }
  assert (∀ r c, is_unlocked sheet0 r c = false) as Hlocked.
  { intros r c.
    rewrite (is_unlocked_frame (store_row (kept_headers cfg)
                                          (Worksheet_new "Sheet"))) by done.
    rewrite is_unlocked_append. case_decide; [done | apply is_unlocked_new]. }
  destruct (interview_rows_effect cfg (utterances iv) 1 [kept_headers cfg] sheet0)
    as [Hh1 Hu1]; [lia | done | | done |].
  { constructor; [apply length_kept_headers | constructor]. }
  cbn [app] in Hh1.
  set (sheet1 := foldl (interview_row_effect cfg) sheet0 _) in *.
  set (sheet2 := with_page_setup _ _).
  assert (holds_rows (kept_headers cfg :: (kept_line cfg <$> utterances iv))
                     sheet2) as Hh2
    by (by apply (holds_rows_frame _ sheet1)).
  eexists. split_and!; [reflexivity | done | done | | | |].
  - eapply style_pass_holds; [done | | | exact Hh2].
    2:{ constructor; [apply length_kept_headers |].
        apply Forall_fmap, Forall_true. intros. apply length_kept_line. }
    lia.
  - intros r c. rewrite style_pass_unlocked.
    rewrite (is_unlocked_frame sheet1) by done. rewrite Hu1, Hlocked.
    case_decide; split; done || lia.
  - etrans; [apply cells_only_title, cells_only_foldl, cells_only_style_row |].
    change (title sheet2) with (title sheet1).
    etrans; [apply cells_only_title, cells_only_interview_rows | done].
  - etrans; [apply cells_only_validations, cells_only_foldl, cells_only_style_row |].
    change (data_validations sheet2) with (data_validations sheet1).
    etrans; [apply cells_only_validations, cells_only_interview_rows | done].
Qed.

Lemma build_interview_sheet_total (cfg : IaConfiguration) (iv : InterviewData) :
  length (coding_properties cfg) ≤ 23 →
  legal_names (coding_properties cfg) → Forall legal_utterance (utterances iv) →
  ∃ wb h, _build_interview_sheet_ Workbook_new cfg iv = Ok (wb, h).
Proof.
  intros Hk Hln Hlu. unfold _build_interview_sheet_.
  cbn [Workbook_new lookup list_lookup].
  rewrite interview_title. cbn [mbind result_bind]. cbv zeta.
  rewrite headers_append by done. cbn [mbind result_bind].
  rewrite interview_rows_run by (done || by left). cbn [mbind result_bind].
  destruct (get_column_letter_ok (3 + length (coding_properties cfg) + 1))
    as [letter ->]; [lia | unfold MAX_COLUMN; lia |].
  by eexists _, _.
Qed.


Lemma fmap_const_replicate {X Y} (y : Y) (xs : list X) :
  (λ _, y) <$> xs = replicate (length xs) y.
Proof. induction xs as [|x xs IH]; [done |]. cbn. by f_equal. Qed.

(** C7.  The interview sheet that the builder returns shows the header
    [Line, Utt, Role, <names of the coding properties, in order>, Text]
    and below it one row per utterance, in the order of the input: line
    number, utterance number, speaker role, one blank per coding
    property, text; every text (name, role, utterance) is cut at 32767
    characters. *)
Theorem interview_sheet_layout (cfg : IaConfiguration) (iv : InterviewData)
  (wb : Workbook) (h : nat) :
  _build_interview_sheet_ Workbook_new cfg iv = Ok (wb, h) →
  ws_values (sheet_at wb h)
  = ([VStr "Line"; VStr "Utt"; VStr "Role"]
       ++ ((λ cp, VStr (str_take 32767 (display_name cp)))
             <$> coding_properties cfg)
       ++ [VStr "Text"])
    :: ((λ utt, [VInt (line_number utt); VInt (utterance_number utt);
                 VStr (str_take 32767 (speaker_role utt))]
                  ++ replicate (length (coding_properties cfg)) VNone
                  ++ [VStr (str_take 32767 (utterance_text utt))])
          <$> utterances iv).
Proof.
  intros (sheet & -> & -> & _ & Hh & _)%build_interview_sheet_inv.
  change (sheet_at [sheet] 0) with sheet.
  rewrite (holds_rows_values _ _ (length (coding_properties cfg) + 4) Hh);
    [| done | lia |].
  - f_equal.
    + unfold kept_headers, column_headers_of.
      rewrite !fmap_app, <- list_fmap_compose. done.
    + apply list_fmap_ext. intros _ utt _. unfold kept_line, new_line_of.
      rewrite !fmap_app, <- list_fmap_compose.
      by rewrite <- fmap_const_replicate.
  - constructor; [apply length_kept_headers |].
    apply Forall_fmap, Forall_true. intros. apply length_kept_line.
Qed.

(** X11.  The cells that the interview builder unlocks are those of the
    coding columns in rows 1 to n, n being the number of utterances. *)
Lemma interview_unlocked_cells (cfg : IaConfiguration) (iv : InterviewData)
  (wb : Workbook) (h : nat) :
  _build_interview_sheet_ Workbook_new cfg iv = Ok (wb, h) →
  ∀ r c, is_unlocked (sheet_at wb h) r c = true
         ↔ 1 ≤ r ≤ length (utterances iv)
           ∧ 4 ≤ c ≤ 3 + length (coding_properties cfg).
Proof.
  intros (sheet & -> & -> & _ & _ & Hu & _)%build_interview_sheet_inv.
  exact Hu.
Qed.


(** ** The orchestration *)

Lemma CellRange_reject (a : ascii) (s : string) :
  is_letter a = false → is_digit a = false →
  Ascii.eqb a "$" = false → Ascii.eqb a ":" = false →
  CellRange_of_string (String a s) = Raise (not_a_coordinate (String a s)).
Proof.
  intros. unfold CellRange_of_string. by rewrite range_boundaries_reject.
Qed.

Lemma CellRange_of_cell_inv (idx : string) (n : nat) (cr : CellRange) :
  column_identifier idx = true →
  CellRange_of_string (idx +:+ py_str n) = Ok cr →
  cr = mkCellRange (column_index_from_string idx) n (column_index_from_string idx) n.
Proof.
  intros Hid (Hb & _)%CellRange_of_string_inv.
  rewrite range_boundaries_cell in Hb by done.
  destruct cr; cbn in Hb. by injection Hb as <- <- <- <-.
Qed.

Lemma CellRange_of_column_inv (idx : string) (m : nat) (cr : CellRange) :
  column_identifier idx = true →
  CellRange_of_string (idx +:+ "2:" +:+ idx +:+ py_str m) = Ok cr →
  cr = mkCellRange (column_index_from_string idx) 2 (column_index_from_string idx) m
  ∧ 2 ≤ m.
Proof.
  intros Hid (Hb & _ & Hr & _)%CellRange_of_string_inv.
  change (idx +:+ "2:" +:+ idx +:+ py_str m)
    with (idx +:+ py_str 2 +:+ ":" +:+ idx +:+ py_str m) in Hb.
  rewrite range_boundaries_range in Hb by done.
  destruct cr; cbn in *. injection Hb as <- <- <- <-. split; [done | lia].
Qed.

Lemma validated_ranges_add (dv : DataValidation) (ws : Worksheet) :
  validated_ranges (add_data_validation dv ws) = validated_ranges ws ++ sqref dv.
Proof.
  unfold validated_ranges. cbn [data_validations add_data_validation].
  rewrite bind_app. cbn. by rewrite app_nil_r.
Qed.

Lemma sheet_at_app (wb : Workbook) (ws : Worksheet) (h : nat) :
  h < length wb → sheet_at (wb ++ [ws]) h = sheet_at wb h.
Proof. intros H. unfold sheet_at. by rewrite lookup_app_l. Qed.

Lemma sheet_at_insert_ne (wb : Workbook) (h h' : nat) (ws : Worksheet) :
  h ≠ h' → sheet_at (<[h := ws]> wb) h' = sheet_at wb h'.
Proof. intros H. unfold sheet_at. by rewrite list_lookup_insert_ne. Qed.

(** A turn of the loop that returns has built a new reference sheet:
    when the name is taken the wiring is handed [None]. *)
Lemma ia2xl_step_inv (u g : nat) (wb : Workbook) (pc gr : nat) (p : Property)
  (st' : Workbook * nat * nat) :
  ia2xl_step u g (wb, pc, gr) p = Ok st' →
  ∃ new pc' gr' idx h cr,
    (sheet_name_of p ∉ sheetnames wb)
    ∧ title new = avoid_duplicate_name (sheetnames wb) (sheet_name_of p)
    ∧ (if bool_decide (property_class p = GlobalProperty)
       then (pc' = pc ∧ gr' = gr + 1 ∧ idx = py_str gr' ∧ h = g
             ∧ CellRange_of_string ("B" +:+ idx) = Ok cr)
       else (pc' = pc + 1 ∧ gr' = gr ∧ chr pc' = Ok idx ∧ h = u
             ∧ CellRange_of_string
                 (idx +:+ "2:" +:+ idx
                    +:+ py_str (ws_max_row (sheet_at (wb ++ [new]) h))) = Ok cr))
    ∧ st' = (<[h := add_data_validation (list_rule new cr)
                       (sheet_at (wb ++ [new]) h)]> (wb ++ [new]), pc', gr').
Proof.
  unfold ia2xl_step.
  destruct (decide (sheet_name_of p ∈ sheetnames wb)) as [Hin | Hfresh].
  { rewrite append_validation_sheet_taken by done. cbn [mbind result_bind].
    destruct (bool_decide _); cbn [mbind result_bind]; [done |].
    destruct (chr _); cbn [mbind result_bind]; done. }
  destruct (_append_validation_sheet_ wb p None) as [[wb1 sheet]|] eqn:Happ; [| done].
  apply append_validation_sheet_fresh in Happ
    as (new & vs & -> & -> & _ & _ & Ht & _); [| done].
  cbn [mbind result_bind].
  destruct (bool_decide (property_class p = GlobalProperty)) eqn:Hg.
  - cbn [mbind result_bind option_bind]. rewrite list_lookup_middle by done.
    destruct (_set_validation_ _ _ _ _) as [data|] eqn:Hset; [| done].
    cbn [mbind result_bind]. intros [= <-].
    apply set_validation_inv in Hset as (vs' & cr & [= <-] & Hcr & ->).
    exists new, pc, (gr + 1), (py_str (gr + 1)), g, cr. split_and!; done.
  - destruct (chr (pc + 1)) as [idx|] eqn:Hchr; [| done].
    cbn [mbind result_bind option_bind]. rewrite list_lookup_middle by done.
    destruct (_set_validation_ _ _ _ _) as [data|] eqn:Hset; [| done].
    cbn [mbind result_bind]. intros [= <-].
    apply set_validation_inv in Hset as (vs' & cr & [= <-] & Hcr & ->).
    exists new, (pc + 1), gr, idx, u, cr. split_and!; done.
Qed.

Lemma orchestrated_coding (m : nat) (st st' : Workbook * nat * nat) (i j : nat)
  (p : Property) :
  property_class p = CodingProperty →
  orchestrated m st i j → ia2xl_step 0 1 st p = Ok st' →
  orchestrated m st' (S i) j.
Proof.
  intros Hclass (Hlen & Hpc & Hgr & Hle & Hmax & Ht0 & Ht1 & Hv0 & Hv1) Hstep.
  destruct st as [[wb pc] gr]. cbn [fst snd] in *.
  apply ia2xl_step_inv in Hstep
    as (new & pc' & gr' & idx & h & cr & _ & _ & Hmode & ->).
  rewrite bool_decide_eq_false_2 in Hmode by (by rewrite Hclass).
  destruct Hmode as (-> & -> & Hchr & -> & Hcr).
  rewrite sheet_at_app in Hcr |- * by lia. rewrite Hmax in Hcr.
  assert (pc + 1 ≤ 90) as Hle'.
  { destruct (decide (pc + 1 ≤ 90)) as [|Hgt]; [done |].
    assert (pc + 1 = 91) as E by lia. rewrite E in Hchr.
    injection Hchr as <-. rewrite append_cons in Hcr.
    by rewrite CellRange_reject in Hcr. }
  destruct (chr_capital (pc + 1)) as (a & Ha & Hid & Hidx); [lia |].
  rewrite Ha in Hchr. injection Hchr as <-.
  apply CellRange_of_column_inv in Hcr as [-> Hm]; [| done].
  unfold orchestrated. cbn [fst snd].
  rewrite length_insert, length_app, sheet_at_insert by (rewrite length_app; lia).
  rewrite sheet_at_insert_ne, sheet_at_app by lia.
  split_and!; try done; try lia.
  rewrite validated_ranges_add, Hv0. cbn [sqref list_rule].
  rewrite Hidx, seq_S, fmap_app. cbn [fmap list_fmap]. do 3 f_equal; lia.
Qed.

Lemma orchestrated_global (m : nat) (st st' : Workbook * nat * nat) (i j : nat)
  (p : Property) :
  property_class p = GlobalProperty →
  orchestrated m st i j → ia2xl_step 0 1 st p = Ok st' →
  orchestrated m st' i (S j).
Proof.
  intros Hclass (Hlen & Hpc & Hgr & Hle & Hmax & Ht0 & Ht1 & Hv0 & Hv1) Hstep.
  destruct st as [[wb pc] gr]. cbn [fst snd] in *.
  apply ia2xl_step_inv in Hstep
    as (new & pc' & gr' & idx & h & cr & _ & _ & Hmode & ->).
  rewrite bool_decide_eq_true_2 in Hmode by done.
  destruct Hmode as (-> & -> & -> & -> & Hcr).
  apply (CellRange_of_cell_inv "B") in Hcr as ->; [| done].
  unfold orchestrated. cbn [fst snd].
  rewrite length_insert, length_app, sheet_at_insert by (rewrite length_app; lia).
  rewrite sheet_at_insert_ne, !sheet_at_app by lia.
  split_and!; try done; try lia.
  rewrite validated_ranges_add, Hv1. cbn [sqref list_rule].
  change (column_index_from_string "B") with 2.
  rewrite seq_S, fmap_app. cbn [fmap list_fmap]. do 3 f_equal; lia.
Qed.

Lemma orchestrated_codings (m : nat) (ps : list Property) :
  Forall (λ p, property_class p = CodingProperty) ps →
  ∀ (st st' : Workbook * nat * nat) (i j : nat),
    orchestrated m st i j → for_each (ia2xl_step 0 1) st ps = Ok st' →
    orchestrated m st' (i + length ps) j.
Proof.
  induction 1 as [|p ps Hp _ IH]; intros st st' i j Hinv Hrun.
  - injection Hrun as <-. by rewrite Nat.add_0_r.
  - rewrite for_each_cons in Hrun.
    destruct (ia2xl_step 0 1 st p) as [st1|] eqn:Hstep; [| done].
    cbn [mbind result_bind] in Hrun. cbn [length].
    replace (i + S (length ps)) with (S i + length ps) by lia.
    eapply IH; [| exact Hrun]. by eapply orchestrated_coding.
Qed.

Lemma orchestrated_globals (m : nat) (ps : list Property) :
  Forall (λ p, property_class p = GlobalProperty) ps →
  ∀ (st st' : Workbook * nat * nat) (i j : nat),
    orchestrated m st i j → for_each (ia2xl_step 0 1) st ps = Ok st' →
    orchestrated m st' i (j + length ps).
Proof.
  induction 1 as [|p ps Hp _ IH]; intros st st' i j Hinv Hrun.
  - injection Hrun as <-. by rewrite Nat.add_0_r.
  - rewrite for_each_cons in Hrun.
    destruct (ia2xl_step 0 1 st p) as [st1|] eqn:Hstep; [| done].
    cbn [mbind result_bind] in Hrun. cbn [length].
    replace (j + S (length ps)) with (S j + length ps) by lia.
    eapply IH; [| exact Hrun]. by eapply orchestrated_global.
Qed.


Lemma build_global_sheet_after_interview (s0 : Worksheet) (cfg : IaConfiguration) :
  title s0 = "Interview" → legal_names (global_properties cfg) →
  ∃ gs, _build_global_sheet_ [s0] cfg = Ok ([s0; gs], 1)
        ∧ title gs = "Global Ratings" ∧ data_validations gs = [].
Proof.
  intros Ht0 Hl.
  destruct (build_global_sheet_run [s0] cfg Hl) as (gs & Hrun & _ & _ & Ht & Hv).
  exists gs. rewrite Hrun. split_and!; [done | | done].
  rewrite Ht. cbn [sheetnames fmap list_fmap]. by rewrite Ht0.
Qed.

(** A run of [ia2xl] that returns, cut after the two data sheets. *)
Lemma ia2xl_data_sheets (cfg : IaConfiguration) (iv : InterviewData)
  (wb : Workbook) :
  ia2xl cfg iv = Ok wb →
  ∃ s0 gs pc gr,
    _build_interview_sheet_ Workbook_new cfg iv = Ok ([s0], 0)
    ∧ _build_global_sheet_ [s0] cfg = Ok ([s0; gs], 1)
    ∧ title gs = "Global Ratings" ∧ data_validations gs = []
    ∧ for_each (ia2xl_step 0 1) ([s0; gs], 67, 1)
               (coding_properties cfg ++ global_properties cfg) = Ok (wb, pc, gr).
Proof.
  unfold ia2xl.
  destruct (_build_interview_sheet_ _ _ _) as [[wb0 h0]|] eqn:Hint; [| done].
  pose proof Hint as Hint'.
  apply build_interview_sheet_inv
    in Hint' as (s0 & -> & -> & _ & _ & _ & Ht0 & _).
  cbn [mbind result_bind].
  destruct (_build_global_sheet_ [s0] cfg) as [[wb1 h1]|] eqn:Hglob; [| done].
  destruct (build_global_sheet_after_interview s0 cfg Ht0
              (build_global_sheet_legal _ _ _ _ Hglob)) as (gs & Hglob' & Ht1 & Hv1).
  rewrite Hglob' in Hglob. injection Hglob as <- <-.
  cbn [mbind result_bind].
  destruct (for_each _ _ _) as [[[wb' pc] gr]|] eqn:Hloop; [| done].
  cbn [mbind result_bind]. intros [= <-].
  by exists s0, gs, pc, gr.
Qed.

Lemma interview_sheet_max_row (cfg : IaConfiguration) (iv : InterviewData)
  (s0 : Worksheet) :
  holds_rows (kept_headers cfg :: (kept_line cfg <$> utterances iv)) s0 →
  ws_max_row s0 = S (length (utterances iv)).
Proof.
  intros Hh.
  rewrite (holds_rows_max_row _ _ Hh); [by rewrite length_cons, length_fmap | done |].
  constructor.
  - intros E. pose proof (length_kept_headers cfg) as Hl. rewrite E in Hl.
    simpl in Hl. lia.
  - apply Forall_fmap, Forall_true. intros utt E.
    pose proof (length_kept_line cfg utt) as Hl. simpl in E. rewrite E in Hl.
    simpl in Hl. lia.
Qed.

(** A run of [ia2xl] that returns, cut after the coding properties. *)
Lemma ia2xl_coding_stage (cfg : IaConfiguration) (iv : InterviewData)
  (wb : Workbook) :
  Forall (λ p, property_class p = CodingProperty) (coding_properties cfg) →
  ia2xl cfg iv = Ok wb →
  ∃ st pc gr,
    orchestrated (S (length (utterances iv))) st (length (coding_properties cfg)) 0
    ∧ for_each (ia2xl_step 0 1) st (global_properties cfg) = Ok (wb, pc, gr).
Proof.
  intros Hcod (s0 & gs & pc & gr & Hint & _ & Ht1 & Hv1 & Hloop)%ia2xl_data_sheets.
  apply build_interview_sheet_inv
    in Hint as (s0' & [= <-] & _ & _ & Hh & _ & Ht0 & Hv0).
  rewrite for_each_app in Hloop.
  destruct (for_each _ _ (coding_properties cfg)) as [st|] eqn:Hcps; [| done].
  cbn [mbind result_bind] in Hloop.
  exists st, pc, gr. split; [| done].
  apply (orchestrated_codings (S (length (utterances iv))) _ Hcod _ _ 0 0)
    in Hcps; [done |].
  unfold orchestrated, validated_ranges. cbn [fst snd length sheet_at lookup
    list_lookup default from_option id].
  rewrite Ht0, Ht1, Hv0, Hv1.
  split_and!; try done; try lia.
  by apply (interview_sheet_max_row cfg).
Qed.

Lemma ia2xl_inv (cfg : IaConfiguration) (iv : InterviewData) (wb : Workbook) :
  Forall (λ p, property_class p = CodingProperty) (coding_properties cfg) →
  Forall (λ p, property_class p = GlobalProperty) (global_properties cfg) →
  ia2xl cfg iv = Ok wb →
  ∃ pc gr,
    orchestrated (S (length (utterances iv))) (wb, pc, gr)
                 (length (coding_properties cfg)) (length (global_properties cfg)).
Proof.
  intros Hcod Hglo (st & pc & gr & Hinv & Hgps)%ia2xl_coding_stage; [| done].
  exists pc, gr. by apply (orchestrated_globals _ _ Hglo _ _ _ 0 Hinv).
Qed.




(** ** Runs that complete *)

Lemma sheetnames_insert (wb : Workbook) (h : nat) (ws : Worksheet) :
  h < length wb → title ws = title (sheet_at wb h) →
  sheetnames (<[h := ws]> wb) = sheetnames wb.
Proof.
  intros Hh Ht. unfold sheetnames, sheet_at in *.
  destruct (lookup_lt_is_Some_2 wb h Hh) as [ws' E]. rewrite E in Ht. cbn in Ht.
  rewrite list_fmap_insert, Ht. apply list_insert_id.
  by rewrite list_lookup_fmap, E.
Qed.

Lemma NoDup_lower_unclaimed (names rest : list string) (value : string) :
  NoDup (py_lower <$> names ++ value :: rest) → unclaimed names value.
Proof.
  rewrite fmap_app, fmap_cons. intros (_ & Hdisj & _)%NoDup_app.
  apply Forall_forall. intros n Hn E.
  apply (Hdisj (py_lower n)); [by apply list_elem_of_fmap_2 |].
  rewrite E. apply list_elem_of_here.
Qed.

(** A turn of the loop succeeds when the builder accepts the property,
    no sheet has its name up to case, and the location is in range. *)
Lemma ia2xl_step_run (m : nat) (st : Workbook * nat * nat) (i j : nat)
  (p : Property) :
  orchestrated m st i j →
  unclaimed (sheetnames st.1.1) (sheet_name_of p) →
  accepted p →
  (property_class p = CodingProperty → i < 23 ∧ 2 ≤ m ∧ (N.of_nat m ≤ MAX_ROW)%N) →
  (property_class p = GlobalProperty → (N.of_nat (j + 2) ≤ MAX_ROW)%N) →
  ∃ st', ia2xl_step 0 1 st p = Ok st'
         ∧ sheetnames st'.1.1 = sheetnames st.1.1 ++ [sheet_name_of p].
Proof.
  intros (Hlen & Hpc & Hgr & Hle & Hmax & _) Hun (Hv & Hty & Hl) Hcod Hglo.
  destruct st as [[wb pc] gr]. cbn [fst snd] in *. unfold ia2xl_step.
  destruct (append_validation_sheet_total wb p None Hv Hty Hl) as (wb1 & r & Happ).
  rewrite Happ. cbn [mbind result_bind].
  apply append_validation_sheet_fresh in Happ
    as (new & vs & -> & -> & _ & _ & Ht & _); [| by apply unclaimed_fresh].
  rewrite avoid_duplicate_name_unclaimed in Ht by done.
  cbn [mbind option_bind]. rewrite list_lookup_middle by done.
  assert (sheetnames (wb ++ [new]) = sheetnames wb ++ [sheet_name_of p]) as Hnames
    by (unfold sheetnames; rewrite fmap_app; cbn; by rewrite Ht).
  destruct (property_class p) eqn:Hclass.
  - rewrite bool_decide_eq_false_2 by done.
    destruct (Hcod eq_refl) as (Hi & Hm & HM).
    destruct (chr_capital (pc + 1)) as (a & -> & Hid & Hidx); [lia |].
    cbn [mbind result_bind].
    rewrite set_validation_column; [| done | |]; rewrite ?sheet_at_app, ?Hmax by lia;
      [| done | done].
    cbn [mbind result_bind]. eexists. split; [reflexivity |].
    cbn [fst snd]. rewrite sheetnames_insert; [done | rewrite length_app; lia |].
    by rewrite sheet_at_app by lia.
  - rewrite bool_decide_eq_true_2 by done. cbn [mbind result_bind].
    rewrite set_validation_global by (specialize (Hglo eq_refl); lia).
    cbn [mbind result_bind]. eexists. split; [reflexivity |].
    cbn [fst snd]. by rewrite sheetnames_insert by (rewrite ?length_app; lia || done).
Qed.

Lemma count_class_cons (c : PropertyClass) (p : Property) (ps : list Property) :
  count_class c (p :: ps)
  = (if decide (property_class p = c) then 1 else 0) + count_class c ps.
Proof.
  unfold count_class. destruct (decide (property_class p = c)).
  - by rewrite filter_cons_True.
  - by rewrite filter_cons_False.
Qed.

Lemma ia2xl_loop_run (m : nat) (ps : list Property) :
  ∀ (st : Workbook * nat * nat) (i j : nat),
    orchestrated m st i j →
    NoDup (py_lower <$> sheetnames st.1.1 ++ (sheet_name_of <$> ps)) →
    Forall accepted ps →
    i + count_class CodingProperty ps ≤ 23 →
    (0 < count_class CodingProperty ps → 2 ≤ m ∧ (N.of_nat m ≤ MAX_ROW)%N) →
    (N.of_nat (j + count_class GlobalProperty ps + 1) ≤ MAX_ROW)%N →
    ∃ st', for_each (ia2xl_step 0 1) st ps = Ok st'.
Proof.
  induction ps as [|p ps IH]; intros st i j Hinv Hnd Hty Hi Hm Hj;
    [by eexists |].
  rewrite for_each_cons.
  apply Forall_cons_1 in Hty as [Hp Hty].
  rewrite !count_class_cons in Hi, Hm, Hj.
  destruct (ia2xl_step_run m st i j p Hinv) as (st1 & Hstep & Hnames); [| done | | |].
  { by eapply NoDup_lower_unclaimed. }
  { intros Hc. rewrite decide_True in Hi, Hm by done.
    split; [lia | apply Hm; lia]. }
  { intros Hc. rewrite decide_True in Hj by done. lia. }
  rewrite Hstep. cbn [mbind result_bind].
  destruct (property_class p) eqn:Hclass.
  - rewrite decide_True in Hi, Hm by done. rewrite decide_False in Hj by done.
    apply (IH st1 (S i) j); [by eapply orchestrated_coding | | done | lia | | lia].
    + rewrite Hnames, <- app_assoc. exact Hnd.
    + intros _. apply Hm. lia.
  - rewrite decide_False in Hi, Hm by done. rewrite decide_True in Hj by done.
    apply (IH st1 i (S j)); [by eapply orchestrated_global | | done | lia | | lia].
    + rewrite Hnames, <- app_assoc. exact Hnd.
    + intros H. apply Hm. lia.
Qed.

Lemma count_class_all (c : PropertyClass) (ps : list Property) :
  Forall (λ p, property_class p = c) ps → count_class c ps = length ps.
Proof.
  induction 1 as [|p ps Hp _ IH]; [done |].
  rewrite count_class_cons, decide_True by done. simpl. lia.
Qed.

Lemma count_class_none (c c' : PropertyClass) (ps : list Property) :
  c ≠ c' → Forall (λ p, property_class p = c') ps → count_class c ps = 0.
Proof.
  intros Hne. induction 1 as [|p ps Hp _ IH]; [done |].
  rewrite count_class_cons, decide_False by congruence. simpl. lia.
Qed.

Lemma count_class_app (c : PropertyClass) (ps qs : list Property) :
  count_class c (ps ++ qs) = count_class c ps + count_class c qs.
Proof. unfold count_class. by rewrite filter_app, length_app. Qed.

(** The conversion completes on a configuration of at most 23 coding
    properties whose sheet names are pairwise distinct and whose values
    are literals of their declared types, for an interview that has at
    least one utterance (the sheets staying within the row limit). *)
Lemma ia2xl_total (cfg : IaConfiguration) (iv : InterviewData) :
  Forall (λ p, property_class p = CodingProperty) (coding_properties cfg) →
  Forall (λ p, property_class p = GlobalProperty) (global_properties cfg) →
  length (coding_properties cfg) ≤ 23 →
  utterances iv ≠ [] →
  (N.of_nat (length (utterances iv) + 1) ≤ MAX_ROW)%N →
  (N.of_nat (length (global_properties cfg) + 1) ≤ MAX_ROW)%N →
  NoDup (py_lower
           <$> "Interview" :: "Global Ratings"
               :: (sheet_name_of <$> coding_properties cfg ++ global_properties cfg)) →
  Forall accepted (coding_properties cfg ++ global_properties cfg) →
  legal_names (coding_properties cfg ++ global_properties cfg) →
  Forall legal_utterance (utterances iv) →
  ∃ wb, ia2xl cfg iv = Ok wb.
Proof.
  intros Hcod Hglo Hk Hne Hrows Hg Hnd Hty [Hln Hlg]%Forall_app Hlu. unfold ia2xl.
  destruct (build_interview_sheet_total cfg iv Hk Hln Hlu) as (wb0 & h0 & Hint).
  rewrite Hint. cbn [mbind result_bind].
  apply build_interview_sheet_inv
    in Hint as (s0 & -> & -> & _ & Hh & _ & Ht0 & Hv0).
  destruct (build_global_sheet_after_interview s0 cfg Ht0 Hlg) as (gs & -> & Ht1 & Hv1).
  cbn [mbind result_bind].
  destruct (ia2xl_loop_run (S (length (utterances iv)))
              (coding_properties cfg ++ global_properties cfg)
              ([s0; gs], 67, 1) 0 0) as ([[wb pc] gr] & ->).
  - unfold orchestrated, validated_ranges. cbn [fst snd length sheet_at lookup
      list_lookup default from_option id].
    rewrite Ht0, Ht1, Hv0, Hv1.
    split_and!; try done; try lia.
    by apply (interview_sheet_max_row cfg).
  - cbn [fst snd sheetnames fmap list_fmap]. by rewrite Ht0, Ht1.
  - done.
  - rewrite count_class_app, (count_class_all _ _ Hcod).
    rewrite (count_class_none CodingProperty GlobalProperty) by done. lia.
  - intros _. destruct (utterances iv); [done |]. simpl in *. lia.
  - rewrite count_class_app, (count_class_all _ _ Hglo).
    rewrite (count_class_none GlobalProperty CodingProperty) by done. lia.
  - by eexists.
Qed.


(** * Further properties of the module *)

(** ** The reference-sheet builder *)

Lemma reference_loop_locked (dt : constructor) (pvs : list PropertyValue) :
  ∀ (ws ws' : Worksheet),
    (∀ r c, is_unlocked ws r c = false) →
    for_each (reference_row dt) ws pvs = Ok ws' →
    ∀ r c, is_unlocked ws' r c = false.
Proof.
  induction pvs as [|pv pvs IH]; intros ws ws' Hlocked Hrun.
  - by injection Hrun as <-.
  - rewrite for_each_cons in Hrun.
    destruct (reference_row dt ws pv) as [ws1|e] eqn:E1; [| done].
    cbn [mbind result_bind] in Hrun.
    apply reference_row_Ok in E1 as (v & _ & _ & ->).
    apply (IH _ _ ltac:(intros r c; rewrite is_unlocked_append; by case_decide) Hrun).
Qed.

Lemma append_validation_sheet_locked (wb : Workbook) (p : Property)
  (pwd : option string) (new : Worksheet) (r : option nat) :
  sheet_name_of p ∉ sheetnames wb →
  _append_validation_sheet_ wb p pwd = Ok (wb ++ [new], r) →
  ∀ row col, is_unlocked new row col = false.
Proof.
  intros Hfresh. unfold _append_validation_sheet_.
  rewrite bool_decide_eq_true_2 by done.
  destruct (create_sheet wb (sheet_name_of p) None) as [[wb1 h]|e] eqn:Hc; [| done].
  apply create_sheet_end in Hc as (Hv & -> & ->); [| apply sheet_name_nonempty].
  cbn [mbind result_bind]. rewrite sheet_at_new, header_append.
  cbn [mbind result_bind].
  destruct (for_each _ _ _) as [ws|e] eqn:Hloop; [| done].
  cbn [mbind result_bind]. rewrite insert_new.
  intros [= E%app_inj_tail_iff]. destruct E as [_ <-].
  intros row col.
  rewrite (is_unlocked_frame ws) by done.
  apply (reference_loop_locked _ _ _ _ ltac:(intros r' c; rewrite is_unlocked_append;
    case_decide; [done | apply is_unlocked_new]) Hloop).
Qed.



Lemma construct_raises (dt : constructor) (text : string) (e : exn) :
  construct dt text = Raise e → ∃ msg, e = ValueError msg.
Proof.
  unfold construct. destruct dt; [destruct (py_int text) | destruct (py_float text) |];
    intros [= <-] || done; by eexists.
Qed.

Lemma coerced_well_typed (p : Property) (pv : PropertyValue) (v : pyvalue) :
  coerced p pv v → well_typed_value p pv.
Proof.
  intros (H1 & H2 & _). split; intros Hn Hd.
  - destruct (H1 Hn Hd) as (z & -> & _). by eexists.
  - destruct (H2 Hn Hd) as (f & -> & _). by eexists.
Qed.

Lemma ill_typed_construct (p : Property) (pv : PropertyValue) :
  ¬ well_typed_value p pv →
  ∃ msg, construct (data_type_of p) (value pv) = Raise (ValueError msg).
Proof.
  intros Hbad. destruct (construct (data_type_of p) (value pv)) as [v|e] eqn:E.
  - destruct Hbad. by apply (coerced_well_typed p pv v), construct_coerced.
  - destruct (construct_raises _ _ _ E) as [msg ->]. by exists msg.
Qed.

Lemma reference_rows_accepted (p : Property) (pvs : list PropertyValue) :
  Forall (well_typed_value p) pvs → Forall (legal_texts p) pvs →
  Forall (λ pv, ∃ v, construct (data_type_of p) (value pv) = Ok v
                     ∧ Forall (λ x, legal_value x = true) (reference_values pv v))
         pvs.
Proof.
  intros Hty Hl. apply Forall_forall. intros pv Hpv.
  rewrite Forall_forall in Hty, Hl.
  destruct (well_typed_construct p pv (Hty pv Hpv)) as [v Hc].
  exists v. split; [done |].
  apply (coerced_legal p pv v); [by apply construct_coerced | by apply Hl].
Qed.

(** The loop over the values stops at the first value that is not a
    literal of the declared type, the values before it being accepted. *)
Lemma reference_loop_raises (p : Property) (pre post : list PropertyValue)
  (pv : PropertyValue) :
  Forall (well_typed_value p) pre → Forall (legal_texts p) pre →
  ¬ well_typed_value p pv →
  ∀ ws, ∃ msg, for_each (reference_row (data_type_of p)) ws (pre ++ pv :: post)
               = Raise (ValueError msg).
Proof.
  intros Hty Hl Hbad ws. rewrite for_each_app.
  destruct (reference_loop_total _ _ (reference_rows_accepted p pre Hty Hl) ws)
    as [ws1 ->].
  cbn [mbind result_bind]. rewrite for_each_cons, reference_row_eq.
  destruct (ill_typed_construct p pv Hbad) as [msg ->]. by exists msg.
Qed.

(** X2.  A value that is not a literal of the declared type stops the
    builder: when the name is free and the values before it are
    literals of the type whose texts the cells accept, the builder
    raises a ValueError and returns no workbook. *)
Theorem reference_sheet_bad_value (wb : Workbook) (p : Property)
  (pwd : option string) (pre post : list PropertyValue) (pv : PropertyValue) :
  sheet_name_of p ∉ sheetnames wb →
  property_values p = pre ++ pv :: post →
  Forall (well_typed_value p) pre → Forall (legal_texts p) pre →
  ¬ well_typed_value p pv →
  ∃ msg, _append_validation_sheet_ wb p pwd = Raise (ValueError msg).
Proof.
  intros Hfresh Hvalues Hty Hl Hbad. unfold _append_validation_sheet_.
  rewrite bool_decide_eq_true_2 by done.
  destruct (valid_title (sheet_name_of p)) eqn:Hv.
  - rewrite (proj2 (create_sheet_end wb _ (sheet_name_of p) _ (sheet_name_nonempty p))
                   (conj Hv (conj eq_refl eq_refl))).
    cbn [mbind result_bind]. rewrite sheet_at_new, header_append.
    cbn [mbind result_bind]. rewrite Hvalues.
    destruct (reference_loop_raises p pre post pv Hty Hl Hbad
                (store_row REFERENCE_HEADER
                   (Worksheet_new (avoid_duplicate_name (sheetnames wb)
                                     (sheet_name_of p)))))
      as [msg ->].
    by exists msg.
  - destruct (create_sheet_end_Raise wb _ (sheet_name_nonempty p) Hv) as [msg ->].
    by exists msg.
Qed.

Lemma ws_append_title (row : list pyvalue) (t : string) (ws : Worksheet) :
  ws_append row (with_title t ws)
  = match ws_append row ws with
    | Ok ws' => Ok (with_title t ws')
    | Raise e => Raise e
    end.
Proof.
  unfold ws_append. cbn [_cells _current_row with_title]. cbv zeta.
  by destruct (for_each _ _ _).
Qed.

Lemma reference_loop_title (dt : constructor) (t : string)
  (pvs : list PropertyValue) :
  ∀ ws, for_each (reference_row dt) (with_title t ws) pvs
        = match for_each (reference_row dt) ws pvs with
          | Ok ws' => Ok (with_title t ws')
          | Raise e => Raise e
          end.
Proof.
  induction pvs as [|pv pvs IH]; intros ws; [done |].
  rewrite !for_each_cons, !reference_row_eq.
  destruct (construct dt (value pv)) as [v|e]; [| done].
  cbn [mbind result_bind]. rewrite ws_append_title.
  destruct (ws_append _ ws) as [ws1|e]; [| done].
  cbn [mbind result_bind]. apply IH.
Qed.

Lemma create_sheet_names (wb : Workbook) (t : string) :
  String.eqb t "" = false →
  create_sheet wb t None
  = match create_sheet [] t None with
    | Ok _ =>
        Ok (wb ++ [Worksheet_new (avoid_duplicate_name (sheetnames wb) t)], length wb)
    | Raise e => Raise e
    end.
Proof.
  intros Hne. unfold create_sheet. rewrite Hne. unfold title_setter. rewrite Hne.
  destruct (string_find invalid_title_char t); [done |].
  replace (String.eqb "" t) with false
    by (symmetry; rewrite String.eqb_sym; exact Hne).
  done.
Qed.

(** The sheet that the builder appends to a workbook is the one it
    makes on an empty workbook, under the title that openpyxl settles
    on. *)
Lemma append_validation_sheet_alone (wb : Workbook) (p : Property)
  (pwd : option string) :
  sheet_name_of p ∉ sheetnames wb →
  _append_validation_sheet_ wb p pwd
  = match _append_validation_sheet_ [] p pwd with
    | Ok (alone, _) =>
        Ok (wb ++ (with_title (avoid_duplicate_name (sheetnames wb) (sheet_name_of p))
                     <$> alone),
            Some (length wb))
    | Raise e => Raise e
    end.
Proof.
  intros Hfresh. unfold _append_validation_sheet_.
  rewrite bool_decide_eq_true_2 by done.
  rewrite bool_decide_eq_true_2 by (by intros ?%elem_of_nil).
  rewrite (create_sheet_names wb) by apply sheet_name_nonempty.
  destruct (create_sheet [] (sheet_name_of p) None) as [[wb0 h0]|e] eqn:Hc; [| done].
  apply create_sheet_end in Hc as (Hv & -> & ->); [| apply sheet_name_nonempty].
  cbn [mbind result_bind]. rewrite sheet_at_new.
  change (sheet_at ([] ++ [?ws]) (length [])) with ws.
  set (t := avoid_duplicate_name (sheetnames wb) (sheet_name_of p)).
  change (avoid_duplicate_name (sheetnames []) (sheet_name_of p))
    with (sheet_name_of p).
  rewrite !header_append. cbn [mbind result_bind].
  change (store_row REFERENCE_HEADER (Worksheet_new t))
    with (with_title t (store_row REFERENCE_HEADER (Worksheet_new (sheet_name_of p)))).
  rewrite reference_loop_title.
  destruct (for_each _ _ _) as [ws|e]; [| done].
  cbn [mbind result_bind]. by rewrite insert_new.
Qed.

(** X3.  The sheet that the builder makes depends on the workbook through
    its title only: on two workbooks where the name is free it appends
    the same sheet, under the title that openpyxl settles on in each,
    or raises the same exception. *)
Theorem reference_sheet_independent (wb1 wb2 : Workbook) (p : Property)
  (pwd : option string) :
  sheet_name_of p ∉ sheetnames wb1 → sheet_name_of p ∉ sheetnames wb2 →
  (∀ new r, _append_validation_sheet_ wb1 p pwd = Ok (wb1 ++ [new], r) →
            title new = avoid_duplicate_name (sheetnames wb1) (sheet_name_of p)
            ∧ _append_validation_sheet_ wb2 p pwd
              = Ok (wb2 ++ [with_title (avoid_duplicate_name (sheetnames wb2)
                                          (sheet_name_of p)) new],
                    Some (length wb2)))
  ∧ (∀ e, _append_validation_sheet_ wb1 p pwd = Raise e →
          _append_validation_sheet_ wb2 p pwd = Raise e).
Proof.
  intros H1 H2.
  rewrite (append_validation_sheet_alone wb1), (append_validation_sheet_alone wb2)
    by done.
  destruct (_append_validation_sheet_ [] p pwd) as [[alone r0]|e0] eqn:Halone;
    [| done].
  split; [| done]. intros new r [= E _]. apply app_inv_head in E.
  destruct alone as [|a [|b rest]]; try done.
  cbn [fmap list_fmap] in E |- *. injection E as <-. done.
Qed.

Lemma length_zip_with_Forall2 {A B C} (f : A → B → C) (P : A → B → Prop)
  (xs : list A) (ys : list B) :
  Forall2 P xs ys → length (zip_with f xs ys) = length xs.
Proof. induction 1; [done |]. cbn. by f_equal. Qed.

Lemma reference_sheet_last_row (wb : Workbook) (p : Property)
  (pwd : option string) (new : Worksheet) (r : option nat) :
  sheet_name_of p ∉ sheetnames wb →
  _append_validation_sheet_ wb p pwd = Ok (wb ++ [new], r) →
  title new = avoid_duplicate_name (sheetnames wb) (sheet_name_of p)
  ∧ ws_max_row new = S (length (property_values p)).
Proof.
  intros Hfresh Hrun.
  apply append_validation_sheet_fresh in Hrun
    as (new' & vs & [_ <-]%app_inj_tail_iff & _ & Hvs & Hh & Ht & _); [| done].
  split; [done |].
  rewrite (holds_rows_max_row _ _ Hh); [| done |].
  - cbn [length]. by rewrite (length_zip_with_Forall2 _ _ _ _ Hvs).
  - constructor; [done |].
    eapply Forall_impl; [apply kept_rows_width |]. by intros row E ->.
Qed.

(** X4.  The rule wired to the sheet of a property quotes the title of
    that sheet, which is the derived name when no sheet of the workbook
    has it up to case, and draws from rows 2 to (number of values) + 1:
    the rows the builder wrote the values to, each brought to the
    declared type and, as a text, cut at 32767 characters. *)
Theorem reference_range_covers_values (wb : Workbook) (p : Property)
  (pwd : option string) (new ds ds' : Worksheet) (r : option nat)
  (idx : string) (is_global : bool) :
  sheet_name_of p ∉ sheetnames wb →
  _append_validation_sheet_ wb p pwd = Ok (wb ++ [new], r) →
  _set_validation_ ds idx (Some new) is_global = Ok ds' →
  ∃ rule,
    data_validations ds' = data_validations ds ++ [rule]
    ∧ formula1 rule
      = quote_sheetname (title new)
          +:+ "!$A$2:$A$" +:+ py_str (length (property_values p) + 1)
    ∧ (unclaimed (sheetnames wb) (sheet_name_of p) →
       title new = display_name p +:+ "_" +:+ property_id p)
    ∧ ∀ i pv, property_values p !! i = Some pv →
        ∃ v, shown new (i + 2) 1 = stored v ∧ coerced p pv v.
Proof.
  intros Hfresh Hrun Hset.
  destruct (reference_sheet_last_row wb _ _ _ _ Hfresh Hrun) as [Ht Hmax].
  apply set_validation_inv in Hset as (vs & cr & [= <-] & _ & ->).
  eexists. split; [reflexivity |]. split_and!.
  - cbn [formula1 list_rule]. rewrite Hmax. by rewrite Nat.add_1_r.
  - intros Hun. by rewrite Ht, avoid_duplicate_name_unclaimed.
  - intros i pv Hpv.
    apply append_validation_sheet_fresh in Hrun
      as (new' & vs & [_ <-]%app_inj_tail_iff & _ & Hvs & [_ Hcells] & _); [| done].
    destruct (Forall2_lookup_l _ _ _ _ _ Hvs Hpv) as (v & Hv & Hc).
    exists v. split; [| by apply construct_coerced].
    unfold shown. specialize (Hcells (i + 2) 1).
    replace (i + 2) with (S (S i)) in * by lia.
    change (grid_lookup (REFERENCE_HEADER :: ?rows) (S (S i)) 1)
      with (rows !! i ≫= (.!! 0)) in Hcells.
    rewrite lookup_zip_with, Hpv in Hcells. cbn in Hcells. rewrite Hv in Hcells.
    cbn in Hcells.
    destruct (_cells new !! (S (S i), 1)); cbn in *; congruence.
Qed.


(** ** Validation wiring *)

(** X5.  The helper for global rows does what the general wiring does in
    global mode at the row spelled in decimal; on a reference sheet it
    returns exactly when the row lies between 1 and the last row a
    sheet can have. *)
Theorem set_global_validation_rows (ds : Worksheet) (row : nat) :
  (∀ vsheet, _set_global_validation_ ds row vsheet
             = _set_validation_ ds (py_str row) vsheet true)
  ∧ ∀ vs, (∃ ds', _set_global_validation_ ds row (Some vs) = Ok ds')
          ↔ 1 ≤ row ∧ (N.of_nat row ≤ MAX_ROW)%N.
Proof.
  assert (∀ vsheet, _set_global_validation_ ds row vsheet
                    = _set_validation_ ds (py_str row) vsheet true) as Hsame
    by (by intros [vs|]).
  split; [exact Hsame |]. intros vs. rewrite Hsame. split.
  - intros (ds' & (vs' & cr & _ & Hcr & _)%set_validation_inv).
    pose proof (CellRange_of_cell_inv "B" row cr eq_refl Hcr) as ->.
    apply CellRange_of_string_inv in Hcr as (_ & _ & Hr & _ & Hmax).
    cbn in Hr, Hmax. split; [lia | done].
  - intros [H1 H2]. eexists. by apply set_validation_global.
Qed.

(** X6.  Column mode needs a data sheet with a row below the header: the
    wiring returns exactly when the last row of the data sheet is at
    least 2 (and within the sheet limit); on a sheet whose last row is
    the header it raises a ValueError. *)
Theorem column_validation_rows (ds vs : Worksheet) (idx : string) :
  column_identifier idx = true →
  ((∃ ds', _set_validation_ ds idx (Some vs) false = Ok ds')
   ↔ 2 ≤ ws_max_row ds ∧ (N.of_nat (ws_max_row ds) ≤ MAX_ROW)%N)
  ∧ (ws_max_row ds = 1 →
     _set_validation_ ds idx (Some vs) false
     = Raise (ValueError (py_str 1 +:+ " must be greater than " +:+ py_str 2))).
Proof.
  intros Hid. split; [split |].
  - intros (ds' & (vs' & cr & _ & Hcr & _)%set_validation_inv).
    destruct (CellRange_of_column_inv idx _ cr Hid Hcr) as [-> Hm].
    apply CellRange_of_string_inv in Hcr as (_ & _ & _ & _ & Hmax).
    cbn in Hmax. done.
  - intros [H1 H2]. eexists. by apply set_validation_column.
  - intros E. unfold _set_validation_. cbn [negb]. unfold dv_add.
    rewrite E, CellRange_of_column by (done || unfold MAX_ROW; lia). done.
Qed.

(** X7.  Wiring a rule changes nothing but the list of rules: the cells, the
    locks, the title and the last row of the data sheet are as before,
    the earlier rules are kept in order and the new one comes last. *)
Theorem set_validation_frame (ds ds' : Worksheet) (idx : string)
  (vsheet : option Worksheet) (is_global : bool) :
  _set_validation_ ds idx vsheet is_global = Ok ds' →
  ∃ rule,
    ds' = with_validations (data_validations ds ++ [rule]) ds
    ∧ ws_max_row ds' = ws_max_row ds
    ∧ (∀ r c, is_unlocked ds' r c = is_unlocked ds r c)
    ∧ (∀ r c, shown ds' r c = shown ds r c)
    ∧ validated_ranges ds' = validated_ranges ds ++ sqref rule
    ∧ length (sqref rule) = 1.
Proof.
  intros (vs & cr & _ & _ & ->)%set_validation_inv.
  exists (list_rule vs cr). split_and!; try done.
  apply validated_ranges_add.
Qed.


(** ** Cells under styling *)

Lemma view_get_cell {A} (g : Cell → A) (ws : Worksheet) (r c r' c' : nat) :
  from_option g (g (new_cell VNone)) (_cells (ws_get_cell r c ws) !! (r', c'))
  = from_option g (g (new_cell VNone)) (_cells ws !! (r', c')).
Proof.
  rewrite ws_get_cell_lookup. case_decide as E; [| done].
  by destruct (_cells ws !! (r', c')).
Qed.

Lemma view_cell_set {A} (g : Cell → A) (f : Cell → Cell) (ws : Worksheet)
  (r c r' c' : nat) :
  from_option g (g (new_cell VNone)) (_cells (ws_cell_set f r c ws) !! (r', c'))
  = if decide (r' = r ∧ c' = c)
    then g (f (default (new_cell VNone) (_cells ws !! (r, c))))
    else from_option g (g (new_cell VNone)) (_cells ws !! (r', c')).
Proof.
  rewrite ws_cell_set_lookup.
  destruct (decide (r' = r ∧ c' = c)) as [[-> ->] | Hne].
  - by rewrite decide_True.
  - rewrite decide_False; [done |]. intros [= -> ->]. by destruct Hne.
Qed.

Lemma view_foldl {A X} (g : Cell → A) (d : A) (h : Worksheet → X → Worksheet)
  (xs : list X) (r c : nat) :
  (∀ ws x, from_option g d (_cells (h ws x) !! (r, c))
           = from_option g d (_cells ws !! (r, c))) →
  ∀ ws, from_option g d (_cells (foldl h ws xs) !! (r, c))
        = from_option g d (_cells ws !! (r, c)).
Proof.
  intros Hh. induction xs as [|x xs IH]; intros ws; [done |].
  cbn [foldl]. by rewrite IH.
Qed.

Lemma shown_get_cell (ws : Worksheet) (r c r' c' : nat) :
  shown (ws_get_cell r c ws) r' c' = shown ws r' c'.
Proof. apply (view_get_cell cell_value). Qed.

Lemma shown_cell_set (f : Cell → Cell) (ws : Worksheet) (r c r' c' : nat) :
  (∀ x, cell_value (f x) = cell_value x) →
  shown (ws_cell_set f r c ws) r' c' = shown ws r' c'.
Proof.
  intros Hf. unfold shown.
  rewrite (view_cell_set cell_value). case_decide as E; [| done].
  destruct E as [-> ->]. rewrite Hf. by destruct (_cells ws !! (r, c)).
Qed.

Lemma shown_yield_row (ws : Worksheet) (r : nat) (cols : list nat) (r' c' : nat) :
  shown (ws_yield_row r cols ws) r' c' = shown ws r' c'.
Proof.
  unfold ws_yield_row. revert ws.
  induction cols as [|c cols IH]; intros ws; [done |].
  cbn [foldl]. by rewrite IH, shown_get_cell.
Qed.

Lemma is_bordered_get_cell (ws : Worksheet) (r c r' c' : nat) :
  is_bordered (ws_get_cell r c ws) r' c' = is_bordered ws r' c'.
Proof. apply (view_get_cell border). Qed.

Lemma is_bordered_yield_row (ws : Worksheet) (r : nat) (cols : list nat)
  (r' c' : nat) :
  is_bordered (ws_yield_row r cols ws) r' c' = is_bordered ws r' c'.
Proof.
  unfold ws_yield_row. revert ws.
  induction cols as [|c cols IH]; intros ws; [done |].
  cbn [foldl]. by rewrite IH, is_bordered_get_cell.
Qed.

Lemma is_bordered_border (ws : Worksheet) (r c r' c' : nat) :
  is_bordered (ws_cell_set set_border r c ws) r' c'
  = if decide (r' = r ∧ c' = c) then true else is_bordered ws r' c'.
Proof. apply (view_cell_set border). Qed.

Lemma is_bordered_cell_set (f : Cell → Cell) (ws : Worksheet) (r c r' c' : nat) :
  (∀ x, border (f x) = border x) →
  is_bordered (ws_cell_set f r c ws) r' c' = is_bordered ws r' c'.
Proof.
  intros Hf. unfold is_bordered.
  change (from_option border (border (new_cell VNone))
            (_cells (ws_cell_set f r c ws) !! (r', c'))
          = from_option border (border (new_cell VNone)) (_cells ws !! (r', c'))).
  rewrite view_cell_set. case_decide as E; [| done].
  destruct E as [-> ->]. rewrite Hf. by destruct (_cells ws !! (r, c)).
Qed.

Lemma is_aligned_get_cell (ws : Worksheet) (r c r' c' : nat) :
  is_aligned (ws_get_cell r c ws) r' c' = is_aligned ws r' c'.
Proof. apply (view_get_cell alignment). Qed.

Lemma is_aligned_yield_row (ws : Worksheet) (r : nat) (cols : list nat)
  (r' c' : nat) :
  is_aligned (ws_yield_row r cols ws) r' c' = is_aligned ws r' c'.
Proof.
  unfold ws_yield_row. revert ws.
  induction cols as [|c cols IH]; intros ws; [done |].
  cbn [foldl]. by rewrite IH, is_aligned_get_cell.
Qed.

Lemma is_aligned_align (ws : Worksheet) (r c r' c' : nat) :
  is_aligned (ws_cell_set set_alignment r c ws) r' c'
  = if decide (r' = r ∧ c' = c) then true else is_aligned ws r' c'.
Proof. apply (view_cell_set alignment). Qed.

Lemma is_aligned_cell_set (f : Cell → Cell) (ws : Worksheet) (r c r' c' : nat) :
  (∀ x, alignment (f x) = alignment x) →
  is_aligned (ws_cell_set f r c ws) r' c' = is_aligned ws r' c'.
Proof.
  intros Hf. unfold is_aligned.
  change (from_option alignment (alignment (new_cell VNone))
            (_cells (ws_cell_set f r c ws) !! (r', c'))
          = from_option alignment (alignment (new_cell VNone))
              (_cells ws !! (r', c'))).
  rewrite view_cell_set. case_decide as E; [| done].
  destruct E as [-> ->]. rewrite Hf. by destruct (_cells ws !! (r, c)).
Qed.

Lemma present_get_cell (ws : Worksheet) (r c r' c' : nat) :
  present (ws_get_cell r c ws) r' c' ↔ (r' = r ∧ c' = c) ∨ present ws r' c'.
Proof.
  unfold present. rewrite ws_get_cell_lookup. case_decide as E.
  - injection E as -> ->. split; [by left | by eexists].
  - split; [by right |]. intros [[-> ->] | H]; done.
Qed.

Lemma present_cell_set (f : Cell → Cell) (ws : Worksheet) (r c r' c' : nat) :
  present (ws_cell_set f r c ws) r' c' ↔ (r' = r ∧ c' = c) ∨ present ws r' c'.
Proof.
  unfold present. rewrite ws_cell_set_lookup. case_decide as E.
  - injection E as -> ->. split; [by left | by eexists].
  - split; [by right |]. intros [[-> ->] | H]; done.
Qed.

Lemma present_yield_row (ws : Worksheet) (r : nat) (cols : list nat) (r' c' : nat) :
  present (ws_yield_row r cols ws) r' c' ↔ (r' = r ∧ c' ∈ cols) ∨ present ws r' c'.
Proof.
  unfold ws_yield_row. revert ws.
  induction cols as [|c cols IH]; intros ws.
  - cbn. split; [by right |]. by intros [[_ ?%elem_of_nil] | H].
  - cbn [foldl]. rewrite IH, present_get_cell, elem_of_cons. tauto.
Qed.

Lemma current_row_get_cell (ws : Worksheet) (r c : nat) :
  _current_row ws ≤ _current_row (ws_get_cell r c ws).
Proof.
  unfold ws_get_cell. destruct (_ !! _); [done |]. cbn. lia.
Qed.

Lemma current_row_cell_set (f : Cell → Cell) (ws : Worksheet) (r c : nat) :
  _current_row ws ≤ _current_row (ws_cell_set f r c ws).
Proof. apply current_row_get_cell. Qed.

Lemma current_row_foldl {X} (g : Worksheet → X → Worksheet) (xs : list X) :
  (∀ ws x, _current_row ws ≤ _current_row (g ws x)) →
  ∀ ws, _current_row ws ≤ _current_row (foldl g ws xs).
Proof.
  intros Hg. induction xs as [|x xs IH]; intros ws; [done |].
  cbn [foldl]. etrans; [apply Hg | apply IH].
Qed.

Lemma cells_only_attributes (ws ws' : Worksheet) :
  cells_only ws ws' →
  title ws' = title ws
  ∧ protection_sheet ws' = protection_sheet ws
  ∧ protection_password ws' = protection_password ws
  ∧ sheet_state ws' = sheet_state ws
  ∧ data_validations ws' = data_validations ws
  ∧ column_widths ws' = column_widths ws
  ∧ page_setup ws' = page_setup ws.
Proof. by intros (m & cur & ->). Qed.

(** A sheet as appended carries no style. *)
Lemma unstyled_new (t : string) (r c : nat) :
  is_bordered (Worksheet_new t) r c = false
  ∧ is_aligned (Worksheet_new t) r c = false.
Proof. done. Qed.

Lemma unstyled_append (row : list pyvalue) (ws : Worksheet) :
  (∀ r c, is_bordered ws r c = false ∧ is_aligned ws r c = false) →
  ∀ r c, is_bordered (store_row row ws) r c = false
         ∧ is_aligned (store_row row ws) r c = false.
Proof.
  intros H r c. unfold is_bordered, is_aligned. rewrite store_row_lookup.
  case_decide; [by destruct (row !! (c - 1)) | apply H].
Qed.

Lemma unstyled_unlock (ws : Worksheet) (i col : nat) :
  (∀ r c, is_bordered ws r c = false ∧ is_aligned ws r c = false) →
  ∀ r c, is_bordered (ws_cell_set (set_protection UNLOCKED) i col ws) r c = false
         ∧ is_aligned (ws_cell_set (set_protection UNLOCKED) i col ws) r c = false.
Proof.
  intros H r c. rewrite is_bordered_cell_set, is_aligned_cell_set by done. apply H.
Qed.

Lemma holds_rows_shown (rows : list (list pyvalue)) (ws : Worksheet) (r c : nat) :
  holds_rows rows ws → shown ws r c = default VNone (grid_lookup rows r c).
Proof.
  intros [_ H]. unfold shown. rewrite <- H. by destruct (_cells ws !! (r, c)).
Qed.




(** ** The global sheet, cell by cell *)

Lemma is_bordered_border_row (r : nat) (cols : list nat) (r' c' : nat) :
  ∀ ws, is_bordered (foldl (λ sheet c, ws_cell_set set_border r c sheet) ws cols)
                    r' c'
        = if decide (r' = r ∧ c' ∈ cols) then true else is_bordered ws r' c'.
Proof.
  induction cols as [|c cols IH]; intros ws.
  - cbn. case_decide as E; [| done]. by destruct E as [_ ?%elem_of_nil].
  - cbn [foldl]. rewrite IH, is_bordered_border.
    destruct (decide (r' = r ∧ c' = c)) as [[-> ->] | Hne].
    + case_decide; case_decide as E; try done; destruct E; split; done || by left.
    + case_decide as E1; case_decide as E2; try done.
      * destruct E2. split; [tauto | right; tauto].
      * destruct E2 as [-> [-> | ?]%elem_of_cons]; [by destruct Hne | by destruct E1].
Qed.

Lemma present_border_row (r : nat) (cols : list nat) (r' c' : nat) :
  ∀ ws, present (foldl (λ sheet c, ws_cell_set set_border r c sheet) ws cols) r' c'
        ↔ (r' = r ∧ c' ∈ cols) ∨ present ws r' c'.
Proof.
  induction cols as [|c cols IH]; intros ws.
  - cbn. split; [by right |]. by intros [[_ ?%elem_of_nil] | H].
  - cbn [foldl]. rewrite IH, present_cell_set, elem_of_cons. tauto.
Qed.

Lemma global_row_views (sheet : Worksheet) (i r : nat) (cols : list nat)
  (r' c' : nat) :
  let sheet' := global_row_effect sheet (i, (r, cols)) in
  shown sheet' r' c' = shown sheet r' c'
  ∧ is_aligned sheet' r' c' = is_aligned sheet r' c'
  ∧ is_bordered sheet' r' c'
    = (if decide (r' = r ∧ c' ∈ cols) then true else is_bordered sheet r' c')
  ∧ (present sheet' r' c'
     ↔ (r' = r ∧ c' ∈ cols) ∨ (r' = i ∧ c' = 2) ∨ present sheet r' c')
  ∧ _current_row sheet ≤ _current_row sheet'.
Proof.
  cbv zeta. unfold global_row_effect. split_and!.
  - rewrite shown_cell_set by done.
    transitivity (shown (ws_yield_row r cols sheet) r' c');
      [| apply shown_yield_row].
    apply (view_foldl cell_value VNone). intros ws c.
    by apply (shown_cell_set set_border).
  - rewrite is_aligned_cell_set by done.
    transitivity (is_aligned (ws_yield_row r cols sheet) r' c');
      [| apply is_aligned_yield_row].
    apply (view_foldl alignment false). intros ws c.
    by apply (is_aligned_cell_set set_border).
  - rewrite is_bordered_cell_set by done.
    by rewrite is_bordered_border_row, is_bordered_yield_row.
  - rewrite present_cell_set, present_border_row, present_yield_row. tauto.
  - etrans; [| apply current_row_cell_set].
    etrans; [| apply current_row_foldl; intros; apply current_row_cell_set].
    apply current_row_foldl. intros. apply current_row_get_cell.
Qed.

Lemma global_rows_views (cols : list nat) (n : nat) :
  ∀ (a : nat) (sheet : Worksheet) (r c : nat),
    let sheet' := foldl global_row_effect sheet
                        (zip (seq a n) ((λ r, (r, cols)) <$> seq a n)) in
    shown sheet' r c = shown sheet r c
    ∧ is_aligned sheet' r c = is_aligned sheet r c
    ∧ is_bordered sheet' r c
      = (if decide (a ≤ r < a + n ∧ c ∈ cols) then true else is_bordered sheet r c)
    ∧ (present sheet' r c
       ↔ (a ≤ r < a + n ∧ (c ∈ cols ∨ c = 2)) ∨ present sheet r c)
    ∧ _current_row sheet ≤ _current_row sheet'.
Proof.
  induction n as [|n IH]; intros a sheet r c; cbv zeta.
  - cbn. rewrite decide_False by lia. split_and!; try done.
    split; [by right |]. intros [[? _] | H]; [lia | done].
  - cbn [seq fmap list_fmap zip zip_with foldl].
    destruct (IH (S a) (global_row_effect sheet (a, (a, cols))) r c)
      as (-> & -> & -> & -> & Hcur).
    destruct (global_row_views sheet a a cols r c) as (-> & -> & -> & -> & Hcur').
    split_and!; [done | done | | | etrans; [exact Hcur' | exact Hcur]].
    + destruct (decide (r = a));
        repeat case_decide; try done; exfalso; destruct_and?;
        match goal with H : ¬ _ |- _ => apply H; split; [lia | done] end.
    + split.
      * intros [[? ?] | [[-> ?] | [[-> ->] | ?]]].
        -- left. split; [lia | done].
        -- left. split; [lia | by left].
        -- left. split; [lia | by right].
        -- by right.
      * intros [[? Hc] | ?]; [| by do 3 right].
        destruct (decide (r = a)) as [-> | ?]; [| left; split; [lia | done]].
        right. destruct Hc as [? | ->]; [by left | by right; left].
Qed.

Lemma grid_lookup_global (gps : list Property) (r c : nat) :
  default VNone
    (grid_lookup ([VStr "Global"; VStr "Rating"]
                    :: ((λ gp, [stored (VStr (display_name gp))]) <$> gps)) r c)
  = default VNone (grid_lookup (global_grid gps) r c).
Proof.
  unfold global_grid. destruct r as [|[|r]]; [done | by destruct c |].
  destruct c as [|c]; [done |].
  change (default VNone
            (((λ gp, [stored (VStr (display_name gp))]) <$> gps) !! r ≫= (.!! c))
          = default VNone
              (((λ gp, [stored (VStr (display_name gp)); VNone]) <$> gps) !! r
                 ≫= (.!! c))).
  rewrite !list_lookup_fmap.
  destruct (gps !! r) as [gp|]; [| done].
  cbn. by destruct c as [|[|c]].
Qed.


(** The sheet that the global builder leaves, cell by cell. *)
Lemma build_global_sheet_cells (wb : Workbook) (cfg : IaConfiguration) :
  legal_names (global_properties cfg) →
  ∃ sheet,
    _build_global_sheet_ wb cfg
    = Ok (<[1 `min` length wb := sheet]>
            (take 1 wb
               ++ Worksheet_new (avoid_duplicate_name (sheetnames wb) "Global Ratings")
               :: drop 1 wb),
          1 `min` length wb)
    ∧ _current_row sheet ≠ 0
    ∧ (∀ r c, present sheet r c
              ↔ 1 ≤ r ≤ S (length (global_properties cfg)) ∧ 1 ≤ c ≤ 2)
    ∧ (∀ r c, shown sheet r c
              = default VNone (grid_lookup (global_grid (global_properties cfg)) r c))
    ∧ (∀ r c, is_bordered sheet r c
              = bool_decide (1 ≤ r ≤ S (length (global_properties cfg)) ∧ 1 ≤ c ≤ 2))
    ∧ (∀ r c, is_aligned sheet r c = false)
    ∧ protection_sheet sheet = true
    ∧ protection_password sheet = Some "Globals"
    ∧ sheet_state sheet = "visible"
    ∧ column_widths sheet = {["A" := (18 # 1)%Q]}.
Proof.
  intros Hlegal. unfold _build_global_sheet_. rewrite create_sheet_global.
  cbn [mbind result_bind].
  set (t := avoid_duplicate_name (sheetnames wb) "Global Ratings").
  destruct (create_sheet_at wb (Worksheet_new t) 1) as [Hat Hlt].
  rewrite (sheet_at_lookup _ _ _ Hat).
  rewrite global_header_append. cbn [mbind result_bind].
  rewrite (proj2 (global_rows_run _ _ _) (conj Hlegal eq_refl)).
  cbn [mbind result_bind].
  rewrite get_column_letter_1. cbn [mbind result_bind]. cbv zeta.
  set (rows0 := [VStr "Global"; VStr "Rating"]
                :: ((λ gp, [stored (VStr (display_name gp))])
                      <$> global_properties cfg)).
  set (sheet00 := with_password "Globals" _).
  set (sheet0 := foldl _ sheet00 (global_properties cfg)).
  set (sheet1 := with_column_widths _ sheet0).
  assert (holds_rows rows0 sheet0) as Hh0.
  { apply (holds_rows_appends (λ gp, [stored (VStr (display_name gp))]) _ [_]).
    apply (holds_rows_frame _ (store_row [VStr "Global"; VStr "Rating"]
                                        (Worksheet_new t)));
      [done | done |].
    apply (holds_rows_append []), holds_rows_new. }
  assert (holds_rows rows0 sheet1) as Hh by (eapply holds_rows_frame; [| | exact Hh0]; done).
  assert (∀ r c, is_bordered sheet1 r c = false ∧ is_aligned sheet1 r c = false)
    as Hplain.
  { change (∀ r c, is_bordered sheet0 r c = false ∧ is_aligned sheet0 r c = false).
    apply (foldl_invariant
             (λ ws, ∀ r c, is_bordered ws r c = false ∧ is_aligned ws r c = false)).
    - intros s gp _ Hs. by apply unstyled_append.
    - change (∀ r c,
                is_bordered (store_row [VStr "Global"; VStr "Rating"]
                                       (Worksheet_new t)) r c = false
                ∧ is_aligned (store_row [VStr "Global"; VStr "Rating"]
                                        (Worksheet_new t)) r c = false).
      apply unstyled_append. intros. apply unstyled_new. }
  assert (ws_max_row sheet1 = S (length (global_properties cfg))) as Hmr.
  { rewrite (holds_rows_max_row rows0) by
      (done || (constructor; [done |]; apply Forall_fmap, Forall_true; done)).
    unfold rows0. cbn. by rewrite length_fmap. }
  assert (ws_max_column sheet1 = 2) as Hmc.
  { apply (holds_rows_max_column rows0); [done | done | lia | |].
    - constructor; [simpl; lia |]. apply Forall_fmap, Forall_true. simpl. lia.
    - by apply Exists_cons_hd. }
  assert (_current_row sheet1 ≠ 0) as Hcur.
  { destruct Hh as [-> _]. done. }
  assert (∀ r c, present sheet1 r c
                 → 1 ≤ r ≤ S (length (global_properties cfg)) ∧ 1 ≤ c ≤ 2) as Hin.
  { intros r c (row & Hr & Hrow & Hc)%(cell_present_iff rows0)%grid_lookup_is_Some;
      [| done].
    pose proof (lookup_lt_Some _ _ _ Hrow) as Hlt'.
    unfold rows0 in Hlt'. cbn in Hlt'. rewrite length_fmap in Hlt'.
    split; [lia |].
    assert (length row ≤ 2); [| lia].
    unfold rows0 in Hrow. destruct (r - 1) as [|k].
    - injection Hrow as <-. simpl. lia.
    - change (((λ gp, [stored (VStr (display_name gp))])
                 <$> global_properties cfg) !! k
              = Some row) in Hrow.
      rewrite list_lookup_fmap in Hrow.
      destruct (global_properties cfg !! k); [| done].
      injection Hrow as <-. simpl. lia. }
  rewrite (for_each_ok _ global_row_effect)
    by (intros; apply global_row_style_effect).
  cbn [mbind result_bind]. eexists. split; [reflexivity |].
  unfold enumerate. rewrite length_ws_rows by done. unfold ws_rows.
  replace (_current_row sheet1 =? 0) with false by (symmetry; by apply Nat.eqb_neq).
  rewrite Hmr, Hmc.
  set (final := foldl global_row_effect sheet1 _).
  assert (∀ r c,
            shown final r c = shown sheet1 r c
            ∧ is_aligned final r c = is_aligned sheet1 r c
            ∧ is_bordered final r c
              = (if decide (1 ≤ r < 1 + S (length (global_properties cfg))
                            ∧ c ∈ seq 1 2)
                 then true else is_bordered sheet1 r c)
            ∧ (present final r c
               ↔ (1 ≤ r < 1 + S (length (global_properties cfg))
                  ∧ (c ∈ seq 1 2 ∨ c = 2)) ∨ present sheet1 r c)
            ∧ _current_row sheet1 ≤ _current_row final) as Hviews
    by (intros r c; apply global_rows_views).
  assert (cells_only sheet1 final) as Hframe
    by (apply cells_only_foldl, cells_only_global_row).
  apply cells_only_attributes in Hframe as (_ & Hps & Hpw & Hst & _ & Hcw & _).
  assert (cells_only sheet00 sheet0) as Hframe0
    by (apply cells_only_foldl; intros; apply cells_only_append).
  apply cells_only_attributes in Hframe0 as (_ & Hps0 & Hpw0 & Hst0 & _ & Hcw0 & _).
  split_and!.
  - destruct (Hviews 0 0) as (_ & _ & _ & _ & Hle). lia.
  - intros r c. destruct (Hviews r c) as (_ & _ & _ & -> & _).
    rewrite elem_of_seq. split; [intros [[? ?] | H%Hin]; lia | intros [? ?]].
    left. split; [lia |]. left. lia.
  - intros r c. destruct (Hviews r c) as (-> & _).
    rewrite (holds_rows_shown rows0) by done. apply grid_lookup_global.
  - intros r c. destruct (Hviews r c) as (_ & _ & -> & _).
    destruct (Hplain r c) as [-> _].
    case_decide as E; rewrite elem_of_seq in E.
    + symmetry. apply bool_decide_eq_true. lia.
    + symmetry. apply bool_decide_eq_false. lia.
  - intros r c. destruct (Hviews r c) as (_ & -> & _). apply Hplain.
  - rewrite Hps. change (protection_sheet sheet1) with (protection_sheet sheet0).
    by rewrite Hps0.
  - rewrite Hpw. change (protection_password sheet1) with (protection_password sheet0).
    by rewrite Hpw0.
  - rewrite Hst. change (sheet_state sheet1) with (sheet_state sheet0).
    by rewrite Hst0.
  - rewrite Hcw. unfold sheet1. cbn [column_widths with_column_widths].
    rewrite Hcw0. cbn. done.
Qed.


Lemma global_sheet_at (wb : Workbook) (ws0 sheet : Worksheet) :
  sheet_at (<[1 `min` length wb := sheet]> (take 1 wb ++ ws0 :: drop 1 wb))
           (1 `min` length wb)
  = sheet
  ∧ <[1 `min` length wb := sheet]> (take 1 wb ++ ws0 :: drop 1 wb)
    = take 1 wb ++ sheet :: drop 1 wb.
Proof.
  assert (length (take 1 wb) = 1 `min` length wb) as E by apply length_take.
  split.
  - apply sheet_at_insert. rewrite length_app, E. simpl. lia.
  - rewrite insert_app_r_alt by lia. by rewrite E, Nat.sub_diag.
Qed.


(** X9.  On a workbook where no sheet is named "Global Ratings" up to
    case, the global sheet that the builder returns is made at index 1,
    titled "Global Ratings", the sheets that were there keeping their
    order around it; it is visible, protected under the password
    "Globals", carries no rule, and its column A is widened to 18. *)
Theorem global_sheet_placement (wb wb' : Workbook) (cfg : IaConfiguration)
  (h : nat) :
  unclaimed (sheetnames wb) "Global Ratings" →
  _build_global_sheet_ wb cfg = Ok (wb', h) →
  ∃ sheet,
    wb' = take 1 wb ++ sheet :: drop 1 wb
    ∧ h = 1 `min` length wb
    ∧ sheet_at wb' h = sheet
    ∧ sheetnames wb' = take 1 (sheetnames wb) ++ "Global Ratings" :: drop 1 (sheetnames wb)
    ∧ protection_sheet sheet = true
    ∧ protection_password sheet = Some "Globals"
    ∧ sheet_state sheet = "visible"
    ∧ data_validations sheet = []
    ∧ column_widths sheet = {["A" := (18 # 1)%Q]}.
Proof.
  intros Hun Hrun.
  pose proof (build_global_sheet_legal _ _ _ _ Hrun) as Hl.
  destruct (build_global_sheet_cells wb cfg Hl)
    as (sheet & Hrun' & _ & _ & _ & _ & _ & Hps & Hpw & Hst & Hcw).
  destruct (build_global_sheet_run wb cfg Hl)
    as (sheet' & Hrun'' & _ & _ & Ht & Hdv).
  assert (sheet' = sheet) as ->.
  { rewrite Hrun' in Hrun''. injection Hrun'' as E.
    apply (f_equal (λ w, sheet_at w (1 `min` length wb))) in E.
    by rewrite !(proj1 (global_sheet_at wb _ _)) in E. }
  destruct (global_sheet_at wb
              (Worksheet_new (avoid_duplicate_name (sheetnames wb) "Global Ratings"))
              sheet) as [Hat Hins].
  assert (wb' = take 1 wb ++ sheet :: drop 1 wb ∧ h = 1 `min` length wb)
    as [-> ->] by (rewrite Hrun', Hins in Hrun; split; congruence).
  exists sheet. split_and!; try done.
  - by rewrite <- Hins.
  - unfold sheetnames. rewrite fmap_app, fmap_cons, fmap_take, fmap_drop.
    by rewrite Ht, avoid_duplicate_name_unclaimed.
Qed.

(** X10.  The styling pass of the global sheet borders every cell of the
    grid, the blank rating cells included, and assigns no alignment:
    so it is on the sheet that the builder returns. *)
Theorem global_sheet_borders (wb wb' : Workbook) (cfg : IaConfiguration)
  (h : nat) :
  _build_global_sheet_ wb cfg = Ok (wb', h) →
  (∀ r c, is_bordered (sheet_at wb' h) r c = true
          ↔ 1 ≤ r ≤ length (global_properties cfg) + 1 ∧ 1 ≤ c ≤ 2)
  ∧ (∀ r c, is_bordered (sheet_at wb' h) r c = true
            ↔ present (sheet_at wb' h) r c)
  ∧ (∀ r c, is_aligned (sheet_at wb' h) r c = false).
Proof.
  intros Hret.
  destruct (build_global_sheet_cells wb cfg (build_global_sheet_legal _ _ _ _ Hret))
    as (sheet & Hrun & _ & Hbox & _ & Hb & Ha & _).
  rewrite Hrun in Hret. injection Hret as <- <-.
  rewrite (proj1 (global_sheet_at wb _ sheet)). split_and!; [| | done].
  - intros r c. rewrite Hb, bool_decide_eq_true. lia.
  - intros r c. by rewrite Hb, bool_decide_eq_true, Hbox.
Qed.


(** ** The interview sheet, cell by cell *)

Lemma style_cells_views (tcn r n : nat) :
  ∀ (a : nat) (ws : Worksheet) (r' c' : nat),
    let ws' :=
      foldl (λ sheet '(i, c),
               let sheet :=
                 if i mod tcn =? 0
                 then ws_cell_set set_alignment r c sheet else sheet in
               ws_cell_set set_border r c sheet)
            ws (enumerate (seq a n) a) in
    is_bordered ws' r' c'
    = (if decide (r' = r ∧ a ≤ c' < a + n) then true else is_bordered ws r' c')
    ∧ is_aligned ws' r' c'
      = (if decide (r' = r ∧ a ≤ c' < a + n ∧ c' mod tcn = 0) then true
         else is_aligned ws r' c').
Proof.
  induction n as [|n IH]; intros a ws r' c'; cbv zeta.
  - cbn. rewrite !decide_False by lia. done.
  - cbn [seq]. rewrite enumerate_cons. cbv zeta in IH.
    set (F := λ (sheet : Worksheet) '(i, c),
                ws_cell_set set_border r c
                  (if i mod tcn =? 0
                   then ws_cell_set set_alignment r c sheet else sheet)) in *.
    cbn [foldl].
    destruct (IH (S a) (F ws (a, a)) r' c') as [-> ->].
    subst F. cbv beta iota.
    rewrite is_bordered_border, (is_aligned_cell_set set_border) by done.
    assert (is_bordered (if a mod tcn =? 0
                         then ws_cell_set set_alignment r a ws else ws) r' c'
            = is_bordered ws r' c') as ->
      by (destruct (_ =? _); [by apply is_bordered_cell_set | done]).
    split.
    + destruct (decide (c' = a));
        repeat case_decide; try done; exfalso; destruct_and?;
        match goal with H : ¬ _ |- _ => apply H; split; lia end.
    + destruct (decide (r' = r ∧ c' = a)) as [[-> ->] | Hne].
      * rewrite (decide_False (P := r = r ∧ S a ≤ a < S a + n ∧ a mod tcn = 0))
          by lia.
        destruct (Nat.eqb_spec (a mod tcn) 0) as [E | E].
        -- rewrite is_aligned_align, !decide_True; [done | | done].
           split_and!; [done | lia | lia | done].
        -- rewrite decide_False; [done |]. by intros (_ & _ & ?).
      * assert (is_aligned (if a mod tcn =? 0
                            then ws_cell_set set_alignment r a ws else ws) r' c'
                = is_aligned ws r' c') as ->.
        { destruct (_ =? _); [| done]. by rewrite is_aligned_align, decide_False. }
        case_decide as E1; case_decide as E2; try done; exfalso.
        -- apply E2. destruct E1 as (-> & ? & ?). split_and!; [done | lia | lia | done].
        -- apply E1. destruct E2 as (-> & ? & ?). split_and!; [done | | lia | done].
           destruct (decide (c' = a)) as [-> | ?]; [by destruct Hne | lia].
Qed.

Lemma style_row_views (tcn r W : nat) (ws : Worksheet) (r' c' : nat) :
  let ws' := interview_row_style tcn ws (r, seq 1 W) in
  is_bordered ws' r' c'
  = (if decide (r' = r ∧ 1 ≤ c' < 1 + W) then true else is_bordered ws r' c')
  ∧ is_aligned ws' r' c'
    = (if decide (r' = r ∧ 1 ≤ c' < 1 + W ∧ c' mod tcn = 0) then true
       else is_aligned ws r' c').
Proof.
  cbv zeta. unfold interview_row_style.
  destruct (style_cells_views tcn r W 1 (ws_yield_row r (seq 1 W) ws) r' c')
    as [Hb Ha].
  rewrite is_bordered_yield_row in Hb. rewrite is_aligned_yield_row in Ha.
  split; [exact Hb | exact Ha].
Qed.

Lemma style_rows_views (tcn W n : nat) :
  ∀ (a : nat) (ws : Worksheet) (r' c' : nat),
    let ws' := foldl (interview_row_style tcn) ws
                     ((λ r, (r, seq 1 W)) <$> seq a n) in
    is_bordered ws' r' c'
    = (if decide (a ≤ r' < a + n ∧ 1 ≤ c' < 1 + W) then true
       else is_bordered ws r' c')
    ∧ is_aligned ws' r' c'
      = (if decide (a ≤ r' < a + n ∧ 1 ≤ c' < 1 + W ∧ c' mod tcn = 0) then true
         else is_aligned ws r' c').
Proof.
  induction n as [|n IH]; intros a ws r' c'; cbv zeta.
  - cbn. rewrite !decide_False by lia. done.
  - cbn [seq fmap list_fmap foldl].
    destruct (IH (S a) (interview_row_style tcn ws (a, seq 1 W)) r' c') as [-> ->].
    destruct (style_row_views tcn a W ws r' c') as [-> ->].
    split.
    + destruct (decide (r' = a));
        repeat case_decide; try done; exfalso; destruct_and?;
        match goal with H : ¬ _ |- _ => apply H; split; lia end.
    + destruct (decide (r' = a));
        repeat case_decide; try done; exfalso; destruct_and?;
        match goal with
        | H : ¬ _ |- _ => apply H; split_and!; done || lia
        end.
Qed.

Lemma unstyled_interview_rows (cfg : IaConfiguration) (utts : list Utterance)
  (a : nat) (sheet : Worksheet) :
  (∀ r c, is_bordered sheet r c = false ∧ is_aligned sheet r c = false) →
  ∀ r c,
    is_bordered (foldl (interview_row_effect cfg) sheet (enumerate utts a)) r c = false
    ∧ is_aligned (foldl (interview_row_effect cfg) sheet (enumerate utts a)) r c
      = false.
Proof.
  apply (foldl_invariant
           (λ ws, ∀ r c, is_bordered ws r c = false ∧ is_aligned ws r c = false)).
  intros s [i utt] _ Hs. unfold interview_row_effect.
  apply (foldl_invariant
           (λ ws, ∀ r c, is_bordered ws r c = false ∧ is_aligned ws r c = false)).
  - intros s' [col cp] _ Hs'. unfold unlock_effect. by apply unstyled_unlock.
  - by apply unstyled_append.
Qed.

Lemma text_column_mod (tcn c : nat) :
  1 ≤ tcn → (1 ≤ c < 1 + tcn ∧ c mod tcn = 0) ↔ c = tcn.
Proof.
  intros Ht. split.
  - intros [Hc Hm]. destruct (decide (c = tcn)) as [-> | Hne]; [done |].
    rewrite Nat.mod_small in Hm by lia. lia.
  - intros ->. split; [lia | apply Nat.Div0.mod_same].
Qed.

(** The sheet that the interview builder leaves: its styles and its
    attributes. *)
Lemma build_interview_sheet_cells (cfg : IaConfiguration) (iv : InterviewData)
  (wb : Workbook) (h : nat) :
  _build_interview_sheet_ Workbook_new cfg iv = Ok (wb, h) →
  ∃ sheet letter,
    wb = [sheet] ∧ h = 0
    ∧ get_column_letter (3 + length (coding_properties cfg) + 1) = Ok letter
    ∧ (∀ r c, is_bordered sheet r c
              = bool_decide (1 ≤ r ≤ S (length (utterances iv))
                             ∧ 1 ≤ c ≤ length (coding_properties cfg) + 4))
    ∧ (∀ r c, is_aligned sheet r c
              = bool_decide (1 ≤ r ≤ S (length (utterances iv))
                             ∧ c = length (coding_properties cfg) + 4))
    ∧ protection_sheet sheet = true
    ∧ protection_password sheet = Some "Interview"
    ∧ sheet_state sheet = "visible"
    ∧ column_widths sheet = {[letter := (9071 # 100)%Q]}
    ∧ page_setup sheet = mkPageSetup (Some "landscape") (Some 1) (Some 1).
Proof.
  intros Hrun.
  destruct (build_interview_sheet_legal _ _ _ _ Hrun) as [Hln Hlu].
  revert Hrun.
  unfold _build_interview_sheet_. cbn [Workbook_new lookup list_lookup].
  rewrite interview_title. cbn [mbind result_bind]. cbv zeta.
  rewrite headers_append by done. cbn [mbind result_bind].
  set (sheet0 := with_password "Interview" _).
  destruct (for_each _ sheet0 _) as [sheet1|] eqn:Hloop; [| done].
  pose proof (interview_rows_dichotomy _ _ _ _ Hloop) as Hdich.
  rewrite interview_rows_run in Hloop by done. injection Hloop as <-.
  cbn [mbind result_bind].
  destruct (get_column_letter _) as [letter|]; [| done].
  cbn [mbind result_bind]. cbn [insert list_insert]. intros [= <- <-].
  assert (holds_rows [kept_headers cfg] sheet0) as Hh0.
  { apply (holds_rows_frame _ (store_row (kept_headers cfg)
                                         (Worksheet_new "Sheet"))); [done | done |].
    apply (holds_rows_append []), holds_rows_new. }
  assert (∀ r c, is_bordered sheet0 r c = false ∧ is_aligned sheet0 r c = false)
    as Hplain0.
  { change (∀ r c,
              is_bordered (store_row (kept_headers cfg) (Worksheet_new "Sheet"))
                          r c = false
              ∧ is_aligned (store_row (kept_headers cfg) (Worksheet_new "Sheet"))
                           r c = false).
    apply unstyled_append. intros. apply unstyled_new. }
  destruct (interview_rows_effect cfg (utterances iv) 1 [kept_headers cfg] sheet0)
    as [Hh1 _]; [lia | done | | done |].
  { constructor; [apply length_kept_headers | constructor]. }
  cbn [app] in Hh1.
  pose proof (unstyled_interview_rows cfg (utterances iv) 1 sheet0 Hplain0) as Hplain1.
  pose proof (cells_only_attributes _ _
                (cells_only_interview_rows cfg (utterances iv) 1 sheet0))
    as (_ & Hps1 & Hpw1 & Hst1 & _ & Hcw1 & _).
  set (sheet1 := foldl (interview_row_effect cfg) sheet0 _) in *.
  set (sheet2 := with_page_setup _ _).
  set (rows := kept_headers cfg :: (kept_line cfg <$> utterances iv)) in *.
  assert (holds_rows rows sheet2) as Hh2 by (by apply (holds_rows_frame _ sheet1)).
  assert (Forall (λ row, length row = length (coding_properties cfg) + 4) rows)
    as Hall.
  { constructor; [apply length_kept_headers |].
    apply Forall_fmap, Forall_true. intros. apply length_kept_line. }
  assert (ws_max_row sheet2 = S (length (utterances iv))) as Hmr.
  { rewrite (holds_rows_max_row rows); [| done | done |].
    - unfold rows. cbn. by rewrite length_fmap.
    - eapply Forall_impl; [exact Hall |]. simpl. intros row E ->. simpl in E. lia. }
  assert (ws_max_column sheet2 = length (coding_properties cfg) + 4) as Hmc.
  { apply (holds_rows_max_column rows); [done | done | lia | |].
    - eapply Forall_impl; [exact Hall |]. simpl. lia.
    - apply Exists_cons_hd. apply length_kept_headers. }
  assert (_current_row sheet2 ≠ 0) as Hcur by (destruct Hh2 as [-> _]; done).
  pose proof (cells_only_attributes _ _
                (cells_only_foldl (interview_row_style
                                     (3 + length (coding_properties cfg) + 1))
                   (ws_rows sheet2) (cells_only_style_row _) sheet2))
    as (_ & Hps & Hpw & Hst & _ & Hcw & Hpg).
  unfold ws_rows in *.
  replace (_current_row sheet2 =? 0) with false in *
    by (symmetry; by apply Nat.eqb_neq).
  rewrite Hmr, Hmc in *.
  set (final := foldl (interview_row_style _) sheet2 _) in *.
  assert (∀ r c,
            is_bordered final r c
            = (if decide (1 ≤ r < 1 + S (length (utterances iv))
                          ∧ 1 ≤ c < 1 + (length (coding_properties cfg) + 4))
               then true else is_bordered sheet2 r c)
            ∧ is_aligned final r c
              = (if decide (1 ≤ r < 1 + S (length (utterances iv))
                            ∧ 1 ≤ c < 1 + (length (coding_properties cfg) + 4)
                            ∧ c mod (3 + length (coding_properties cfg) + 1) = 0)
                 then true else is_aligned sheet2 r c)) as Hviews
    by (intros r c; apply style_rows_views).
  exists final, letter. split_and!; try done.
  - intros r c. destruct (Hviews r c) as [-> _].
    destruct (Hplain1 r c) as [Hb _].
    change (is_bordered sheet2 r c) with (is_bordered sheet1 r c). rewrite Hb.
    case_decide.
    + symmetry. apply bool_decide_eq_true. lia.
    + symmetry. apply bool_decide_eq_false. lia.
  - intros r c. destruct (Hviews r c) as [_ ->].
    destruct (Hplain1 r c) as [_ Ha].
    change (is_aligned sheet2 r c) with (is_aligned sheet1 r c). rewrite Ha.
    pose proof (text_column_mod (3 + length (coding_properties cfg) + 1) c
                  ltac:(lia)) as Hmod.
    replace (1 + (length (coding_properties cfg) + 4))
      with (1 + (3 + length (coding_properties cfg) + 1)) by lia.
    case_decide as E.
    + symmetry. apply bool_decide_eq_true.
      destruct E as [Hr Hc%Hmod]. split; lia.
    + symmetry. apply bool_decide_eq_false. intros [Hr Hc]. apply E.
      split; [lia |]. apply Hmod. lia.
  - rewrite Hps. change (protection_sheet sheet2) with (protection_sheet sheet1).
    by rewrite Hps1.
  - rewrite Hpw. change (protection_password sheet2) with (protection_password sheet1).
    by rewrite Hpw1.
  - rewrite Hst. change (sheet_state sheet2) with (sheet_state sheet1).
    by rewrite Hst1.
  - rewrite Hcw. unfold sheet2. cbn [column_widths with_page_setup with_column_widths].
    by rewrite Hcw1.
Qed.




(** X13.  The interview sheet is the first sheet of the workbook, renamed:
    titled "Interview", visible, protected under the password
    "Interview", without rules, set to print in landscape on one page,
    and with the text column, the one after the coding columns, widened
    to 90.71. *)
Theorem interview_sheet_attributes (cfg : IaConfiguration) (iv : InterviewData)
  (wb : Workbook) (h : nat) :
  _build_interview_sheet_ Workbook_new cfg iv = Ok (wb, h) →
  ∃ sheet letter,
    wb = [sheet] ∧ h = 0
    ∧ title sheet = "Interview"
    ∧ sheet_state sheet = "visible"
    ∧ protection_sheet sheet = true
    ∧ protection_password sheet = Some "Interview"
    ∧ data_validations sheet = []
    ∧ page_setup sheet = mkPageSetup (Some "landscape") (Some 1) (Some 1)
    ∧ get_column_letter (length (coding_properties cfg) + 4) = Ok letter
    ∧ column_widths sheet = {[letter := (9071 # 100)%Q]}.
Proof.
  intros Hrun.
  destruct (build_interview_sheet_cells cfg iv wb h Hrun)
    as (sheet & letter & -> & -> & Hletter & _ & _ & Hps & Hpw & Hst & Hcw & Hpg).
  apply build_interview_sheet_inv in Hrun
    as (sheet' & [= <-] & _ & _ & _ & _ & Ht & Hdv).
  exists sheet, letter. split_and!; try done.
  by replace (length (coding_properties cfg) + 4)
    with (3 + length (coding_properties cfg) + 1) by lia.
Qed.

(** X14.  The styling pass of the interview sheet borders every cell of the
    grid (header and utterances, all columns) and nothing else, and
    assigns the alignment to the cells of one column: the last, whose
    header reads "Text". *)
Theorem interview_sheet_styles (cfg : IaConfiguration) (iv : InterviewData)
  (wb : Workbook) (h : nat) :
  _build_interview_sheet_ Workbook_new cfg iv = Ok (wb, h) →
  (∀ r c, is_bordered (sheet_at wb h) r c = true
          ↔ 1 ≤ r ≤ length (utterances iv) + 1
            ∧ 1 ≤ c ≤ length (coding_properties cfg) + 4)
  ∧ (∀ r c, is_aligned (sheet_at wb h) r c = true
            ↔ 1 ≤ r ≤ length (utterances iv) + 1
              ∧ c = length (coding_properties cfg) + 4)
  ∧ shown (sheet_at wb h) 1 (length (coding_properties cfg) + 4) = VStr "Text".
Proof.
  intros Hrun.
  destruct (build_interview_sheet_cells cfg iv wb h Hrun)
    as (sheet & letter & -> & -> & _ & Hb & Ha & _).
  apply build_interview_sheet_inv in Hrun
    as (sheet' & [= <-] & _ & _ & Hh & _).
  change (sheet_at [sheet] 0) with sheet. split_and!.
  - intros r c. rewrite Hb, bool_decide_eq_true. lia.
  - intros r c. rewrite Ha, bool_decide_eq_true. lia.
  - rewrite (holds_rows_shown _ _ _ _ Hh).
    replace (length (coding_properties cfg) + 4)
      with (S (3 + length (coding_properties cfg))) by lia.
    change (grid_lookup (kept_headers cfg :: ?t) 1 (S ?j))
      with (kept_headers cfg !! j).
    assert (column_headers_of cfg !! (3 + length (coding_properties cfg))
            = Some (VStr "Text")) as E.
    { unfold column_headers_of. rewrite app_assoc. apply list_lookup_middle.
      by rewrite length_app, length_fmap. }
    unfold kept_headers. by rewrite list_lookup_fmap, E.
Qed.


(** ** The workbook that the orchestrator assembles

    [ia2xl] returns the workbook as the loop over the properties leaves
    it.  openpyxl settles the title of every new sheet; where the names
    that the configuration derives differ by more than case, every
    sheet gets the name derived for it, and the workbook is described
    from the configuration alone. *)

Lemma with_title_eta (ws : Worksheet) : with_title (title ws) ws = ws.
Proof. by destruct ws. Qed.

Lemma builds_inv (p : Property) (new : Worksheet) :
  builds p new →
  title new = sheet_name_of p
  ∧ ws_max_row new = S (length (property_values p))
  ∧ sheet_state new = "hidden"
  ∧ protection_sheet new = true
  ∧ protection_password new = Some (sheet_name_of p)
  ∧ data_validations new = []
  ∧ accepted p
  ∧ (∀ r c, is_unlocked new r c = false)
  ∧ ∃ vs, Forall2 (coerced p) (property_values p) vs
          ∧ holds_rows (REFERENCE_HEADER
                          :: zip_with kept_values (property_values p) vs) new.
Proof.
  unfold builds. intros Hrun.
  assert (sheet_name_of p ∉ sheetnames []) as Hfresh by (by intros ?%elem_of_nil).
  pose proof (append_validation_sheet_locked [] p None new (Some 0) Hfresh Hrun)
    as Hlocked.
  destruct (reference_sheet_last_row [] p None new (Some 0) Hfresh Hrun) as [Ht Hmr].
  apply append_validation_sheet_fresh in Hrun
    as (new' & vs & [= <-] & _ & Hvs & Hh & _ & Hdv & Hps & Hpw & Hst & Hv & Hl);
    [| done].
  assert (Forall2 (coerced p) (property_values p) vs) as Hco.
  { eapply Forall2_impl; [exact Hvs |]. intros pv v. apply construct_coerced. }
  split_and!; try done.
  - split_and!; [done | |].
    + apply Forall_forall. intros pv [i Hi]%list_elem_of_lookup.
      destruct (Forall2_lookup_l _ _ _ _ _ Hco Hi) as (v & _ & Hc).
      by apply (coerced_well_typed p pv v).
    + apply Forall_forall. intros pv [i Hi]%list_elem_of_lookup.
      destruct (Forall2_lookup_l _ _ _ _ _ Hco Hi) as (v & Hv' & Hc).
      apply (coerced_legal p pv v Hc).
      by eapply (Forall2_lookup_lr _ _ _ _ _ _ Hl).
  - by exists vs.
Qed.

(** A turn of the loop that returns, no sheet having the name of the
    property up to case without having it: the reference sheet it
    appends is the one the builder makes for the property on its own. *)
Lemma ia2xl_step_builds (u g : nat) (wb : Workbook) (pc gr : nat) (p : Property)
  (st' : Workbook * nat * nat) :
  (∀ n, n ∈ sheetnames wb → py_lower n = py_lower (sheet_name_of p) →
        n = sheet_name_of p) →
  ia2xl_step u g (wb, pc, gr) p = Ok st' →
  ∃ new pc' gr' idx h cr,
    (sheet_name_of p ∉ sheetnames wb)
    ∧ builds p new
    ∧ (if bool_decide (property_class p = GlobalProperty)
       then (pc' = pc ∧ gr' = gr + 1 ∧ idx = py_str gr' ∧ h = g
             ∧ CellRange_of_string ("B" +:+ idx) = Ok cr)
       else (pc' = pc + 1 ∧ gr' = gr ∧ chr pc' = Ok idx ∧ h = u
             ∧ CellRange_of_string
                 (idx +:+ "2:" +:+ idx
                    +:+ py_str (ws_max_row (sheet_at (wb ++ [new]) h))) = Ok cr))
    ∧ st' = (<[h := add_data_validation (list_rule new cr)
                       (sheet_at (wb ++ [new]) h)]> (wb ++ [new]), pc', gr').
Proof.
  intros Hcase. unfold ia2xl_step.
  destruct (decide (sheet_name_of p ∈ sheetnames wb)) as [Hin | Hfresh].
  { rewrite append_validation_sheet_taken by done. cbn [mbind result_bind].
    destruct (bool_decide _); cbn [mbind result_bind]; [done |].
    destruct (chr _); cbn [mbind result_bind]; done. }
  rewrite append_validation_sheet_alone by done.
  rewrite avoid_duplicate_name_unclaimed.
  2:{ apply Forall_forall. intros n Hn E. apply Hfresh. by rewrite <- (Hcase n Hn E). }
  destruct (_append_validation_sheet_ [] p None) as [[alone r0]|] eqn:Halone;
    [| done].
  pose proof Halone as Hb.
  apply append_validation_sheet_fresh in Halone
    as (new & vs & -> & -> & _); [| by intros ?%elem_of_nil].
  change (builds p new) in Hb.
  pose proof (builds_inv p new Hb) as [Ht _].
  cbn [mbind result_bind app fmap list_fmap].
  rewrite <- Ht, with_title_eta.
  destruct (bool_decide (property_class p = GlobalProperty)) eqn:Hg.
  - cbn [mbind result_bind option_bind]. rewrite list_lookup_middle by done.
    destruct (_set_validation_ _ _ _ _) as [data|] eqn:Hset; [| done].
    cbn [mbind result_bind]. intros [= <-].
    apply set_validation_inv in Hset as (vs' & cr & [= <-] & Hcr & ->).
    exists new, pc, (gr + 1), (py_str (gr + 1)), g, cr. split_and!; try done.
    by rewrite Ht.
  - destruct (chr (pc + 1)) as [idx|] eqn:Hchr; [| done].
    cbn [mbind result_bind option_bind]. rewrite list_lookup_middle by done.
    destruct (_set_validation_ _ _ _ _) as [data|] eqn:Hset; [| done].
    cbn [mbind result_bind]. intros [= <-].
    apply set_validation_inv in Hset as (vs' & cr & [= <-] & Hcr & ->).
    exists new, (pc + 1), gr, idx, u, cr. split_and!; try done.
    by rewrite Ht.
Qed.


Lemma coding_of_snoc (ps : list Property) (p : Property) :
  coding_of (ps ++ [p])
  = coding_of ps ++ (if decide (property_class p = CodingProperty) then [p] else [])
  ∧ global_of (ps ++ [p])
    = global_of ps ++ (if decide (property_class p = GlobalProperty) then [p] else []).
Proof.
  unfold coding_of, global_of. rewrite !filter_app. split; f_equal.
Qed.

Lemma coding_rules_snoc (m : nat) (ps : list Property) (p : Property) :
  coding_rules m (ps ++ [p])
  = coding_rules m ps
    ++ [rule_for p (mkCellRange (4 + length ps) 2 (4 + length ps) m)].
Proof. unfold coding_rules. rewrite imap_app. cbn. by rewrite Nat.add_0_r. Qed.

Lemma global_rules_snoc (ps : list Property) (p : Property) :
  global_rules (ps ++ [p])
  = global_rules ps
    ++ [rule_for p (mkCellRange 2 (2 + length ps) 2 (2 + length ps))].
Proof. unfold global_rules. rewrite imap_app. cbn. by rewrite Nat.add_0_r. Qed.

Lemma list_rule_builds (p : Property) (new : Worksheet) (cr : CellRange) :
  builds p new → list_rule new cr = rule_for p cr.
Proof.
  intros (Ht & Hmr & _)%builds_inv. unfold list_rule, rule_for.
  by rewrite Ht, Hmr.
Qed.

Lemma builds_titles (ps : list Property) (refs : list Worksheet) :
  Forall2 builds ps refs → title <$> refs = sheet_name_of <$> ps.
Proof.
  induction 1 as [|q ws qs wss Hq _ IH]; [done |].
  cbn [fmap list_fmap]. f_equal; [| done]. by apply builds_inv in Hq as [-> _].
Qed.

Lemma case_distinct_incl (names names' : list string) :
  (∀ x, x ∈ names' → x ∈ names) → case_distinct names → case_distinct names'.
Proof. intros Hincl H a b Ha Hb. apply H; by apply Hincl. Qed.

Lemma assembled_step (s0 gs : Worksheet) (m : nat) (ps : list Property)
  (st st' : Workbook * nat * nat) (p : Property) :
  ws_max_row s0 = m →
  case_distinct (title s0 :: title gs :: (sheet_name_of <$> ps ++ [p])) →
  assembled s0 gs m ps st → ia2xl_step 0 1 st p = Ok st' →
  assembled s0 gs m (ps ++ [p]) st'.
Proof.
  intros Hm Hcd (refs & Hwb & Hrefs & Hpc & Hgr & Hk & Hrows & Hg & Hnd) Hstep.
  destruct st as [[wb pc] gr]. cbn [fst snd] in *. subst wb pc gr.
  assert (sheetnames (with_validations (coding_rules m (coding_of ps)) s0
                        :: with_validations (global_rules (global_of ps)) gs :: refs)
          = title s0 :: title gs :: (sheet_name_of <$> ps)) as Hnames.
  { cbn [sheetnames fmap list_fmap title with_validations].
    by rewrite (builds_titles _ _ Hrefs). }
  apply ia2xl_step_builds in Hstep
    as (new & pc' & gr' & idx & h & cr & Hfresh & Hb & Hmode & ->).
  2:{ rewrite Hnames. intros n Hn E. apply Hcd; [| | done].
      - rewrite fmap_app. rewrite !elem_of_cons in Hn. rewrite !elem_of_cons, elem_of_app.
        tauto.
      - rewrite fmap_app. do 2 apply list_elem_of_further.
        apply elem_of_app. right. apply list_elem_of_here. }
  rewrite Hnames in Hfresh.
  destruct (coding_of_snoc ps p) as [Ec Eg].
  assert (NoDup (title s0 :: title gs :: (sheet_name_of <$> ps ++ [p]))) as Hnd'.
  { rewrite fmap_app. cbn [fmap list_fmap].
    change (title s0 :: title gs :: (sheet_name_of <$> ps) ++ [sheet_name_of p])
      with ((title s0 :: title gs :: (sheet_name_of <$> ps)) ++ [sheet_name_of p]).
    apply NoDup_app. split_and!; [done | | apply NoDup_singleton].
    by intros x Hx ->%list_elem_of_singleton. }
  destruct (property_class p) eqn:Hclass.
  - rewrite bool_decide_eq_false_2 in Hmode by done.
    destruct Hmode as (-> & -> & Hchr & -> & Hcr).
    rewrite decide_True in Ec by done. rewrite decide_False in Eg by done.
    rewrite app_nil_r in Eg.
    change (ws_max_row (sheet_at _ 0)) with (ws_max_row s0) in Hcr.
    rewrite Hm in Hcr.
    assert (67 + length (coding_of ps) + 1 ≤ 90) as Hle'.
    { destruct (decide (67 + length (coding_of ps) + 1 ≤ 90)) as [|Hgt]; [done |].
      assert (67 + length (coding_of ps) + 1 = 91) as E by lia. rewrite E in Hchr.
      injection Hchr as <-. rewrite append_cons in Hcr.
      by rewrite CellRange_reject in Hcr. }
    destruct (chr_capital (67 + length (coding_of ps) + 1))
      as (a & Ha & Hid & Hidx); [lia |].
    rewrite Ha in Hchr. injection Hchr as <-.
    pose proof Hcr as (_ & _ & _ & _ & Hmax)%CellRange_of_string_inv.
    apply CellRange_of_column_inv in Hcr as [-> Hm2]; [| done].
    cbn [max_row] in Hmax.
    exists (refs ++ [new]). cbn [fst snd]. rewrite Ec, Eg.
    split_and!; try done.
    + cbn [app sheet_at lookup list_lookup default from_option id insert list_insert].
      f_equal. rewrite coding_rules_snoc, (list_rule_builds p) by done.
      rewrite Hidx.
      replace (67 + length (coding_of ps) + 1 - 64) with (4 + length (coding_of ps))
        by lia.
      done.
    + apply Forall2_app; [done | by constructor].
    + rewrite length_app. simpl. lia.
    + rewrite length_app. simpl. lia.
  - rewrite bool_decide_eq_true_2 in Hmode by done.
    destruct Hmode as (-> & -> & -> & -> & Hcr).
    rewrite decide_False in Ec by done. rewrite decide_True in Eg by done.
    rewrite app_nil_r in Ec.
    pose proof Hcr as (_ & _ & _ & _ & Hmax)%CellRange_of_string_inv.
    apply (CellRange_of_cell_inv "B") in Hcr as ->; [| done].
    cbn [max_row] in Hmax.
    exists (refs ++ [new]). cbn [fst snd]. rewrite Ec, Eg.
    split_and!; try done.
    + cbn [app sheet_at lookup list_lookup default from_option id insert list_insert].
      do 2 f_equal. rewrite global_rules_snoc, (list_rule_builds p) by done.
      change (column_index_from_string "B") with 2.
      replace (1 + length (global_of ps) + 1) with (2 + length (global_of ps))
        by lia.
      done.
    + apply Forall2_app; [done | by constructor].
    + rewrite length_app. simpl. lia.
    + rewrite length_app. simpl. lia.
Qed.

Lemma assembled_loop (s0 gs : Worksheet) (m : nat) (qs : list Property) :
  ws_max_row s0 = m →
  ∀ (ps : list Property) (st st' : Workbook * nat * nat),
    case_distinct (title s0 :: title gs :: (sheet_name_of <$> ps ++ qs)) →
    assembled s0 gs m ps st → for_each (ia2xl_step 0 1) st qs = Ok st' →
    assembled s0 gs m (ps ++ qs) st'.
Proof.
  intros Hm. induction qs as [|q qs IH]; intros ps st st' Hcd Hinv Hrun.
  - injection Hrun as <-. by rewrite app_nil_r.
  - rewrite for_each_cons in Hrun.
    destruct (ia2xl_step 0 1 st q) as [st1|] eqn:Hstep; [| done].
    cbn [mbind result_bind] in Hrun.
    replace (ps ++ q :: qs) with ((ps ++ [q]) ++ qs) in * by (by rewrite <- app_assoc).
    eapply IH; [done | | exact Hrun]. eapply assembled_step; [done | | done | done].
    eapply case_distinct_incl; [| exact Hcd].
    intros x. rewrite !elem_of_cons, !fmap_app, !elem_of_app. tauto.
Qed.

Lemma with_validations_eta (ws : Worksheet) :
  data_validations ws = [] → with_validations [] ws = ws.
Proof. destruct ws. cbn. by intros ->. Qed.

Lemma assembled_init (s0 gs : Worksheet) (m : nat) :
  title s0 = "Interview" → title gs = "Global Ratings" →
  data_validations s0 = [] → data_validations gs = [] →
  assembled s0 gs m [] ([s0; gs], 67, 1).
Proof.
  intros Ht0 Ht1 Hv0 Hv1.
  exists []. cbn [fst snd coding_of global_of filter list_filter coding_rules
    global_rules imap length fmap list_fmap].
  rewrite !with_validations_eta by done. rewrite Ht0, Ht1.
  split_and!; try done; try lia.
  apply NoDup_cons. split; [| apply NoDup_singleton].
  by intros [=]%list_elem_of_singleton.
Qed.

(** A run of [ia2xl] that returns, taken apart: the two data sheets as
    their builders leave them, and the state of the loop at its end. *)
Lemma ia2xl_assembled (cfg : IaConfiguration) (iv : InterviewData) (wb : Workbook) :
  case_distinct ("Interview" :: "Global Ratings"
                   :: (sheet_name_of <$> coding_properties cfg
                                         ++ global_properties cfg)) →
  ia2xl cfg iv = Ok wb →
  ∃ s0 gs pc gr,
    _build_interview_sheet_ Workbook_new cfg iv = Ok ([s0], 0)
    ∧ _build_global_sheet_ [s0] cfg = Ok ([s0; gs], 1)
    ∧ ws_max_row s0 = S (length (utterances iv))
    ∧ title s0 = "Interview" ∧ title gs = "Global Ratings"
    ∧ assembled s0 gs (S (length (utterances iv)))
                (coding_properties cfg ++ global_properties cfg) (wb, pc, gr).
Proof.
  intros Hcd (s0 & gs & pc & gr & Hint & Hglo & Ht1 & Hv1 & Hloop)%ia2xl_data_sheets.
  pose proof Hint as Hint'.
  apply build_interview_sheet_inv
    in Hint' as (s0' & [= <-] & _ & _ & Hh & _ & Ht0 & Hv0).
  pose proof (interview_sheet_max_row cfg iv s0 Hh) as Hm.
  exists s0, gs, pc, gr. split_and!; try done.
  apply (assembled_loop s0 gs _ _ Hm [] _ _) in Hloop; [done | |].
  - by rewrite Ht0, Ht1.
  - by apply assembled_init.
Qed.

Lemma coding_of_classes (cps gps : list Property) :
  Forall (λ p, property_class p = CodingProperty) cps →
  Forall (λ p, property_class p = GlobalProperty) gps →
  coding_of (cps ++ gps) = cps ∧ global_of (cps ++ gps) = gps.
Proof.
  intros Hc Hg. unfold coding_of, global_of. rewrite !filter_app.
  assert (∀ (c : PropertyClass) (l : list Property),
            Forall (λ p, property_class p = c) l →
            filter (λ p, property_class p = c) l = l) as Hall.
  { intros c l H. induction H as [|q l Hq _ IH]; [done |].
    by rewrite filter_cons_True, IH. }
  assert (∀ (c c' : PropertyClass) (l : list Property),
            c ≠ c' → Forall (λ p, property_class p = c') l →
            filter (λ p, property_class p = c) l = []) as Hnone.
  { intros c c' l Hne H. induction H as [|q l Hq _ IH]; [done |].
    rewrite filter_cons_False; [done | congruence]. }
  rewrite (Hall _ _ Hc), (Hall _ _ Hg).
  rewrite (Hnone CodingProperty GlobalProperty gps) by done.
  rewrite (Hnone GlobalProperty CodingProperty cps) by done.
  by rewrite app_nil_r.
Qed.

(** X15.  The workbook that [ia2xl] assembles for a configuration whose
    sheet names differ by more than case, taken apart: sheet 0 is the
    interview sheet as its builder leaves it, with one rule per
    coding-property object, on columns D, E, ... down to the last row;
    sheet 1 is the global sheet as its builder leaves it, with one rule
    per global-property object, on cells B2, B3, ...; the sheets after
    them are the reference sheets of the properties, coding then global,
    each as the reference builder makes it on its own. *)
Theorem ia2xl_assembly (cfg : IaConfiguration) (iv : InterviewData) (wb : Workbook) :
  case_distinct ("Interview" :: "Global Ratings"
                   :: (sheet_name_of <$> coding_properties cfg
                                         ++ global_properties cfg)) →
  ia2xl cfg iv = Ok wb →
  ∃ s0 gs refs,
    _build_interview_sheet_ Workbook_new cfg iv = Ok ([s0], 0)
    ∧ _build_global_sheet_ [s0] cfg = Ok ([s0; gs], 1)
    ∧ Forall2 (λ p new, _append_validation_sheet_ [] p None = Ok ([new], Some 0))
              (coding_properties cfg ++ global_properties cfg) refs
    ∧ wb = with_validations
             (coding_rules (S (length (utterances iv)))
                (coding_of (coding_properties cfg ++ global_properties cfg))) s0
           :: with_validations
                (global_rules
                   (global_of (coding_properties cfg ++ global_properties cfg))) gs
           :: refs.
Proof.
  intros Hcd Hrun.
  destruct (ia2xl_assembled cfg iv wb Hcd Hrun)
    as (s0 & gs & pc & gr & Hint & Hglo & _ & _ & _ & (refs & Hwb & Hrefs & _)).
  exists s0, gs, refs. split_and!; done.
Qed.

(** X16.  The sheets of the workbook that [ia2xl] assembles for a
    configuration whose sheet names differ by more than case are named
    "Interview", "Global Ratings" and then, property by property,
    [{display_name}_{property_id}]; no two sheets share a name. *)
Theorem ia2xl_sheetnames (cfg : IaConfiguration) (iv : InterviewData)
  (wb : Workbook) :
  case_distinct ("Interview" :: "Global Ratings"
                   :: (sheet_name_of <$> coding_properties cfg
                                         ++ global_properties cfg)) →
  ia2xl cfg iv = Ok wb →
  sheetnames wb
  = "Interview" :: "Global Ratings"
    :: ((λ p, display_name p +:+ "_" +:+ property_id p)
          <$> coding_properties cfg ++ global_properties cfg)
  ∧ NoDup (sheetnames wb)
  ∧ length wb
    = 2 + length (coding_properties cfg) + length (global_properties cfg).
Proof.
  intros Hcd Hrun.
  destruct (ia2xl_assembled cfg iv wb Hcd Hrun)
    as (s0 & gs & pc & gr & Hint & Hglo & _ & Ht0 & Ht1 & Hasm).
  destruct Hasm as (refs & Hwb & Hrefs & _ & _ & _ & _ & _ & Hnd).
  cbn [fst snd] in Hwb. subst wb.
  assert (sheetnames (with_validations
                        (coding_rules (S (length (utterances iv)))
                           (coding_of (coding_properties cfg ++ global_properties cfg)))
                        s0
                      :: with_validations
                           (global_rules
                              (global_of (coding_properties cfg
                                          ++ global_properties cfg))) gs
                      :: refs)
          = "Interview" :: "Global Ratings"
            :: (sheet_name_of <$> coding_properties cfg ++ global_properties cfg))
    as Hnames.
  { cbn [sheetnames fmap list_fmap title with_validations].
    by rewrite Ht0, Ht1, (builds_titles _ _ Hrefs). }
  split_and!.
  - exact Hnames.
  - rewrite Hnames. by rewrite Ht0, Ht1 in Hnd.
  - cbn [length]. rewrite <- (Forall2_length _ _ _ Hrefs), length_app. lia.
Qed.

(** X17.  For a configuration whose sheet names differ by more than
    case, every property has its reference sheet in the workbook that
    [ia2xl] assembles, at index 2 + its position among the coding
    properties followed by the global ones: hidden, protected under its
    own name as the password, fully locked, without rules, one row per
    value under the header, the values being those of the property
    coerced to its declared type, texts cut at 32767 characters. *)
Theorem ia2xl_reference_sheets (cfg : IaConfiguration) (iv : InterviewData)
  (wb : Workbook) (i : nat) (p : Property) :
  case_distinct ("Interview" :: "Global Ratings"
                   :: (sheet_name_of <$> coding_properties cfg
                                         ++ global_properties cfg)) →
  ia2xl cfg iv = Ok wb →
  (coding_properties cfg ++ global_properties cfg) !! i = Some p →
  ∃ ws,
    wb !! (2 + i) = Some ws
    ∧ title ws = display_name p +:+ "_" +:+ property_id p
    ∧ sheet_state ws = "hidden"
    ∧ protection_sheet ws = true
    ∧ protection_password ws = Some (title ws)
    ∧ data_validations ws = []
    ∧ (∀ r c, is_unlocked ws r c = false)
    ∧ ws_max_row ws = length (property_values p) + 1
    ∧ ∀ k pv, property_values p !! k = Some pv →
        (∃ v, coerced p pv v ∧ shown ws (k + 2) 1 = stored v)
        ∧ shown ws (k + 2) 2 = VStr (str_take 32767 (description pv)).
Proof.
  intros Hcd Hrun Hp.
  destruct (ia2xl_assembled cfg iv wb Hcd Hrun)
    as (s0 & gs & pc & gr & _ & _ & _ & _ & _ & Hasm).
  destruct Hasm as (refs & Hwb & Hrefs & _).
  cbn [fst snd] in Hwb. subst wb.
  destruct (Forall2_lookup_l _ _ _ _ _ Hrefs Hp) as (ws & Hws & Hb).
  apply builds_inv in Hb
    as (Ht & Hmr & Hst & Hps & Hpw & Hdv & _ & Hlocked & vs & Hvs & Hh).
  exists ws. split_and!; try done.
  - by rewrite Ht.
  - rewrite Hmr. lia.
  - intros k pv Hpv.
    destruct (Forall2_lookup_l _ _ _ _ _ Hvs Hpv) as (v & Hv & Hc).
    rewrite !(holds_rows_shown _ _ _ _ Hh).
    replace (k + 2) with (S (S k)) by lia.
    change (grid_lookup (REFERENCE_HEADER :: ?rows) (S (S k)) ?c)
      with (grid_lookup rows (S k) c).
    cbn [grid_lookup]. rewrite lookup_zip_with, Hpv. cbn. rewrite Hv. cbn.
    split; [by exists v | done].
Qed.

Lemma build_global_sheet_after_interview_cells (s0 gs : Worksheet)
  (cfg : IaConfiguration) :
  _build_global_sheet_ [s0] cfg = Ok ([s0; gs], 1) →
  (∀ r c, is_unlocked gs r c = true
          ↔ c = 2 ∧ 1 ≤ r ≤ length (global_properties cfg) + 1)
  ∧ (∀ r c, shown gs r c
            = default VNone
                (grid_lookup (global_grid (global_properties cfg)) r c)).
Proof.
  intros Hret. pose proof (build_global_sheet_legal _ _ _ _ Hret) as Hl.
  destruct (build_global_sheet_run [s0] cfg Hl) as (gs1 & Hrun & Hu & _).
  destruct (build_global_sheet_cells [s0] cfg Hl)
    as (gs2 & Hrun' & _ & _ & Hshown & _).
  assert (gs1 = gs) as -> by (rewrite Hrun in Hret; by injection Hret).
  assert (gs2 = gs) as -> by (rewrite Hrun' in Hret; by injection Hret).
  done.
Qed.

(** X18.  The wiring and the data sheets agree on the locations: in the
    workbook that [ia2xl] assembles for a configuration whose sheet
    names differ by more than case, the rule of the k-th coding
    property refers to the reference sheet of that property and targets
    the column whose header cell shows its name, from row 2 to the last
    row; the rule of the j-th global property refers to the reference
    sheet of that property and targets the B cell of the row that shows
    its name.  The names shown are cut at 32767 characters. *)
Theorem ia2xl_wiring_agrees (cfg : IaConfiguration) (iv : InterviewData)
  (wb : Workbook) :
  Forall (λ p, property_class p = CodingProperty) (coding_properties cfg) →
  Forall (λ p, property_class p = GlobalProperty) (global_properties cfg) →
  case_distinct ("Interview" :: "Global Ratings"
                   :: (sheet_name_of <$> coding_properties cfg
                                         ++ global_properties cfg)) →
  ia2xl cfg iv = Ok wb →
  (∀ k cp, coding_properties cfg !! k = Some cp →
     shown (sheet_at wb 0) 1 (4 + k) = VStr (str_take 32767 (display_name cp))
     ∧ data_validations (sheet_at wb 0) !! k
       = Some (rule_for cp (mkCellRange (4 + k) 2 (4 + k)
                                        (length (utterances iv) + 1))))
  ∧ (∀ j gp, global_properties cfg !! j = Some gp →
       shown (sheet_at wb 1) (2 + j) 1 = VStr (str_take 32767 (display_name gp))
       ∧ data_validations (sheet_at wb 1) !! j
         = Some (rule_for gp (mkCellRange 2 (2 + j) 2 (2 + j))))
  ∧ length (data_validations (sheet_at wb 0)) = length (coding_properties cfg)
  ∧ length (data_validations (sheet_at wb 1)) = length (global_properties cfg).
Proof.
  intros Hcod Hglo Hcd Hrun.
  destruct (ia2xl_assembled cfg iv wb Hcd Hrun)
    as (s0 & gs & pc & gr & Hint & Hgs & _ & _ & _ & Hasm).
  destruct Hasm as (refs & Hwb & _).
  cbn [fst snd] in Hwb. subst wb.
  destruct (coding_of_classes _ _ Hcod Hglo) as [-> ->].
  apply build_interview_sheet_inv in Hint as (s0' & [= <-] & _ & _ & Hh & _).
  destruct (build_global_sheet_after_interview_cells s0 gs cfg Hgs) as [_ Hshown].
  cbn [sheet_at lookup list_lookup default from_option id].
  split_and!.
  - intros k cp Hcp. split.
    + change (shown (with_validations ?dvs s0) ?r ?c) with (shown s0 r c).
      rewrite (holds_rows_shown _ _ _ _ Hh).
      change (grid_lookup (kept_headers cfg :: ?t) 1 (4 + k))
        with (kept_headers cfg !! (3 + k)).
      unfold kept_headers, column_headers_of. rewrite list_lookup_fmap.
      rewrite lookup_app_r by (simpl; lia).
      replace (3 + k - length [VStr "Line"; VStr "Utt"; VStr "Role"]) with k
        by (simpl; lia).
      rewrite lookup_app_l by (rewrite length_fmap; by eapply lookup_lt_Some).
      by rewrite list_lookup_fmap, Hcp.
    + cbn [data_validations with_validations]. unfold coding_rules.
      rewrite list_lookup_imap, Hcp. cbn. by rewrite Nat.add_1_r.
  - intros j gp Hgp. split.
    + change (shown (with_validations ?dvs gs) ?r ?c) with (shown gs r c).
      rewrite Hshown. unfold global_grid.
      change (grid_lookup (?h :: ?t) (2 + j) 1) with (t !! j ≫= (.!! 0)).
      by rewrite list_lookup_fmap, Hgp.
    + cbn [data_validations with_validations]. unfold global_rules.
      by rewrite list_lookup_imap, Hgp.
  - cbn [data_validations with_validations]. unfold coding_rules.
    by rewrite length_imap.
  - cbn [data_validations with_validations]. unfold global_rules.
    by rewrite length_imap.
Qed.

(** The loop over the properties changes the two data sheets in their
    rules only. *)
Lemma ia2xl_step_cells (wb : Workbook) (pc gr : nat) (p : Property)
  (st' : Workbook * nat * nat) :
  2 ≤ length wb →
  ia2xl_step 0 1 (wb, pc, gr) p = Ok st' →
  2 ≤ length st'.1.1
  ∧ _cells (sheet_at st'.1.1 0) = _cells (sheet_at wb 0)
  ∧ _cells (sheet_at st'.1.1 1) = _cells (sheet_at wb 1).
Proof.
  intros Hlen (new & pc' & gr' & idx & h & cr & _ & _ & Hmode & ->)%ia2xl_step_inv.
  cbn [fst snd]. rewrite length_insert, length_app.
  destruct (bool_decide _).
  - destruct Hmode as (_ & _ & _ & -> & _).
    rewrite (sheet_at_insert_ne _ 1 0), sheet_at_insert by (rewrite ?length_app; lia).
    rewrite !sheet_at_app by lia. split_and!; [lia | done | done].
  - destruct Hmode as (_ & _ & _ & -> & _).
    rewrite (sheet_at_insert_ne _ 0 1), sheet_at_insert by (rewrite ?length_app; lia).
    rewrite !sheet_at_app by lia. split_and!; [lia | done | done].
Qed.

Lemma ia2xl_loop_cells (ps : list Property) :
  ∀ (st st' : Workbook * nat * nat),
    2 ≤ length st.1.1 →
    for_each (ia2xl_step 0 1) st ps = Ok st' →
    _cells (sheet_at st'.1.1 0) = _cells (sheet_at st.1.1 0)
    ∧ _cells (sheet_at st'.1.1 1) = _cells (sheet_at st.1.1 1).
Proof.
  induction ps as [|p ps IH]; intros st st' Hlen Hrun.
  - by injection Hrun as <-.
  - rewrite for_each_cons in Hrun.
    destruct (ia2xl_step 0 1 st p) as [st1|] eqn:Hstep; [| done].
    cbn [mbind result_bind] in Hrun. destruct st as [[wb pc] gr].
    destruct (ia2xl_step_cells _ _ _ _ _ Hlen Hstep) as (Hlen1 & E0 & E1).
    destruct (IH _ _ Hlen1 Hrun) as [-> ->]. done.
Qed.

(** X19.  The wiring leaves the locks as the builders set them.  In the
    workbook that [ia2xl] assembles every cell targeted by a rule of the
    global sheet is unlocked; of the cells targeted by a rule of the
    interview sheet, rows 2 to n + 1 of a coding column, all are unlocked
    but the last: the cell of the last utterance is validated and
    locked. *)
Theorem ia2xl_entry_cells (cfg : IaConfiguration) (iv : InterviewData)
  (wb : Workbook) :
  Forall (λ p, property_class p = CodingProperty) (coding_properties cfg) →
  Forall (λ p, property_class p = GlobalProperty) (global_properties cfg) →
  ia2xl cfg iv = Ok wb →
  (∀ r c, is_unlocked (sheet_at wb 0) r c = true
          ↔ 1 ≤ r ≤ length (utterances iv)
            ∧ 4 ≤ c ≤ 3 + length (coding_properties cfg))
  ∧ (∀ r c, is_unlocked (sheet_at wb 1) r c = true
            ↔ c = 2 ∧ 1 ≤ r ≤ length (global_properties cfg) + 1)
  ∧ (∀ cr, cr ∈ validated_ranges (sheet_at wb 1) →
       is_unlocked (sheet_at wb 1) (min_row cr) (min_col cr) = true)
  ∧ (∀ cr r, cr ∈ validated_ranges (sheet_at wb 0) →
       min_row cr ≤ r ≤ max_row cr →
       (is_unlocked (sheet_at wb 0) r (min_col cr) = true ↔ r < max_row cr)).
Proof.
  intros Hcod Hglo Hrun.
  destruct (ia2xl_inv cfg iv wb Hcod Hglo Hrun)
    as (pc' & gr' & _ & _ & _ & _ & _ & _ & _ & Hv0 & Hv1).
  cbn [fst snd] in Hv0, Hv1.
  apply ia2xl_data_sheets in Hrun as (s0 & gs & pc & gr & Hint & Hgs & _ & _ & Hloop).
  apply ia2xl_loop_cells in Hloop as [E0 E1]; [| simpl; lia].
  cbn [fst snd sheet_at lookup list_lookup default from_option id] in E0, E1.
  apply build_interview_sheet_inv in Hint as (s0' & [= <-] & _ & _ & _ & Hu0 & _).
  destruct (build_global_sheet_after_interview_cells s0 gs cfg Hgs) as [Hu1 _].
  assert (∀ r c, is_unlocked (sheet_at wb 0) r c = is_unlocked s0 r c) as Hsame0
    by (intros; by apply is_unlocked_frame).
  assert (∀ r c, is_unlocked (sheet_at wb 1) r c = is_unlocked gs r c) as Hsame1
    by (intros; by apply is_unlocked_frame).
  split_and!.
  - intros r c. by rewrite Hsame0.
  - intros r c. by rewrite Hsame1.
  - intros cr Hcr. rewrite Hv1 in Hcr.
    apply list_elem_of_fmap in Hcr as (row & -> & Hrow%elem_of_seq).
    cbn [min_row min_col]. rewrite Hsame1. apply Hu1. lia.
  - intros cr r Hcr Hr. rewrite Hv0 in Hcr.
    apply list_elem_of_fmap in Hcr as (col & -> & Hcol%elem_of_seq).
    cbn [min_row min_col max_row] in *. rewrite Hsame0, Hu0. lia.
Qed.




(** ** The first property that fails *)


Lemma ia2xl_step_ill_typed (u g : nat) (wb : Workbook) (pc gr : nat) (p : Property)
  (pre post : list PropertyValue) (pv : PropertyValue) :
  sheet_name_of p ∉ sheetnames wb →
  property_values p = pre ++ pv :: post →
  Forall (well_typed_value p) pre → Forall (legal_texts p) pre →
  ¬ well_typed_value p pv →
  ∃ msg, ia2xl_step u g (wb, pc, gr) p = Raise (ValueError msg).
Proof.
  intros Hfresh Hvalues Hty Hl Hbad. unfold ia2xl_step, _append_validation_sheet_.
  rewrite (bool_decide_eq_true_2 (sheet_name_of p ∉ sheetnames wb)) by done.
  destruct (valid_title (sheet_name_of p)) eqn:Hv.
  - rewrite (proj2 (create_sheet_end wb _ (sheet_name_of p) _ (sheet_name_nonempty p))
                   (conj Hv (conj eq_refl eq_refl))).
    cbn [mbind result_bind]. rewrite sheet_at_new, header_append.
    cbn [mbind result_bind]. rewrite Hvalues.
    destruct (reference_loop_raises p pre post pv Hty Hl Hbad
                (store_row REFERENCE_HEADER
                   (Worksheet_new (avoid_duplicate_name (sheetnames wb)
                                     (sheet_name_of p)))))
      as [msg ->].
    by exists msg.
  - destruct (create_sheet_end_Raise wb _ (sheet_name_nonempty p) Hv) as [msg ->].
    by exists msg.
Qed.

(** A run of [ia2xl] up to a property [p], all being well before it:
    the workbook that the turn of [p] starts from, and what happens when
    that turn raises. *)
Lemma ia2xl_fails_at (cfg : IaConfiguration) (iv : InterviewData)
  (pre post : list Property) (p : Property) :
  Forall (λ p, property_class p = CodingProperty) (coding_properties cfg) →
  Forall (λ p, property_class p = GlobalProperty) (global_properties cfg) →
  coding_properties cfg ++ global_properties cfg = pre ++ p :: post →
  length (coding_properties cfg) ≤ 23 →
  (coding_properties cfg ≠ [] →
   utterances iv ≠ [] ∧ (N.of_nat (length (utterances iv) + 1) ≤ MAX_ROW)%N) →
  (N.of_nat (length (global_properties cfg) + 1) ≤ MAX_ROW)%N →
  NoDup (py_lower <$> "Interview" :: "Global Ratings" :: (sheet_name_of <$> pre)) →
  Forall accepted pre →
  legal_names (coding_properties cfg ++ global_properties cfg) →
  Forall legal_utterance (utterances iv) →
  ∃ wb1 pc1 gr1,
    sheetnames wb1 = "Interview" :: "Global Ratings" :: (sheet_name_of <$> pre)
    ∧ pc1 ≤ 90
    ∧ ∀ e, ia2xl_step 0 1 (wb1, pc1, gr1) p = Raise e → ia2xl cfg iv = Raise e.
Proof.
  intros Hcod Hglo Heq Hk Hrows Hg Hnd Hacc [Hln Hlg]%Forall_app Hlu. unfold ia2xl.
  destruct (build_interview_sheet_total cfg iv Hk Hln Hlu) as (wb0 & h0 & Hint).
  rewrite Hint. cbn [mbind result_bind].
  apply build_interview_sheet_inv
    in Hint as (s0 & -> & -> & _ & Hh & _ & Ht0 & Hv0).
  destruct (build_global_sheet_after_interview s0 cfg Ht0 Hlg) as (gs & -> & Ht1 & Hv1).
  cbn [mbind result_bind]. rewrite Heq, for_each_app.
  pose proof (interview_sheet_max_row cfg iv s0 Hh) as Hm.
  assert (count_class CodingProperty pre ≤ length (coding_properties cfg)
          ∧ count_class GlobalProperty pre ≤ length (global_properties cfg))
    as [Hcc Hgc].
  { pose proof (count_class_app CodingProperty pre (p :: post)) as E1.
    pose proof (count_class_app GlobalProperty pre (p :: post)) as E2.
    rewrite <- Heq, count_class_app in E1, E2.
    rewrite (count_class_all _ _ Hcod) in E1.
    rewrite (count_class_none CodingProperty GlobalProperty) in E1 by done.
    rewrite (count_class_all _ _ Hglo) in E2.
    rewrite (count_class_none GlobalProperty CodingProperty) in E2 by done.
    lia. }
  destruct (ia2xl_loop_run (S (length (utterances iv))) pre
              ([s0; gs], 67, 1) 0 0) as (st1 & Hloop).
  - unfold orchestrated, validated_ranges. cbn [fst snd length sheet_at lookup
      list_lookup default from_option id].
    rewrite Ht0, Ht1, Hv0, Hv1, Hm. split_and!; try done; lia.
  - cbn [fst snd sheetnames fmap list_fmap]. by rewrite Ht0, Ht1.
  - done.
  - lia.
  - intros Hpos.
    destruct Hrows as [Hne HM];
      [by destruct (coding_properties cfg); [simpl in Hcc; lia |] |].
    split; [destruct (utterances iv); [done | simpl; lia] |].
    by rewrite Nat.add_1_r in HM.
  - lia.
  - rewrite Hloop. cbn [mbind result_bind]. rewrite for_each_cons.
    assert (case_distinct (title s0 :: title gs :: (sheet_name_of <$> [] ++ pre)))
      as Hcd.
    { rewrite Ht0, Ht1. cbn [app]. by apply NoDup_lower_case_distinct. }
    pose proof (assembled_loop s0 gs _ pre Hm [] _ _ Hcd
                  (assembled_init s0 gs _ Ht0 Ht1 Hv0 Hv1) Hloop) as Hasm.
    destruct st1 as [[wb1 pc1] gr1].
    destruct Hasm as (refs & Hwb & Hrefs & Hpc & _ & Hk1 & _).
    cbn [fst snd app] in Hwb, Hpc, Hk1.
    exists wb1, pc1, gr1. split_and!.
    + rewrite Hwb. cbn [sheetnames fmap list_fmap title with_validations].
      by rewrite Ht0, Ht1, (builds_titles _ _ Hrefs).
    + lia.
    + by intros e ->.
Qed.


(** X22.  A value that is not a literal of the declared type of its property
    ends the conversion.  When a property is the first to hold such a
    value, its name being free, the values before it being accepted and
    all being well before the property (as above), [ia2xl] raises a
    ValueError. *)
Theorem ia2xl_bad_value (cfg : IaConfiguration) (iv : InterviewData)
  (pre post : list Property) (p : Property)
  (vpre vpost : list PropertyValue) (pv : PropertyValue) :
  Forall (λ p, property_class p = CodingProperty) (coding_properties cfg) →
  Forall (λ p, property_class p = GlobalProperty) (global_properties cfg) →
  coding_properties cfg ++ global_properties cfg = pre ++ p :: post →
  length (coding_properties cfg) ≤ 23 →
  (coding_properties cfg ≠ [] →
   utterances iv ≠ [] ∧ (N.of_nat (length (utterances iv) + 1) ≤ MAX_ROW)%N) →
  (N.of_nat (length (global_properties cfg) + 1) ≤ MAX_ROW)%N →
  NoDup (py_lower <$> "Interview" :: "Global Ratings" :: (sheet_name_of <$> pre)) →
  Forall accepted pre →
  legal_names (coding_properties cfg ++ global_properties cfg) →
  Forall legal_utterance (utterances iv) →
  sheet_name_of p ∉ "Interview" :: "Global Ratings" :: (sheet_name_of <$> pre) →
  property_values p = vpre ++ pv :: vpost →
  Forall (well_typed_value p) vpre → Forall (legal_texts p) vpre →
  ¬ well_typed_value p pv →
  ∃ msg, ia2xl cfg iv = Raise (ValueError msg).
Proof.
  intros Hcod Hglo Heq Hk Hrows Hg Hnd Hacc Hln Hlu Hfresh Hvalues Hty Hl Hbad.
  destruct (ia2xl_fails_at cfg iv pre post p Hcod Hglo Heq Hk Hrows Hg Hnd Hacc Hln Hlu)
    as (wb1 & pc1 & gr1 & Hnames & Hpc & Hfail).
  destruct (ia2xl_step_ill_typed 0 1 wb1 pc1 gr1 p vpre vpost pv) as [msg Hstep];
    try done.
  - by rewrite Hnames.
  - exists msg. by apply Hfail.
Qed.

End Program.

(** * The statements at concrete inputs

    The library functions are taken on plain text: [decimal_int],
    [decimal_float], [quote_plain], [ascii_lower], [plain_findall]. *)

(** The scenario of one numeric coding property (values 1, 2, 3) and
    one global property (values Low, High) with two utterances: column D
    of the interview sheet is validated against rows 2 to 4 of
    [Intensity_P1], cell B2 of the global sheet against rows 2 to 3 of
    [Engagement_G1]. *)
Lemma scenario_validations :
  ∃ wb,
    ia2xl decimal_int decimal_float quote_plain ascii_lower plain_findall scenario_cfg
        scenario_iv = Ok wb
    ∧ sheetnames wb = ["Interview"; "Global Ratings"; "Intensity_P1"; "Engagement_G1"]
    ∧ data_validations (sheet_at wb 0)
      = [mkDataValidation "list" "'Intensity_P1'!$A$2:$A$4" true
                          [mkCellRange 4 2 4 3]]
    ∧ data_validations (sheet_at wb 1)
      = [mkDataValidation "list" "'Engagement_G1'!$A$2:$A$3" true
                          [mkCellRange 2 2 2 2]].
Proof. eexists. split; [vm_compute; reflexivity |]. vm_compute. tauto. Qed.

(** C1.  Two properties whose names collide: the builder returns no
    sheet for the second one, the orchestrator passes that [None] on to
    the validation wiring, and the conversion ends in an AttributeError
    instead of a workbook. *)
Theorem duplicate_sheet_aborts :
  ia2xl decimal_int decimal_float quote_plain ascii_lower plain_findall colliding_cfg
      scenario_iv
  = Raise (AttributeError "'NoneType' object has no attribute 'title'").
Proof. vm_compute. reflexivity. Qed.

(** C2.  One coding property, two utterances: the header cell D1 is
    unlocked, and so is D2, but D3, the cell of the second utterance,
    stays locked. *)
Theorem interview_unlock_off_by_one :
  ∃ wb h,
    _build_interview_sheet_ decimal_int ascii_lower plain_findall Workbook_new
        scenario_cfg scenario_iv = Ok (wb, h)
    ∧ value_at (sheet_at wb h) 1 4 = Some (VStr "Intensity")
    ∧ is_unlocked (sheet_at wb h) 1 4 = true
    ∧ is_unlocked (sheet_at wb h) 2 4 = true
    ∧ value_at (sheet_at wb h) 3 5 = Some (VStr "Hi")
    ∧ is_unlocked (sheet_at wb h) 3 4 = false.
Proof. eexists _, _. split; [vm_compute; reflexivity |]. vm_compute. tauto. Qed.

(** C8.  A workbook that holds the sheet "Tone_1", and the property
    whose derived name is "tone_1", requested twice: openpyxl titles the
    first sheet "tone_11", the derived name stays free, and the second
    request appends one more sheet, "tone_12"; no sheet is named
    "tone_1". *)
Theorem reference_sheet_requested_twice :
  ∃ wb0 wb1 wb2,
    _append_validation_sheet_ decimal_int decimal_float ascii_lower plain_findall
        Workbook_new upper_property None
    = Ok (wb0, Some 1)
    ∧ _append_validation_sheet_ decimal_int decimal_float ascii_lower plain_findall wb0
        lower_property None = Ok (wb1, Some 2)
    ∧ _append_validation_sheet_ decimal_int decimal_float ascii_lower plain_findall wb1
        lower_property None = Ok (wb2, Some 3)
    ∧ sheetnames wb0 = ["Sheet"; "Tone_1"]
    ∧ sheetnames wb1 = ["Sheet"; "Tone_1"; "tone_11"]
    ∧ sheetnames wb2 = ["Sheet"; "Tone_1"; "tone_11"; "tone_12"]
    ∧ sheet_name_of lower_property = "tone_1".
Proof.
  eexists _, _, _. split; [vm_compute; reflexivity |].
  split; [vm_compute; reflexivity |]. split; [vm_compute; reflexivity |].
  vm_compute. tauto.
Qed.

Ltac literal_values :=
  repeat match goal with
  | |- Forall _ _ => first [apply Forall_nil_2 | apply Forall_cons_2]
  | |- accepted _ _ _ => split_and!; [reflexivity | |]
  | |- well_typed_value _ _ _ _ =>
      split; intros Hn Hd;
      first [ discriminate Hn | discriminate Hd
            | exfalso; apply Hd; reflexivity
            | vm_compute; eexists; reflexivity ]
  | |- legal_texts _ _ => split_and!; [intros _ | | |]; reflexivity
  | |- legal_utterance _ => split; reflexivity
  | |- legal_text _ = true => reflexivity
  | |- legal_names _ => unfold legal_names
  end.

(** The reference sheets of three properties, appended to a new
    workbook: a numeric property without decimal digits (values 1 and
    2), a numeric property with a decimal digit (values 0.5 and 1.5),
    and a text property (values Low and High). *)
Lemma reference_sheet_contents_witness :
  (∃ new,
     _append_validation_sheet_ decimal_int decimal_float ascii_lower plain_findall
         Workbook_new
       (mkProperty CodingProperty "Intensity" "P1" "numeric" 0
          [mkPropertyValue "1" "low" "v1" "P1"; mkPropertyValue "2" "mid" "v2" "P1"])
       None
     = Ok (Workbook_new ++ [new], Some 1)
     ∧ title new = "Intensity_P1"
     ∧ ws_values new
       = [[VStr "property_value"; VStr "property_description";
           VStr "property_value_id"; VStr "property_id"];
          [VInt 1; VStr "low"; VStr "v1"; VStr "P1"];
          [VInt 2; VStr "mid"; VStr "v2"; VStr "P1"]])
  ∧ (∃ new,
       _append_validation_sheet_ decimal_int decimal_float ascii_lower plain_findall
           Workbook_new share_property None
       = Ok (Workbook_new ++ [new], Some 1)
       ∧ title new = "Share_P2"
       ∧ ws_values new
         = [[VStr "property_value"; VStr "property_description";
             VStr "property_value_id"; VStr "property_id"];
            [VFloat (S754_finite false 4503599627370496 (-53)); VStr "half";
             VStr "v3"; VStr "P2"];
            [VFloat (S754_finite false 6755399441055744 (-52)); VStr "";
             VStr "v4"; VStr "P2"]])
  ∧ (∃ new,
       _append_validation_sheet_ decimal_int decimal_float ascii_lower plain_findall
           Workbook_new
         (mkProperty GlobalProperty "Engagement" "G1" "text" 0
            [mkPropertyValue "Low" "" "g1" "G1"; mkPropertyValue "High" "" "g2" "G1"])
         None
       = Ok (Workbook_new ++ [new], Some 1)
       ∧ title new = "Engagement_G1"
       ∧ ws_values new
         = [[VStr "property_value"; VStr "property_description";
             VStr "property_value_id"; VStr "property_id"];
            [VStr "Low"; VStr ""; VStr "g1"; VStr "G1"];
            [VStr "High"; VStr ""; VStr "g2"; VStr "G1"]]).
Proof.
  split_and!.
  - destruct (reference_sheet_contents decimal_int decimal_float ascii_lower
      plain_findall Workbook_new
                (mkProperty CodingProperty "Intensity" "P1" "numeric" 0
                   [mkPropertyValue "1" "low" "v1" "P1";
                    mkPropertyValue "2" "mid" "v2" "P1"]) None)
      as (new & vs & Hrun & Ht & Hvs & Hval);
      [reflexivity | compute_done | literal_values | literal_values |].
    exists new. split_and!; [exact Hrun | exact Ht |].
    rewrite Hval. clear Hval Hrun Ht.
    inversion Hvs as [|? v1 ? vs1 [H1 _] Hvs1]; subst.
    inversion Hvs1 as [|? v2 ? vs2 [H2 _] Hvs2]; subst.
    inversion Hvs2; subst.
    destruct (H1 eq_refl eq_refl) as (z1 & E1 & ->).
    destruct (H2 eq_refl eq_refl) as (z2 & E2 & ->).
    vm_compute in E1, E2. injection E1 as <-. injection E2 as <-. reflexivity.
  - destruct (reference_sheet_contents decimal_int decimal_float ascii_lower
      plain_findall Workbook_new share_property None)
      as (new & vs & Hrun & Ht & Hvs & Hval);
      [reflexivity | compute_done | literal_values | literal_values |].
    exists new. split_and!; [exact Hrun | exact Ht |].
    rewrite Hval. clear Hval Hrun Ht.
    inversion Hvs as [|? v1 ? vs1 (_ & H1 & _) Hvs1]; subst.
    inversion Hvs1 as [|? v2 ? vs2 (_ & H2 & _) Hvs2]; subst.
    inversion Hvs2; subst.
    destruct (H1 eq_refl ltac:(done)) as (z1 & E1 & ->).
    destruct (H2 eq_refl ltac:(done)) as (z2 & E2 & ->).
    vm_compute in E1, E2. injection E1 as <-. injection E2 as <-. reflexivity.
  - destruct (reference_sheet_contents decimal_int decimal_float ascii_lower
      plain_findall Workbook_new
                (mkProperty GlobalProperty "Engagement" "G1" "text" 0
                   [mkPropertyValue "Low" "" "g1" "G1";
                    mkPropertyValue "High" "" "g2" "G1"]) None)
      as (new & vs & Hrun & Ht & Hvs & Hval);
      [reflexivity | compute_done | literal_values | literal_values |].
    exists new. split_and!; [exact Hrun | exact Ht |].
    rewrite Hval. clear Hval Hrun Ht.
    inversion Hvs as [|? v1 ? vs1 (_ & _ & H1) Hvs1]; subst.
    inversion Hvs1 as [|? v2 ? vs2 (_ & _ & H2) Hvs2]; subst.
    inversion Hvs2; subst.
    rewrite (H1 ltac:(done)), (H2 ltac:(done)). reflexivity.
Defined.

(** Four properties whose names are free.  The name of the first holds
    a slash, a description of the second holds a control character, a
    value of the third is no number: the builder creates no sheet.  The
    name of the fourth equals a sheet name up to case: its sheet is
    titled "tone_11", not "tone_1". *)
Lemma reference_sheet_contents_counterexample :
  ((sheet_name_of slash_property ∉ sheetnames Workbook_new)
   ∧ _append_validation_sheet_ decimal_int decimal_float ascii_lower plain_findall
       Workbook_new slash_property None
     = Raise (ValueError "Invalid character / found in sheet title"))
  ∧ ((sheet_name_of bell_property ∉ sheetnames Workbook_new)
     ∧ _append_validation_sheet_ decimal_int decimal_float ascii_lower plain_findall
         Workbook_new bell_property None
       = Raise (IllegalCharacterError
                  (String "007"%char " cannot be used in worksheets.")))
  ∧ ((sheet_name_of mistyped_property ∉ sheetnames Workbook_new)
     ∧ _append_validation_sheet_ decimal_int decimal_float ascii_lower plain_findall
         Workbook_new mistyped_property None
       = Raise (ValueError "invalid literal for int() with base 10: 'fast'"))
  ∧ ∃ wb0 new,
      _append_validation_sheet_ decimal_int decimal_float ascii_lower plain_findall
          Workbook_new upper_property None
      = Ok (wb0, Some 1)
      ∧ (sheet_name_of lower_property ∉ sheetnames wb0)
      ∧ _append_validation_sheet_ decimal_int decimal_float ascii_lower plain_findall
          wb0 lower_property None
        = Ok (wb0 ++ [new], Some 2)
      ∧ sheet_name_of lower_property = "tone_1"
      ∧ title new = "tone_11".
Proof.
  split_and!; [compute_done | by vm_compute | compute_done | by vm_compute
              | compute_done | by vm_compute |].
  eexists _, _. split; [vm_compute; reflexivity |].
  split; [compute_done |]. split; [vm_compute; reflexivity |]. by vm_compute.
Qed.

(** Column D of a data sheet of three rows wired to a reference sheet of
    two rows. *)
Lemma validation_rule_shape_witness :
  ∃ ds' target,
    _set_validation_ quote_plain sample_data_sheet "D"
                     (Some sample_reference_sheet) false = Ok ds'
    ∧ data_validations ds'
      = [mkDataValidation "list" "'Engagement_G1'!$A$2:$A$2" true [target]]
    ∧ target = mkCellRange 4 2 4 3.
Proof.
  destruct (validation_rule_shape quote_plain sample_data_sheet
              (add_data_validation
                 (mkDataValidation "list" "'Engagement_G1'!$A$2:$A$2" true
                                   [mkCellRange 4 2 4 3])
                 sample_data_sheet)
              "D" (Some sample_reference_sheet) false)
    as (vs & target & Hvs & Hdv & _ & Hcol).
  - vm_compute. reflexivity.
  - exists (add_data_validation
              (mkDataValidation "list" "'Engagement_G1'!$A$2:$A$2" true
                                [mkCellRange 4 2 4 3])
              sample_data_sheet), target.
    split_and!.
    + vm_compute. reflexivity.
    + injection Hvs as <-. rewrite Hdv. vm_compute. reflexivity.
    + rewrite (Hcol eq_refl eq_refl). vm_compute. reflexivity.
Defined.


(** The interview sheet of the scenario. *)
Lemma interview_sheet_layout_witness :
  ∃ wb h,
    _build_interview_sheet_ decimal_int ascii_lower plain_findall Workbook_new
        scenario_cfg scenario_iv = Ok (wb, h)
    ∧ ws_values (sheet_at wb h)
      = [[VStr "Line"; VStr "Utt"; VStr "Role"; VStr "Intensity"; VStr "Text"];
         [VInt 1; VInt 1; VStr "T"; VNone; VStr "Hello"];
         [VInt 2; VInt 2; VStr "C"; VNone; VStr "Hi"]].
Proof.
  destruct (_build_interview_sheet_ decimal_int ascii_lower plain_findall Workbook_new
      scenario_cfg scenario_iv)
    as [[wb h]|e] eqn:Hrun; [| by vm_compute in Hrun].
  exists wb, h. split; [done |].
  by rewrite (interview_sheet_layout decimal_int ascii_lower plain_findall scenario_cfg
      scenario_iv wb h Hrun).
Defined.

(** An utterance whose text has 32768 characters: the builder returns,
    and the text cell of its row holds another text, of 32767
    characters. *)
Lemma interview_sheet_layout_counterexample :
  ∃ wb h kept,
    _build_interview_sheet_ decimal_int ascii_lower plain_findall Workbook_new
        (mkIaConfiguration [] []) long_iv
    = Ok (wb, h)
    ∧ shown (sheet_at wb h) 2 4 = VStr kept
    ∧ py_len kept = 32767%N
    ∧ py_len long_text = 32768%N
    ∧ VStr kept ≠ VStr long_text.
Proof.
  destruct (build_interview_sheet_total decimal_int ascii_lower plain_findall
      (mkIaConfiguration [] []) long_iv)
    as (wb & h & Hrun); [simpl; lia | constructor | |].
  { constructor; [split; by vm_compute | constructor]. }
  exists wb, h, (str_take 32767 long_text). split; [exact Hrun |].
  apply build_interview_sheet_inv in Hrun as (sheet & -> & -> & _ & Hh & _).
  split_and!.
  - change (sheet_at [sheet] 0) with sheet.
    by rewrite (holds_rows_shown _ _ _ _ Hh).
  - by vm_compute.
  - by vm_compute.
  - intros E.
    apply (f_equal (λ v, match v with VStr s => py_len s | _ => 0%N end)) in E.
    by vm_compute in E.
Qed.




(** The global sheet of the scenario: B1 and B2 are unlocked, A2 and B3
    are not. *)
Lemma global_sheet_unlocked_cells_witness :
  ∃ wb h,
    _build_global_sheet_ decimal_int ascii_lower plain_findall [sample_data_sheet]
        scenario_cfg = Ok (wb, h)
    ∧ is_unlocked (sheet_at wb h) 1 2 = true
    ∧ is_unlocked (sheet_at wb h) 2 2 = true
    ∧ is_unlocked (sheet_at wb h) 2 1 = false
    ∧ value_at (sheet_at wb h) 1 2 = Some (VStr "Rating").
Proof.
  destruct (_build_global_sheet_ decimal_int ascii_lower plain_findall
      [sample_data_sheet] scenario_cfg)
    as [[wb h]|e] eqn:Hrun; [| by vm_compute in Hrun].
  destruct (global_sheet_unlocked_cells decimal_int ascii_lower plain_findall
      [sample_data_sheet] wb scenario_cfg h Hrun)
    as (Hu & Hv & Ha).
  change (length (global_properties scenario_cfg)) with 1 in Hu.
  exists wb, h.
  split_and!; [done | apply Hu; lia | apply Hu; lia | apply Ha | exact Hv].
Defined.

(** ** The further properties at concrete inputs *)


(** A numeric property with the values "1" and "fast". *)
Lemma reference_sheet_bad_value_witness :
  ∃ msg,
    _append_validation_sheet_ decimal_int decimal_float ascii_lower plain_findall
        Workbook_new mistyped_property None
    = Raise (ValueError msg).
Proof.
  apply (reference_sheet_bad_value decimal_int decimal_float ascii_lower plain_findall
      Workbook_new mistyped_property None
           [mkPropertyValue "1" "slow" "v1" "P2"] []
           (mkPropertyValue "fast" "" "v2" "P2")).
  - compute_done.
  - reflexivity.
  - literal_values.
  - literal_values.
  - intros [H _]. destruct (H eq_refl eq_refl) as [z Hz]. by vm_compute in Hz.
Defined.

(** The sheet of the property "tone_1" on a new workbook and on a
    workbook that holds "Tone_1": the same sheet, titled "tone_1" on
    the one and "tone_11" on the other. *)
Lemma reference_sheet_independent_witness :
  ∃ wb0 new,
    _append_validation_sheet_ decimal_int decimal_float ascii_lower plain_findall
        Workbook_new upper_property None
    = Ok (wb0, Some 1)
    ∧ _append_validation_sheet_ decimal_int decimal_float ascii_lower plain_findall
        Workbook_new lower_property None
      = Ok (Workbook_new ++ [new], Some 1)
    ∧ title new = "tone_1"
    ∧ _append_validation_sheet_ decimal_int decimal_float ascii_lower plain_findall wb0
        lower_property None
      = Ok (wb0 ++ [with_title "tone_11" new], Some 2).
Proof.
  destruct (_append_validation_sheet_ decimal_int decimal_float ascii_lower
      plain_findall Workbook_new upper_property None)
    as [[wb0 r0]|e] eqn:Hrun0; [| by vm_compute in Hrun0].
  assert (r0 = Some 1 ∧ sheetnames wb0 = ["Sheet"; "Tone_1"] ∧ length wb0 = 2)
    as (-> & Hnames & Hlen).
  { vm_compute in Hrun0. injection Hrun0 as <- <-. by vm_compute. }
  destruct (_append_validation_sheet_ decimal_int decimal_float ascii_lower
      plain_findall Workbook_new lower_property None)
    as [[wb' r]|e] eqn:Hrun; [| by vm_compute in Hrun].
  assert (sheet_name_of lower_property ∉ sheetnames Workbook_new) as Hfresh
    by compute_done.
  destruct (append_validation_sheet_fresh decimal_int decimal_float ascii_lower
      plain_findall _ _ _ _ _ Hfresh Hrun)
    as (new & vs & -> & -> & _).
  destruct (reference_sheet_independent decimal_int decimal_float ascii_lower
      plain_findall Workbook_new wb0 lower_property None)
    as [Hok _]; [exact Hfresh | rewrite Hnames; compute_done |].
  destruct (Hok new _ Hrun) as [Ht Hsame].
  exists wb0, new. split_and!; [reflexivity | reflexivity | by rewrite Ht |].
  rewrite Hsame, Hnames, Hlen.
  by replace (avoid_duplicate_name _ _ _ _ _) with "tone_11" by (by vm_compute).
Defined.

(** The reference sheet of a text property with two values, wired to
    column D of a data sheet. *)
Lemma reference_range_covers_values_witness :
  ∃ new ds' rule,
    _append_validation_sheet_ decimal_int decimal_float ascii_lower plain_findall
        Workbook_new
      (mkProperty GlobalProperty "Engagement" "G1" "text" 0
         [mkPropertyValue "Low" "" "g1" "G1"; mkPropertyValue "High" "" "g2" "G1"])
      None
    = Ok (Workbook_new ++ [new], Some 1)
    ∧ _set_validation_ quote_plain sample_data_sheet "D" (Some new) false = Ok ds'
    ∧ data_validations ds' = [rule]
    ∧ formula1 rule = "'Engagement_G1'!$A$2:$A$3"
    ∧ shown new 2 1 = VStr "Low"
    ∧ shown new 3 1 = VStr "High".
Proof.
  set (p := mkProperty GlobalProperty "Engagement" "G1" "text" 0
              [mkPropertyValue "Low" "" "g1" "G1";
               mkPropertyValue "High" "" "g2" "G1"]).
  destruct (_append_validation_sheet_ decimal_int decimal_float ascii_lower
      plain_findall Workbook_new p None)
    as [[wb' r]|e] eqn:Hrun; [| by vm_compute in Hrun].
  assert (sheet_name_of p ∉ sheetnames Workbook_new) as Hfresh by compute_done.
  destruct (append_validation_sheet_fresh decimal_int decimal_float ascii_lower
      plain_findall _ _ _ _ _ Hfresh Hrun)
    as (new & vs & -> & -> & _).
  destruct (_set_validation_ quote_plain sample_data_sheet "D" (Some new) false)
    as [ds'|e] eqn:Hset; [| by vm_compute in Hset].
  destruct (reference_range_covers_values decimal_int decimal_float quote_plain
      ascii_lower plain_findall
              Workbook_new p None new sample_data_sheet ds' _ "D" false
              Hfresh Hrun Hset) as (rule & Hdv & Hf & Ht & Hvals).
  exists new, ds', rule. split_and!; [reflexivity | exact Hset | exact Hdv | | |].
  - rewrite Hf, Ht by compute_done. vm_compute. reflexivity.
  - destruct (Hvals 0 _ eq_refl) as (v & Hs & _ & _ & Hv).
    change (0 + 2) with 2 in Hs. by rewrite Hs, Hv.
  - destruct (Hvals 1 _ eq_refl) as (v & Hs & _ & _ & Hv).
    change (1 + 2) with 3 in Hs. by rewrite Hs, Hv.
Defined.

(** Column D of a data sheet of three rows. *)
Lemma column_validation_rows_witness :
  ∃ ds',
    _set_validation_ quote_plain sample_data_sheet "D"
                     (Some sample_reference_sheet) false = Ok ds'.
Proof.
  destruct (column_validation_rows quote_plain sample_data_sheet
              sample_reference_sheet "D" eq_refl) as [[_ Hrun] _].
  apply Hrun. split; [vm_compute; lia | by vm_compute].
Defined.

(** A rule wired to column D of a data sheet of three rows. *)
Lemma set_validation_frame_witness :
  ∃ ds',
    _set_validation_ quote_plain sample_data_sheet "D"
                     (Some sample_reference_sheet) false = Ok ds'
    ∧ ws_max_row ds' = 3
    ∧ shown ds' 1 1 = VStr "Line"
    ∧ length (validated_ranges ds') = 1.
Proof.
  destruct (_set_validation_ quote_plain sample_data_sheet "D"
              (Some sample_reference_sheet) false) as [ds'|e] eqn:Hset;
    [| by vm_compute in Hset].
  destruct (set_validation_frame quote_plain sample_data_sheet ds' "D"
              (Some sample_reference_sheet) false Hset)
    as (rule & _ & Hmr & _ & Hshown & Hv & Hlen).
  exists ds'. split_and!; [done | by rewrite Hmr | by rewrite Hshown |].
  rewrite Hv. exact Hlen.
Defined.


(** The global sheet of the scenario, made on a workbook of one sheet. *)
Lemma global_sheet_placement_witness :
  ∃ sheet,
    _build_global_sheet_ decimal_int ascii_lower plain_findall [sample_data_sheet]
        scenario_cfg
    = Ok ([sample_data_sheet; sheet], 1)
    ∧ sheetnames [sample_data_sheet; sheet] = ["Interview"; "Global Ratings"]
    ∧ protection_password sheet = Some "Globals".
Proof.
  destruct (_build_global_sheet_ decimal_int ascii_lower plain_findall
      [sample_data_sheet] scenario_cfg)
    as [[wb' h]|e] eqn:Hrun; [| by vm_compute in Hrun].
  destruct (global_sheet_placement decimal_int ascii_lower plain_findall
      [sample_data_sheet] wb' scenario_cfg h)
    as (sheet & -> & -> & _ & Hn & _ & Hpw & _); [compute_done | exact Hrun |].
  exists sheet. split_and!; [reflexivity | exact Hn | exact Hpw].
Defined.

(** The borders of the global sheet of the scenario: A2 and B2 are
    bordered, C2 is not. *)
Lemma global_sheet_borders_witness :
  ∃ wb h,
    _build_global_sheet_ decimal_int ascii_lower plain_findall [sample_data_sheet]
        scenario_cfg = Ok (wb, h)
    ∧ is_bordered (sheet_at wb h) 2 1 = true
    ∧ is_bordered (sheet_at wb h) 2 2 = true
    ∧ is_bordered (sheet_at wb h) 2 3 = false.
Proof.
  destruct (_build_global_sheet_ decimal_int ascii_lower plain_findall
      [sample_data_sheet] scenario_cfg)
    as [[wb h]|e] eqn:Hrun; [| by vm_compute in Hrun].
  destruct (global_sheet_borders decimal_int ascii_lower plain_findall
      [sample_data_sheet] wb scenario_cfg h Hrun)
    as (Hb & _ & _).
  change (length (global_properties scenario_cfg)) with 1 in Hb.
  exists wb, h. split_and!; [done | apply Hb; lia | apply Hb; lia |].
  destruct (is_bordered (sheet_at wb h) 2 3) eqn:E; [| done].
  apply Hb in E. lia.
Defined.

(** The interview sheet of the scenario: D2 is unlocked, D3 is not. *)
Lemma interview_unlocked_cells_witness :
  ∃ wb h,
    _build_interview_sheet_ decimal_int ascii_lower plain_findall Workbook_new
        scenario_cfg scenario_iv = Ok (wb, h)
    ∧ is_unlocked (sheet_at wb h) 2 4 = true
    ∧ is_unlocked (sheet_at wb h) 3 4 = false.
Proof.
  destruct (_build_interview_sheet_ decimal_int ascii_lower plain_findall Workbook_new
      scenario_cfg scenario_iv)
    as [[wb h]|e] eqn:Hrun; [| by vm_compute in Hrun].
  pose proof (interview_unlocked_cells decimal_int ascii_lower plain_findall
      scenario_cfg scenario_iv wb h Hrun) as Hu.
  change (length (utterances scenario_iv)) with 2 in Hu.
  change (length (coding_properties scenario_cfg)) with 1 in Hu.
  exists wb, h. split_and!; [done | apply Hu; lia |].
  destruct (is_unlocked (sheet_at wb h) 3 4) eqn:E; [| done].
  apply Hu in E. lia.
Defined.

(** The attributes of the interview sheet of the scenario; its text
    column is E. *)
Lemma interview_sheet_attributes_witness :
  ∃ sheet,
    _build_interview_sheet_ decimal_int ascii_lower plain_findall Workbook_new
        scenario_cfg scenario_iv
    = Ok ([sheet], 0)
    ∧ title sheet = "Interview"
    ∧ protection_password sheet = Some "Interview"
    ∧ column_widths sheet = {["E" := (9071 # 100)%Q]}.
Proof.
  destruct (_build_interview_sheet_ decimal_int ascii_lower plain_findall Workbook_new
      scenario_cfg scenario_iv)
    as [[wb h]|e] eqn:Hrun; [| by vm_compute in Hrun].
  destruct (interview_sheet_attributes decimal_int ascii_lower plain_findall
      scenario_cfg scenario_iv wb h Hrun)
    as (sheet & letter & -> & -> & Ht & _ & _ & Hpw & _ & _ & Hl & Hcw).
  vm_compute in Hl. injection Hl as <-.
  exists sheet. split_and!; [reflexivity | exact Ht | exact Hpw | exact Hcw].
Defined.

(** The styles of the interview sheet of the scenario: E2 is aligned,
    D2 is not, A3 is bordered. *)
Lemma interview_sheet_styles_witness :
  ∃ wb h,
    _build_interview_sheet_ decimal_int ascii_lower plain_findall Workbook_new
        scenario_cfg scenario_iv = Ok (wb, h)
    ∧ is_aligned (sheet_at wb h) 2 5 = true
    ∧ is_aligned (sheet_at wb h) 2 4 = false
    ∧ is_bordered (sheet_at wb h) 3 1 = true.
Proof.
  destruct (_build_interview_sheet_ decimal_int ascii_lower plain_findall Workbook_new
      scenario_cfg scenario_iv)
    as [[wb h]|e] eqn:Hrun; [| by vm_compute in Hrun].
  destruct (interview_sheet_styles decimal_int ascii_lower plain_findall scenario_cfg
      scenario_iv wb h Hrun)
    as (Hb & Ha & _).
  change (length (utterances scenario_iv)) with 2 in Hb, Ha.
  change (length (coding_properties scenario_cfg)) with 1 in Hb, Ha.
  exists wb, h. split_and!; [done | apply Ha; lia | | apply Hb; lia].
  destruct (is_aligned (sheet_at wb h) 2 4) eqn:E; [| done].
  apply Ha in E. lia.
Defined.

Ltac scenario_names :=
  apply NoDup_lower_case_distinct; compute_done.

(** The workbook of the scenario, taken apart. *)
Lemma ia2xl_assembly_witness :
  ∃ wb s0 gs r1 r2,
    ia2xl decimal_int decimal_float quote_plain ascii_lower plain_findall scenario_cfg
        scenario_iv = Ok wb
    ∧ _build_interview_sheet_ decimal_int ascii_lower plain_findall Workbook_new
        scenario_cfg scenario_iv
      = Ok ([s0], 0)
    ∧ _build_global_sheet_ decimal_int ascii_lower plain_findall [s0] scenario_cfg = Ok
        ([s0; gs], 1)
    ∧ wb = [with_validations
              [mkDataValidation "list" "'Intensity_P1'!$A$2:$A$4" true
                                [mkCellRange 4 2 4 3]] s0;
            with_validations
              [mkDataValidation "list" "'Engagement_G1'!$A$2:$A$3" true
                                [mkCellRange 2 2 2 2]] gs;
            r1; r2].
Proof.
  destruct (ia2xl decimal_int decimal_float quote_plain ascii_lower plain_findall
      scenario_cfg scenario_iv)
    as [wb|e] eqn:Hrun; [| by vm_compute in Hrun].
  destruct (ia2xl_assembly decimal_int decimal_float quote_plain ascii_lower
      plain_findall scenario_cfg scenario_iv wb)
    as (s0 & gs & refs & Hint & Hgs & Hrefs & ->); [scenario_names | exact Hrun |].
  inversion Hrefs as [|? r1 ? refs1 _ Hrefs1]; subst.
  inversion Hrefs1 as [|? r2 ? refs2 _ Hrefs2]; subst.
  inversion Hrefs2; subst.
  eexists _, s0, gs, r1, r2. split_and!; [reflexivity | exact Hint | exact Hgs |].
  reflexivity.
Defined.

(** The sheet names of the workbook of the scenario. *)
Lemma ia2xl_sheetnames_witness :
  ∃ wb,
    ia2xl decimal_int decimal_float quote_plain ascii_lower plain_findall scenario_cfg
        scenario_iv = Ok wb
    ∧ sheetnames wb
      = ["Interview"; "Global Ratings"; "Intensity_P1"; "Engagement_G1"]
    ∧ length wb = 4.
Proof.
  destruct (ia2xl decimal_int decimal_float quote_plain ascii_lower plain_findall
      scenario_cfg scenario_iv)
    as [wb|e] eqn:Hrun; [| by vm_compute in Hrun].
  destruct (ia2xl_sheetnames decimal_int decimal_float quote_plain ascii_lower
      plain_findall scenario_cfg scenario_iv wb)
    as (Hn & _ & Hlen); [scenario_names | exact Hrun |].
  exists wb. split_and!; [done | exact Hn | exact Hlen].
Defined.

(** The reference sheet of the global property of the scenario. *)
Lemma ia2xl_reference_sheets_witness :
  ∃ wb ws,
    ia2xl decimal_int decimal_float quote_plain ascii_lower plain_findall scenario_cfg
        scenario_iv = Ok wb
    ∧ wb !! 3 = Some ws
    ∧ title ws = "Engagement_G1"
    ∧ sheet_state ws = "hidden"
    ∧ shown ws 2 1 = VStr "Low"
    ∧ shown ws 2 2 = VStr "".
Proof.
  destruct (ia2xl decimal_int decimal_float quote_plain ascii_lower plain_findall
      scenario_cfg scenario_iv)
    as [wb|e] eqn:Hrun; [| by vm_compute in Hrun].
  destruct (ia2xl_reference_sheets decimal_int decimal_float quote_plain ascii_lower
      plain_findall scenario_cfg scenario_iv wb 1
              (mkProperty GlobalProperty "Engagement" "G1" "text" 0
                 [mkPropertyValue "Low" "" "g1" "G1";
                  mkPropertyValue "High" "" "g2" "G1"]))
    as (ws & Hws & Ht & Hst & _ & _ & _ & _ & _ & Hvals);
    [scenario_names | exact Hrun | reflexivity |].
  destruct (Hvals 0 _ eq_refl) as [(v & (_ & _ & Hv) & Hs) Hd].
  change (0 + 2) with 2 in Hs, Hd.
  exists wb, ws. split_and!; [done | exact Hws | exact Ht | exact Hst | | exact Hd].
  by rewrite Hs, Hv.
Defined.

(** The rule of the coding property of the scenario sits under its
    header. *)
Lemma ia2xl_wiring_agrees_witness :
  ∃ wb,
    ia2xl decimal_int decimal_float quote_plain ascii_lower plain_findall scenario_cfg
        scenario_iv = Ok wb
    ∧ shown (sheet_at wb 0) 1 4 = VStr "Intensity"
    ∧ data_validations (sheet_at wb 0) !! 0
      = Some (mkDataValidation "list" "'Intensity_P1'!$A$2:$A$4" true
                               [mkCellRange 4 2 4 3])
    ∧ shown (sheet_at wb 1) 2 1 = VStr "Engagement".
Proof.
  destruct (ia2xl decimal_int decimal_float quote_plain ascii_lower plain_findall
      scenario_cfg scenario_iv)
    as [wb|e] eqn:Hrun; [| by vm_compute in Hrun].
  destruct (ia2xl_wiring_agrees decimal_int decimal_float quote_plain ascii_lower
      plain_findall scenario_cfg scenario_iv wb) as (Hc & Hg & _);
    [compute_done | compute_done | scenario_names | exact Hrun |].
  destruct (Hc 0 _ eq_refl) as [Hs Hr]. destruct (Hg 0 _ eq_refl) as [Hs' _].
  exists wb. split_and!; [done | exact Hs | exact Hr | exact Hs'].
Defined.

(** The entry cells of the workbook of the scenario. *)
Lemma ia2xl_entry_cells_witness :
  ∃ wb,
    ia2xl decimal_int decimal_float quote_plain ascii_lower plain_findall scenario_cfg
        scenario_iv = Ok wb
    ∧ is_unlocked (sheet_at wb 0) 2 4 = true
    ∧ is_unlocked (sheet_at wb 0) 3 4 = false
    ∧ is_unlocked (sheet_at wb 1) 2 2 = true.
Proof.
  destruct (ia2xl decimal_int decimal_float quote_plain ascii_lower plain_findall
      scenario_cfg scenario_iv)
    as [wb|e] eqn:Hrun; [| by vm_compute in Hrun].
  destruct (ia2xl_entry_cells decimal_int decimal_float quote_plain ascii_lower
      plain_findall scenario_cfg scenario_iv wb) as (Hu0 & Hu1 & _);
    [compute_done | compute_done | exact Hrun |].
  change (length (utterances scenario_iv)) with 2 in Hu0.
  change (length (coding_properties scenario_cfg)) with 1 in Hu0.
  change (length (global_properties scenario_cfg)) with 1 in Hu1.
  exists wb. split_and!; [done | apply Hu0; lia | | apply Hu1; lia].
  destruct (is_unlocked (sheet_at wb 0) 3 4) eqn:E; [| done].
  apply Hu0 in E. lia.
Defined.



(** A numeric coding property with the values "1" and "fast". *)
Lemma ia2xl_bad_value_witness :
  ∃ msg,
    ia2xl decimal_int decimal_float quote_plain ascii_lower plain_findall mistyped_cfg
        scenario_iv = Raise (ValueError msg).
Proof.
  apply (ia2xl_bad_value decimal_int decimal_float quote_plain ascii_lower plain_findall
      mistyped_cfg scenario_iv [] [] mistyped_property
           [mkPropertyValue "1" "slow" "v1" "P2"] []
           (mkPropertyValue "fast" "" "v2" "P2")).
  - compute_done.
  - compute_done.
  - reflexivity.
  - vm_compute. lia.
  - intros _. split; [done | by vm_compute].
  - by vm_compute.
  - compute_done.
  - constructor.
  - literal_values.
  - literal_values.
  - compute_done.
  - reflexivity.
  - literal_values.
  - literal_values.
  - intros [H _]. destruct (H eq_refl eq_refl) as [z Hz]. by vm_compute in Hz.
Defined.

(** The reference sheet of a property requested twice on a new
    workbook. *)
Lemma reference_sheet_idempotent_witness :
  ∃ wb1 r1,
    _append_validation_sheet_ decimal_int decimal_float ascii_lower plain_findall
        Workbook_new empty_property None = Ok (wb1, r1)
    ∧ _append_validation_sheet_ decimal_int decimal_float ascii_lower plain_findall wb1
        empty_property None = Ok (wb1, None)
    ∧ length (filter (λ ws, title ws = "Rapport_G2") wb1) = 1.
Proof.
  destruct (_append_validation_sheet_ decimal_int decimal_float ascii_lower
      plain_findall Workbook_new empty_property None)
    as [[wb1 r1]|e] eqn:Hrun; [| by vm_compute in Hrun].
  exists wb1, r1. split; [done |].
  apply (reference_sheet_idempotent decimal_int decimal_float ascii_lower plain_findall
      Workbook_new wb1 empty_property None None r1).
  - compute_done.
  - intros n Hn E. change (sheetnames Workbook_new) with ["Sheet"] in Hn.
    apply list_elem_of_singleton in Hn as ->. by vm_compute in E.
  - exact Hrun.
Defined.
